(** * react-service-logs: the service-log slice, its persistence helpers and
      the filtered view, embedded in Rocq.

    Sources embedded here:
    - [src/serviceLogSlice.ts]: the data model, [validateServiceLog], the
      case reducers of the slice, [persistToLocalStorage] and
      [loadFromLocalStorage];
    - [ServiceLogManager.tsx]: the derived [filteredLogs] projection.

    Conventions.
    - A JavaScript string is a [string]; each [ascii] stands for one UTF-16
      code unit below 256 (the Latin-1 range).
    - A JavaScript number is a [number]: [NaN], an infinity, or a finite
      value carried as a rational. The two zeros are one value: the sources
      compare numbers with [<], print them with [toString] and write them
      with [JSON.stringify], none of which tells [-0] from [0], so equality
      of numbers here is that of [===].
    - A time value (the content of a [Date] object) is an [option Z]:
      milliseconds since the epoch, or [None] for an invalid date.
    - What the host environment decides (the local time zone, the parsing of
      date strings outside the date-only ISO form, the rendering of numbers)
      is a field of the class [Host].
    - What the clock and [Math.random] return during one reducer call is an
      [Env]. *)

From Stdlib Require Import ZArith QArith String Ascii List Lia Bool.
From stdpp Require Import base list gmap strings.

Close Scope Q_scope.
Open Scope Z_scope.

(** ** Completions: a reducer either returns normally or throws. *)

Inductive completion (A : Type) : Type :=
| Normal (a : A)
| ThrowRangeError.
Arguments Normal {A} a.
Arguments ThrowRangeError {A}.

Definition cbind {A B} (c : completion A) (k : A -> completion B) : completion B :=
  match c with
  | Normal a => k a
  | ThrowRangeError => ThrowRangeError
  end.

Notation "'let!' x ':=' c 'in' k" := (cbind c (fun x => k))
  (at level 10, x name, c at level 100, k at level 200).

(** ** The JavaScript values and built-ins the sources rely on. *)

Module JS.

(** *** Numbers *)

Inductive number : Type :=
| NaN
| Infinity (negative : bool)
| Finite (q : Q).

(** [n < 0] *)
Definition lt0 (n : number) : bool :=
  match n with
  | NaN => false
  | Infinity negative => negative
  | Finite q => Qnum q <? 0
  end.

(** [n >= 0] *)
Definition ge0 (n : number) : bool :=
  match n with
  | NaN => false
  | Infinity negative => negb negative
  | Finite q => 0 <=? Qnum q
  end.

Definition ofZ (z : Z) : number := Finite (inject_Z z).

(** *** Strings *)

(** White space and line terminators among the code units below 256:
    TAB, LF, VT, FF, CR, SP and NBSP. *)
Definition isWhiteSpace (c : ascii) : bool :=
  match N_of_ascii c with
  | 9 | 10 | 11 | 12 | 13 | 32 | 160 => true
  | _ => false
  end%N.

Fixpoint trimStart (s : string) : string :=
  match s with
  | EmptyString => EmptyString
  | String c s' => if isWhiteSpace c then trimStart s' else s
  end.

Fixpoint trimEnd (s : string) : string :=
  match s with
  | EmptyString => EmptyString
  | String c s' =>
      match trimEnd s' with
      | EmptyString => if isWhiteSpace c then EmptyString else String c EmptyString
      | t => String c t
      end
  end.

(** [s.trim()] *)
Definition trim (s : string) : string := trimEnd (trimStart s).

(** [!s] for a string. *)
Definition falsy (s : string) : bool :=
  match s with
  | EmptyString => true
  | String _ _ => false
  end.

(** [!s?.trim()] for an optional string. *)
Definition blank (o : option string) : bool :=
  match o with
  | None => true
  | Some s => falsy (trim s)
  end.

(** Lower-casing of one code unit below 256: A-Z, and the Latin-1 capitals
    other than the multiplication sign. *)
Definition lowerChar (c : ascii) : ascii :=
  let n := N_of_ascii c in
  if ((65 <=? n) && (n <=? 90) || (192 <=? n) && (n <=? 222) && negb (n =? 215))%N
  then ascii_of_N (n + 32)
  else c.

(** [s.toLowerCase()] *)
Fixpoint toLowerCase (s : string) : string :=
  match s with
  | EmptyString => EmptyString
  | String c s' => String (lowerChar c) (toLowerCase s')
  end.

(** [s.includes(t)] *)
Fixpoint includes (s t : string) : bool :=
  String.prefix t s ||
  match s with
  | EmptyString => false
  | String _ s' => includes s' t
  end.

(** [a <= b] and [a >= b] on strings: code-unit lexicographic order. *)
Definition str_le (a b : string) : bool := String.leb a b.
Definition str_ge (a b : string) : bool := String.leb b a.

(** [s.split(c)[0]]: the part of [s] before the first [c]. *)
Fixpoint split0 (c : ascii) (s : string) : string :=
  match s with
  | EmptyString => EmptyString
  | String x s' => if Ascii.eqb x c then EmptyString else String x (split0 c s')
  end.

(** Decimal rendering. [digits w n acc] puts the [w] low decimal digits of
    [n] in front of [acc]. *)
Definition digitChar (d : Z) : ascii := ascii_of_N (48 + Z.to_N d).

Fixpoint digits (w : nat) (n : Z) (acc : string) : string :=
  match w with
  | O => acc
  | S w' => digits w' (n / 10) (String (digitChar (n mod 10)) acc)
  end.

Definition pad (w : nat) (n : Z) : string := digits w n EmptyString.

(** Number of decimal digits of a non-negative integer (at least one). *)
Definition ndigits (n : Z) : nat := S (Z.to_nat (Z.log2 n) / 3).

Fixpoint stripZeros (s : string) : string :=
  match s with
  | String c (String _ _ as s') => if Ascii.eqb c "0" then stripZeros s' else s
  | _ => s
  end.

(** [`${n}`] for an integer [n]. *)
Definition intToString (n : Z) : string :=
  if n <? 0 then String "-" (stripZeros (pad (ndigits (- n)) (- n)))
  else stripZeros (pad (ndigits n) n).

(** *** Time values (ECMAScript, "Time Values and Time Range") *)

Definition msPerDay : Z := 86400000.
Definition msPerHour : Z := 3600000.
Definition msPerMinute : Z := 60000.
Definition msPerSecond : Z := 1000.

Definition Day (t : Z) : Z := t / msPerDay.
Definition TimeWithinDay (t : Z) : Z := t mod msPerDay.

Definition DaysInYear (y : Z) : Z :=
  if negb (y mod 4 =? 0) then 365
  else if negb (y mod 100 =? 0) then 366
  else if negb (y mod 400 =? 0) then 365
  else 366.

Definition DayFromYear (y : Z) : Z :=
  365 * (y - 1970) + (y - 1969) / 4 - (y - 1901) / 100 + (y - 1601) / 400.

Definition TimeFromYear (y : Z) : Z := msPerDay * DayFromYear y.

(** The year containing day number [d]: the largest [y] with
    [DayFromYear y <= d], found from an estimate that is off by at most
    one. *)
Definition YearFromDay (d : Z) : Z :=
  let y := 1970 + (400 * d) / 146097 in
  if DayFromYear (y + 1) <=? d then y + 1
  else if d <? DayFromYear y then y - 1
  else y.

Definition YearFromTime (t : Z) : Z := YearFromDay (Day t).

Definition leapDays (y : Z) : Z := if DaysInYear y =? 366 then 1 else 0.

Definition InLeapYear (t : Z) : Z := leapDays (YearFromTime t).

Definition DayWithinYear (t : Z) : Z := Day t - DayFromYear (YearFromTime t).

(** Day within the year on which month [m] (0 to 11) starts; [m = 12]
    gives the length of the year. [leap] is 0 or 1. *)
Definition monthStart (m leap : Z) : Z :=
  match m with
  | 0 => 0
  | 1 => 31
  | 2 => 59 + leap
  | 3 => 90 + leap
  | 4 => 120 + leap
  | 5 => 151 + leap
  | 6 => 181 + leap
  | 7 => 212 + leap
  | 8 => 243 + leap
  | 9 => 273 + leap
  | 10 => 304 + leap
  | 11 => 334 + leap
  | _ => 365 + leap
  end.

Definition monthOfDay (d leap : Z) : Z :=
  if d <? 31 then 0
  else if d <? 59 + leap then 1
  else if d <? 90 + leap then 2
  else if d <? 120 + leap then 3
  else if d <? 151 + leap then 4
  else if d <? 181 + leap then 5
  else if d <? 212 + leap then 6
  else if d <? 243 + leap then 7
  else if d <? 273 + leap then 8
  else if d <? 304 + leap then 9
  else if d <? 334 + leap then 10
  else 11.

Definition MonthFromTime (t : Z) : Z := monthOfDay (DayWithinYear t) (InLeapYear t).

Definition DateFromTime (t : Z) : Z :=
  DayWithinYear t - monthStart (MonthFromTime t) (InLeapYear t) + 1.

Definition HourFromTime (t : Z) : Z := (t / msPerHour) mod 24.
Definition MinFromTime (t : Z) : Z := (t / msPerMinute) mod 60.
Definition SecFromTime (t : Z) : Z := (t / msPerSecond) mod 60.
Definition msFromTime (t : Z) : Z := t mod msPerSecond.

Definition MakeDay (year month date : Z) : Z :=
  let ym := year + month / 12 in
  let mn := month mod 12 in
  DayFromYear ym + monthStart mn (leapDays ym) + date - 1.

Definition MakeDate (day time : Z) : Z := day * msPerDay + time.

Definition TimeClip (t : Z) : option Z :=
  if 8640000000000000 <? Z.abs t then None else Some t.

(** *** The host environment *)

Class Host : Type := {
  (** Offset of local time from UTC in milliseconds, at a time value that
      is UTC ([true]) or local ([false]). *)
  LocalTZA : Z -> bool -> Z;
  (** [Date.parse] on a string that is not a calendar date in the
      date-only form [YYYY-MM-DD]. *)
  parseOther : string -> option Z;
  (** [Number.prototype.toString]. *)
  numberToString : number -> string
}.

Section WithHost.
Context {host : Host}.

Definition LocalTime (t : Z) : Z := t + LocalTZA t true.
Definition UTC (t : Z) : Z := t - LocalTZA t false.

(** *** [Date.parse] and [new Date(string)] *)

Definition digitVal (c : ascii) : option Z :=
  let n := N_of_ascii c in
  if ((48 <=? n) && (n <=? 57))%N then Some (Z.of_N n - 48) else None.

(** The three numbers of a string of the shape [dddd-dd-dd]. *)
Definition parseDateOnly (s : string) : option (Z * Z * Z) :=
  match s with
  | String y1 (String y2 (String y3 (String y4 (String "-"
      (String m1 (String m2 (String "-"
        (String d1 (String d2 EmptyString))))))))) =>
      match digitVal y1, digitVal y2, digitVal y3, digitVal y4,
            digitVal m1, digitVal m2, digitVal d1, digitVal d2 with
      | Some a, Some b, Some c, Some d, Some e, Some f, Some g, Some h =>
          Some (1000 * a + 100 * b + 10 * c + d, 10 * e + f, 10 * g + h)
      | _, _, _, _, _, _, _, _ => None
      end
  | _ => None
  end.

(** Length of month [m] (1 to 12) of year [y]. *)
Definition DaysInMonth (y m : Z) : Z :=
  monthStart m (leapDays y) - monthStart (m - 1) (leapDays y).

Definition validDate (y m d : Z) : bool :=
  (1 <=? m) && (m <=? 12) && (1 <=? d) && (d <=? DaysInMonth y m).

Definition Date_parse (s : string) : option Z :=
  match parseDateOnly s with
  | Some (y, m, d) =>
      if validDate y m d then Some (MakeDate (MakeDay y (m - 1) d) 0)
      else parseOther s
  | None => parseOther s
  end.

(** [date.getDate()]; [None] is NaN. *)
Definition getDate (tv : option Z) : option Z :=
  match tv with
  | Some t => Some (DateFromTime (LocalTime t))
  | None => None
  end.

(** The time value after [date.setDate(dt)]. *)
Definition setDate (tv : option Z) (dt : option Z) : option Z :=
  match tv, dt with
  | Some t, Some dt =>
      let lt := LocalTime t in
      TimeClip (UTC (MakeDate (MakeDay (YearFromTime lt) (MonthFromTime lt) dt)
                              (TimeWithinDay lt)))
  | _, _ => None
  end.

(** [x + 1] on a number that may be NaN. *)
Definition plus1 (x : option Z) : option Z :=
  match x with
  | Some n => Some (n + 1)
  | None => None
  end.

End WithHost.

(** *** [toISOString] *)

Definition yearString (y : Z) : string :=
  if (0 <=? y) && (y <=? 9999) then pad 4 y
  else String (if y <? 0 then "-"%char else "+"%char) (pad 6 (Z.abs y)).

Definition isoDateString (t : Z) : string :=
  yearString (YearFromTime t) +:+ "-" +:+ pad 2 (MonthFromTime t + 1)
    +:+ "-" +:+ pad 2 (DateFromTime t).

Definition isoTimeString (t : Z) : string :=
  pad 2 (HourFromTime t) +:+ ":" +:+ pad 2 (MinFromTime t) +:+ ":"
    +:+ pad 2 (SecFromTime t) +:+ "." +:+ pad 3 (msFromTime t) +:+ "Z".

(** A character other than the separator [T] of the ISO format. *)
Definition plainChar (c : ascii) : Prop := c <> "T"%char.

(** [date.toISOString()]: throws a RangeError on an invalid date. *)
Definition toISOString (tv : option Z) : completion string :=
  match tv with
  | Some t => Normal (isoDateString t +:+ "T" +:+ isoTimeString t)
  | None => ThrowRangeError
  end.

End JS.

(** ** The data model of [serviceLogSlice.ts] *)

Inductive ServiceType : Type := planned | unplanned | emergency.

#[global] Instance ServiceType_eq_dec : EqDecision ServiceType.
Proof. solve_decision. Defined.

(** The fields a [ServiceLog] and a [Draft] share:
    [Omit<ServiceLog, 'id' | 'createdAt'>]. *)
Module Fields.
Record t : Type := mk {
  providerId : string;
  serviceOrder : string;
  carId : string;
  odometer : JS.number;
  engineHours : JS.number;
  startDate : string;
  endDate : string;
  type : ServiceType;
  serviceDescription : string
}.

(** A shared key together with the value written to it. *)
Inductive update : Type :=
| set_providerId (v : string)
| set_serviceOrder (v : string)
| set_carId (v : string)
| set_odometer (v : JS.number)
| set_engineHours (v : JS.number)
| set_startDate (v : string)
| set_endDate (v : string)
| set_type (v : ServiceType)
| set_serviceDescription (v : string).

Definition with_endDate (v : string) (f : t) : t :=
  mk (providerId f) (serviceOrder f) (carId f) (odometer f) (engineHours f)
     (startDate f) v (type f) (serviceDescription f).

(** [obj[field] = value] *)
Definition assign (u : update) (f : t) : t :=
  match u with
  | set_providerId v =>
      mk v (serviceOrder f) (carId f) (odometer f) (engineHours f)
         (startDate f) (endDate f) (type f) (serviceDescription f)
  | set_serviceOrder v =>
      mk (providerId f) v (carId f) (odometer f) (engineHours f)
         (startDate f) (endDate f) (type f) (serviceDescription f)
  | set_carId v =>
      mk (providerId f) (serviceOrder f) v (odometer f) (engineHours f)
         (startDate f) (endDate f) (type f) (serviceDescription f)
  | set_odometer v =>
      mk (providerId f) (serviceOrder f) (carId f) v (engineHours f)
         (startDate f) (endDate f) (type f) (serviceDescription f)
  | set_engineHours v =>
      mk (providerId f) (serviceOrder f) (carId f) (odometer f) v
         (startDate f) (endDate f) (type f) (serviceDescription f)
  | set_startDate v =>
      mk (providerId f) (serviceOrder f) (carId f) (odometer f) (engineHours f)
         v (endDate f) (type f) (serviceDescription f)
  | set_endDate v => with_endDate v f
  | set_type v =>
      mk (providerId f) (serviceOrder f) (carId f) (odometer f) (engineHours f)
         (startDate f) (endDate f) v (serviceDescription f)
  | set_serviceDescription v =>
      mk (providerId f) (serviceOrder f) (carId f) (odometer f) (engineHours f)
         (startDate f) (endDate f) (type f) v
  end.

(** [field === 'startDate' && value]: the value when the key is
    [startDate] and the value is a non-empty string. *)
Definition truthyStartDate (u : update) : option string :=
  match u with
  | set_startDate v => if JS.falsy v then None else Some v
  | _ => None
  end.
End Fields.

(** [ServiceLog]. An object built by spreading a draft also carries the
    draft's [lastSaved] and [isDirty] properties; they are absent ([None])
    on an object that has only the declared properties. *)
Module ServiceLog.
Record t : Type := mk {
  id : string;
  fields : Fields.t;
  createdAt : string;
  lastSaved : option string;
  isDirty : option bool
}.

(** [keyof ServiceLog] with the value written. *)
Inductive update : Type :=
| set_id (v : string)
| set_createdAt (v : string)
| set_field (u : Fields.update).

Definition with_fields (f : Fields.t) (l : t) : t :=
  mk (id l) f (createdAt l) (lastSaved l) (isDirty l).

(** [{ ...log, [field]: value }] *)
Definition assign (u : update) (l : t) : t :=
  match u with
  | set_id v => mk v (fields l) (createdAt l) (lastSaved l) (isDirty l)
  | set_createdAt v => mk (id l) (fields l) v (lastSaved l) (isDirty l)
  | set_field u => with_fields (Fields.assign u (fields l)) l
  end.

Definition truthyStartDate (u : update) : option string :=
  match u with
  | set_field u => Fields.truthyStartDate u
  | _ => None
  end.
End ServiceLog.

Module Draft.
Record t : Type := mk {
  id : string;
  fields : Fields.t;
  lastSaved : string;
  isDirty : bool
}.

(** [keyof Draft] with the value written. *)
Inductive update : Type :=
| set_id (v : string)
| set_lastSaved (v : string)
| set_isDirty (v : bool)
| set_field (u : Fields.update).

Definition with_fields (f : Fields.t) (d : t) : t :=
  mk (id d) f (lastSaved d) (isDirty d).
Definition with_lastSaved (v : string) (d : t) : t :=
  mk (id d) (fields d) v (isDirty d).
Definition with_isDirty (v : bool) (d : t) : t :=
  mk (id d) (fields d) (lastSaved d) v.

(** [draft[field] = value] *)
Definition assign (u : update) (d : t) : t :=
  match u with
  | set_id v => mk v (fields d) (lastSaved d) (isDirty d)
  | set_lastSaved v => with_lastSaved v d
  | set_isDirty v => with_isDirty v d
  | set_field u => with_fields (Fields.assign u (fields d)) d
  end.

Definition truthyStartDate (u : update) : option string :=
  match u with
  | set_field u => Fields.truthyStartDate u
  | _ => None
  end.
End Draft.

Module Filters.
(** [type] is [None] for the empty string. *)
Record t : Type := mk {
  startDateFrom : string;
  startDateTo : string;
  type : option ServiceType
}.

(** [Partial<Filters>] *)
Record partial : Type := mkPartial {
  p_startDateFrom : option string;
  p_startDateTo : option string;
  p_type : option (option ServiceType)
}.

(** [{ ...filters, ...payload }] *)
Definition merge (f : t) (p : partial) : t :=
  mk (default (startDateFrom f) (p_startDateFrom p))
     (default (startDateTo f) (p_startDateTo p))
     (default (type f) (p_type p)).
End Filters.

Inductive SaveStatus : Type := idle | saving | saved.

Record RootStateServiceLog : Type := mkState {
  serviceLogs : list ServiceLog.t;
  drafts : list Draft.t;
  currentDraft : option Draft.t;
  searchTerm : string;
  filters : Filters.t;
  editingLog : option ServiceLog.t;
  saveStatus : SaveStatus;
  validationErrors : list string;
  showFilters : bool
}.

(** [state.field = v], one setter per field of the state. *)
Definition set_serviceLogs v (s : RootStateServiceLog) :=
  mkState v (drafts s) (currentDraft s) (searchTerm s) (filters s)
          (editingLog s) (saveStatus s) (validationErrors s) (showFilters s).
Definition set_drafts v (s : RootStateServiceLog) :=
  mkState (serviceLogs s) v (currentDraft s) (searchTerm s) (filters s)
          (editingLog s) (saveStatus s) (validationErrors s) (showFilters s).
Definition set_currentDraft v (s : RootStateServiceLog) :=
  mkState (serviceLogs s) (drafts s) v (searchTerm s) (filters s)
          (editingLog s) (saveStatus s) (validationErrors s) (showFilters s).
Definition set_searchTerm v (s : RootStateServiceLog) :=
  mkState (serviceLogs s) (drafts s) (currentDraft s) v (filters s)
          (editingLog s) (saveStatus s) (validationErrors s) (showFilters s).
Definition set_filters v (s : RootStateServiceLog) :=
  mkState (serviceLogs s) (drafts s) (currentDraft s) (searchTerm s) v
          (editingLog s) (saveStatus s) (validationErrors s) (showFilters s).
Definition set_editingLog v (s : RootStateServiceLog) :=
  mkState (serviceLogs s) (drafts s) (currentDraft s) (searchTerm s) (filters s)
          v (saveStatus s) (validationErrors s) (showFilters s).
Definition set_saveStatus v (s : RootStateServiceLog) :=
  mkState (serviceLogs s) (drafts s) (currentDraft s) (searchTerm s) (filters s)
          (editingLog s) v (validationErrors s) (showFilters s).
Definition set_validationErrors v (s : RootStateServiceLog) :=
  mkState (serviceLogs s) (drafts s) (currentDraft s) (searchTerm s) (filters s)
          (editingLog s) (saveStatus s) v (showFilters s).
Definition set_showFilters v (s : RootStateServiceLog) :=
  mkState (serviceLogs s) (drafts s) (currentDraft s) (searchTerm s) (filters s)
          (editingLog s) (saveStatus s) (validationErrors s) v.

Definition initialState : RootStateServiceLog :=
  mkState [] [] None "" (Filters.mk "" "" None) None idle [] false.

(** [Partial<ServiceLog> | Partial<Draft>], restricted to the properties
    [validateServiceLog] reads. *)
Module Partial.
Record t : Type := mk {
  providerId : option string;
  serviceOrder : option string;
  carId : option string;
  odometer : option JS.number;
  engineHours : option JS.number;
  startDate : option string;
  endDate : option string;
  serviceDescription : option string
}.

Definition of_fields (f : Fields.t) : t :=
  mk (Some (Fields.providerId f)) (Some (Fields.serviceOrder f))
     (Some (Fields.carId f)) (Some (Fields.odometer f))
     (Some (Fields.engineHours f)) (Some (Fields.startDate f))
     (Some (Fields.endDate f)) (Some (Fields.serviceDescription f)).
End Partial.

(** What the clock and the random generator return during one reducer call:
    [clock k] is the [k]-th reading ([new Date()] or [Date.now()]), [random]
    is [Math.random().toString(36).slice(2, 9)]. *)
Record Env : Type := mkEnv {
  clock : nat -> Z;
  random : string
}.

Section Slice.
Context {host : JS.Host}.

(** [x === undefined || x < 0] *)
Definition undefinedOrNegative (o : option JS.number) : bool :=
  match o with
  | None => true
  | Some n => JS.lt0 n
  end.

(** [!s] for an optional string. *)
Definition missing (o : option string) : bool :=
  match o with
  | None => true
  | Some s => JS.falsy s
  end.

(** [new Date(a) < new Date(b)] *)
Definition dateBefore (a b : string) : bool :=
  match JS.Date_parse a, JS.Date_parse b with
  | Some x, Some y => x <? y
  | _, _ => false
  end.

(** [s && e && new Date(e) < new Date(s)] *)
Definition endBeforeStart (s e : option string) : bool :=
  match s, e with
  | Some s, Some e => negb (JS.falsy s) && negb (JS.falsy e) && dateBefore e s
  | _, _ => false
  end.

(** [if (cond) errors.push(msg)] *)
Definition pushIf (cond : bool) (msg : string) (errors : list string) : list string :=
  if cond then errors ++ [msg] else errors.

Definition validateServiceLog (data : Partial.t) : list string :=
  let errors := [] in
  let errors := pushIf (JS.blank (Partial.providerId data))
                       "Provider ID is required" errors in
  let errors := pushIf (JS.blank (Partial.serviceOrder data))
                       "Service Order is required" errors in
  let errors := pushIf (JS.blank (Partial.carId data))
                       "Car ID is required" errors in
  let errors := pushIf (undefinedOrNegative (Partial.odometer data))
                       "Valid odometer reading is required" errors in
  let errors := pushIf (undefinedOrNegative (Partial.engineHours data))
                       "Valid engine hours is required" errors in
  let errors := pushIf (missing (Partial.startDate data))
                       "Start date is required" errors in
  let errors := pushIf (missing (Partial.endDate data))
                       "End date is required" errors in
  let errors := pushIf (JS.blank (Partial.serviceDescription data))
                       "Service description is required" errors in
  let errors := pushIf (endBeforeStart (Partial.startDate data) (Partial.endDate data))
                       "End date must be after start date" errors in
  errors.

(** The date-only ISO string of the local day after [value]:
    [new Date(value)], copied, [setDate(getDate() + 1)],
    [toISOString().split('T')[0]]. *)
Definition nextDayString (value : string) : completion string :=
  let startDate := JS.Date_parse value in
  let endDate := startDate in
  let endDate := JS.setDate endDate (JS.plus1 (JS.getDate endDate)) in
  let! iso := JS.toISOString endDate in
  Normal (JS.split0 "T" iso).

Definition createInitialDraft (e : Env) : completion Fields.t :=
  let today := Some (clock e 0) in
  let tomorrow := today in
  let tomorrow := JS.setDate tomorrow (JS.plus1 (JS.getDate tomorrow)) in
  let! todayIso := JS.toISOString today in
  let! tomorrowIso := JS.toISOString tomorrow in
  Normal (Fields.mk "" "" "" (JS.ofZ 0) (JS.ofZ 0)
                    (JS.split0 "T" todayIso) (JS.split0 "T" tomorrowIso)
                    planned "").

(** [state.currentDraft?.id === id] *)
Definition currentDraftHasId (s : RootStateServiceLog) (id : string) : bool :=
  match currentDraft s with
  | Some d => bool_decide (Draft.id d = id)
  | None => false
  end.

(** [state.editingLog?.id === id] *)
Definition editingLogHasId (s : RootStateServiceLog) (id : string) : bool :=
  match editingLog s with
  | Some l => bool_decide (ServiceLog.id l = id)
  | None => false
  end.

(** [Partial<RootStateServiceLog>], the payload of [loadFromStorage]. *)
Record Payload : Type := mkPayload {
  p_serviceLogs : option (list ServiceLog.t);
  p_drafts : option (list Draft.t);
  p_currentDraft : option (option Draft.t);
  p_searchTerm : option string;
  p_filters : option Filters.t;
  p_editingLog : option (option ServiceLog.t);
  p_saveStatus : option SaveStatus;
  p_validationErrors : option (list string);
  p_showFilters : option bool
}.

(** *** The case reducers *)

(** [Object.assign(state, action.payload)] *)
Definition loadFromStorage (s : RootStateServiceLog) (p : Payload) : RootStateServiceLog :=
  mkState (default (serviceLogs s) (p_serviceLogs p))
          (default (drafts s) (p_drafts p))
          (default (currentDraft s) (p_currentDraft p))
          (default (searchTerm s) (p_searchTerm p))
          (default (filters s) (p_filters p))
          (default (editingLog s) (p_editingLog p))
          (default (saveStatus s) (p_saveStatus p))
          (default (validationErrors s) (p_validationErrors p))
          (default (showFilters s) (p_showFilters p)).

Definition createDraft (e : Env) (s : RootStateServiceLog) : completion RootStateServiceLog :=
  let! initial := createInitialDraft e in
  let id := "draft_" +:+ JS.intToString (clock e 1) +:+ "_" +:+ random e in
  let! lastSaved := JS.toISOString (Some (clock e 2)) in
  let newDraft := Draft.mk id initial lastSaved false in
  let s := set_drafts (drafts s ++ [newDraft]) s in
  let s := set_currentDraft (Some newDraft) s in
  Normal s.

Definition setCurrentDraft (s : RootStateServiceLog) (payload : option Draft.t) : RootStateServiceLog :=
  set_currentDraft payload s.

Definition updateDraft (s : RootStateServiceLog) (id : string) (u : Draft.update) : completion RootStateServiceLog :=
  match list_find (fun d => Draft.id d = id) (drafts s) with
  | None => Normal s
  | Some (draftIndex, d) =>
      let draft := Draft.assign u d in
      let draft := Draft.with_isDirty true draft in
      let! draft :=
        match Draft.truthyStartDate u with
        | Some value =>
            let! endDate := nextDayString value in
            Normal (Draft.with_fields (Fields.with_endDate endDate (Draft.fields draft)) draft)
        | None => Normal draft
        end in
      let s' := set_drafts (<[draftIndex := draft]> (drafts s)) s in
      let s' := if currentDraftHasId s id then set_currentDraft (Some draft) s' else s' in
      let s' := set_saveStatus saving s' in
      Normal s'
  end.

Definition deleteDraft (s : RootStateServiceLog) (payload : string) : RootStateServiceLog :=
  let s' := set_drafts (filter (fun d => Draft.id d ≠ payload) (drafts s)) s in
  if currentDraftHasId s' payload then set_currentDraft None s' else s'.

Definition clearAllDrafts (s : RootStateServiceLog) : RootStateServiceLog :=
  let s := set_drafts [] s in
  set_currentDraft None s.

Definition createServiceLog (e : Env) (s : RootStateServiceLog) : completion RootStateServiceLog :=
  match currentDraft s with
  | None => Normal (set_validationErrors ["No draft selected"] s)
  | Some cur =>
      let errors := validateServiceLog (Partial.of_fields (Draft.fields cur)) in
      if negb (length errors =? 0)%nat then Normal (set_validationErrors errors s)
      else
        let id := "log_" +:+ JS.intToString (clock e 0) +:+ "_" +:+ random e in
        let! createdAt := JS.toISOString (Some (clock e 1)) in
        let newLog :=
          ServiceLog.mk id (Draft.fields cur) createdAt
                        (Some (Draft.lastSaved cur)) (Some (Draft.isDirty cur)) in
        let s := set_serviceLogs (serviceLogs s ++ [newLog]) s in
        let s := set_drafts (filter (fun d => Draft.id d ≠ Draft.id cur) (drafts s)) s in
        let s := set_currentDraft None s in
        let s := set_validationErrors [] s in
        Normal s
  end.

Definition setEditingLog (s : RootStateServiceLog) (payload : option ServiceLog.t) : RootStateServiceLog :=
  let s := set_editingLog payload s in
  set_validationErrors [] s.

Definition updateEditingLogField (s : RootStateServiceLog) (u : ServiceLog.update) : completion RootStateServiceLog :=
  match editingLog s with
  | None => Normal s
  | Some editing =>
      let updated := ServiceLog.assign u editing in
      let! updated :=
        match ServiceLog.truthyStartDate u with
        | Some value =>
            let! endDate := nextDayString value in
            Normal (ServiceLog.with_fields
                      (Fields.with_endDate endDate (ServiceLog.fields updated)) updated)
        | None => Normal updated
        end in
      Normal (set_editingLog (Some updated) s)
  end.

Definition saveEditingLog (s : RootStateServiceLog) : RootStateServiceLog :=
  match editingLog s with
  | None => s
  | Some editing =>
      let errors := validateServiceLog (Partial.of_fields (ServiceLog.fields editing)) in
      if negb (length errors =? 0)%nat then set_validationErrors errors s
      else
        let s := set_serviceLogs
                   (map (fun l => if bool_decide (ServiceLog.id l = ServiceLog.id editing)
                                  then editing else l)
                        (serviceLogs s)) s in
        let s := set_editingLog None s in
        let s := set_showFilters false s in
        let s := set_saveStatus idle s in
        set_validationErrors [] s
  end.

Definition deleteServiceLog (s : RootStateServiceLog) (payload : string) : RootStateServiceLog :=
  let s' := set_serviceLogs (filter (fun l => ServiceLog.id l ≠ payload) (serviceLogs s)) s in
  if editingLogHasId s' payload then set_editingLog None s' else s'.

Definition setSearchTerm (s : RootStateServiceLog) (payload : string) : RootStateServiceLog :=
  set_searchTerm payload s.

Definition setFilters (s : RootStateServiceLog) (payload : Filters.partial) : RootStateServiceLog :=
  set_filters (Filters.merge (filters s) payload) s.

Definition toggleFilters (s : RootStateServiceLog) : RootStateServiceLog :=
  set_showFilters (negb (showFilters s)) s.

Definition clearFilters (s : RootStateServiceLog) : RootStateServiceLog :=
  let s := set_searchTerm "" s in
  set_filters (Filters.mk "" "" None) s.

Definition setSaveStatus (s : RootStateServiceLog) (payload : SaveStatus) : RootStateServiceLog :=
  set_saveStatus payload s.

Definition setValidationErrors (s : RootStateServiceLog) (payload : list string) : RootStateServiceLog :=
  set_validationErrors payload s.

Definition markDraftSaved (e : Env) (s : RootStateServiceLog) (id : string) (lastSaved : option string)
  : completion RootStateServiceLog :=
  match list_find (fun x => Draft.id x = id) (drafts s) with
  | None => Normal s
  | Some (i, d) =>
      let d := Draft.with_isDirty false d in
      let! stamp :=
        match lastSaved with
        | Some v => Normal v
        | None => JS.toISOString (Some (clock e 0))
        end in
      let d := Draft.with_lastSaved stamp d in
      let s' := set_drafts (<[i := d]> (drafts s)) s in
      let s' := if currentDraftHasId s' (Draft.id d) then set_currentDraft (Some d) s' else s' in
      Normal s'
  end.

End Slice.

(** ** Actions and the slice reducer *)

Module Action.
Inductive t : Type :=
| loadFromStorage (payload : Payload)
| createDraft
| setCurrentDraft (payload : option Draft.t)
| updateDraft (id : string) (u : Draft.update)
| deleteDraft (payload : string)
| clearAllDrafts
| createServiceLog
| setEditingLog (payload : option ServiceLog.t)
| updateEditingLogField (u : ServiceLog.update)
| saveEditingLog
| deleteServiceLog (payload : string)
| setSearchTerm (payload : string)
| setFilters (payload : Filters.partial)
| toggleFilters
| clearFilters
| setSaveStatus (payload : SaveStatus)
| setValidationErrors (payload : list string)
| markDraftSaved (id : string) (lastSaved : option string).
End Action.

(** [slice.reducer]: a case reducer that throws leaves the store as it was
    and the exception reaches the dispatcher. *)
Definition reducer {host : JS.Host} (e : Env) (s : RootStateServiceLog) (a : Action.t)
  : completion RootStateServiceLog :=
  match a with
  | Action.loadFromStorage p => Normal (loadFromStorage s p)
  | Action.createDraft => createDraft e s
  | Action.setCurrentDraft p => Normal (setCurrentDraft s p)
  | Action.updateDraft id u => updateDraft s id u
  | Action.deleteDraft p => Normal (deleteDraft s p)
  | Action.clearAllDrafts => Normal (clearAllDrafts s)
  | Action.createServiceLog => createServiceLog e s
  | Action.setEditingLog p => Normal (setEditingLog s p)
  | Action.updateEditingLogField u => updateEditingLogField s u
  | Action.saveEditingLog => Normal (saveEditingLog s)
  | Action.deleteServiceLog p => Normal (deleteServiceLog s p)
  | Action.setSearchTerm p => Normal (setSearchTerm s p)
  | Action.setFilters p => Normal (setFilters s p)
  | Action.toggleFilters => Normal (toggleFilters s)
  | Action.clearFilters => Normal (clearFilters s)
  | Action.setSaveStatus p => Normal (setSaveStatus s p)
  | Action.setValidationErrors p => Normal (setValidationErrors s p)
  | Action.markDraftSaved id lastSaved => markDraftSaved e s id lastSaved
  end.

(** Dispatching a list of actions in order; a throw ends the run. *)
Definition dispatchAll {host : JS.Host} (e : Env) (s : RootStateServiceLog)
           (actions : list Action.t) : completion RootStateServiceLog :=
  foldl (fun c a => let! s := c in reducer e s a) (Normal s) actions.

(** ** JSON and [localStorage] *)

Module JSON.
(** A JSON value; an object is a finite map from property names. *)
#[local] Unset Elimination Schemes.
Inductive value : Type :=
| Null
| Bool (b : bool)
| Number (q : Q)
| Str (s : string)
| Array (l : list value)
| Object (members : gmap string value).
#[local] Set Elimination Schemes.

(** How [JSON.stringify] writes a number: NaN and the infinities become
    [null]. *)
Definition ofNumber (n : JS.number) : value :=
  match n with
  | JS.Finite q => Number q
  | _ => Null
  end.

Definition typeString (t : ServiceType) : string :=
  match t with
  | planned => "planned"
  | unplanned => "unplanned"
  | emergency => "emergency"
  end.

Definition ofFields (f : Fields.t) : gmap string value :=
  <["providerId" := Str (Fields.providerId f)]>
  (<["serviceOrder" := Str (Fields.serviceOrder f)]>
  (<["carId" := Str (Fields.carId f)]>
  (<["odometer" := ofNumber (Fields.odometer f)]>
  (<["engineHours" := ofNumber (Fields.engineHours f)]>
  (<["startDate" := Str (Fields.startDate f)]>
  (<["endDate" := Str (Fields.endDate f)]>
  (<["type" := Str (typeString (Fields.type f))]>
  (<["serviceDescription" := Str (Fields.serviceDescription f)]> ∅)))))))).

(** [m[k] = v] when the property is present on the source object. *)
Definition insertOpt (k : string) (o : option value) (m : gmap string value)
  : gmap string value :=
  match o with
  | Some v => <[k := v]> m
  | None => m
  end.

Definition ofDraft (d : Draft.t) : value :=
  Object (<["id" := Str (Draft.id d)]>
         (<["lastSaved" := Str (Draft.lastSaved d)]>
         (<["isDirty" := Bool (Draft.isDirty d)]> (ofFields (Draft.fields d))))).

Definition ofServiceLog (l : ServiceLog.t) : value :=
  Object (<["id" := Str (ServiceLog.id l)]>
         (<["createdAt" := Str (ServiceLog.createdAt l)]>
         (insertOpt "lastSaved" (Str <$> ServiceLog.lastSaved l)
         (insertOpt "isDirty" (Bool <$> ServiceLog.isDirty l)
                    (ofFields (ServiceLog.fields l)))))).

Definition ofOption {A} (f : A -> value) (o : option A) : value :=
  match o with
  | Some a => f a
  | None => Null
  end.

(** *** Reading a parsed value back at the types of the slice *)

Definition asString (v : value) : option string :=
  match v with Str s => Some s | _ => None end.
Definition asBool (v : value) : option bool :=
  match v with Bool b => Some b | _ => None end.
Definition asNumber (v : value) : option JS.number :=
  match v with Number q => Some (JS.Finite q) | _ => None end.
Definition asType (v : value) : option ServiceType :=
  match v with
  | Str s =>
      if bool_decide (s = "planned") then Some planned
      else if bool_decide (s = "unplanned") then Some unplanned
      else if bool_decide (s = "emergency") then Some emergency
      else None
  | _ => None
  end.

(** A required property. *)
Definition get {A} (m : gmap string value) (k : string) (f : value -> option A)
  : option A :=
  m !! k ≫= f.

(** An optional property: absent, or present at the right type. *)
Definition getOpt {A} (m : gmap string value) (k : string) (f : value -> option A)
  : option (option A) :=
  match m !! k with
  | None => Some None
  | Some v => Some <$> f v
  end.

Definition asFields (m : gmap string value) : option Fields.t :=
  providerId ← get m "providerId" asString;
  serviceOrder ← get m "serviceOrder" asString;
  carId ← get m "carId" asString;
  odometer ← get m "odometer" asNumber;
  engineHours ← get m "engineHours" asNumber;
  startDate ← get m "startDate" asString;
  endDate ← get m "endDate" asString;
  type ← get m "type" asType;
  serviceDescription ← get m "serviceDescription" asString;
  Some (Fields.mk providerId serviceOrder carId odometer engineHours
                  startDate endDate type serviceDescription).

Definition asDraft (v : value) : option Draft.t :=
  match v with
  | Object m =>
      id ← get m "id" asString;
      fields ← asFields m;
      lastSaved ← get m "lastSaved" asString;
      isDirty ← get m "isDirty" asBool;
      Some (Draft.mk id fields lastSaved isDirty)
  | _ => None
  end.

Definition asServiceLog (v : value) : option ServiceLog.t :=
  match v with
  | Object m =>
      id ← get m "id" asString;
      fields ← asFields m;
      createdAt ← get m "createdAt" asString;
      lastSaved ← getOpt m "lastSaved" asString;
      isDirty ← getOpt m "isDirty" asBool;
      Some (ServiceLog.mk id fields createdAt lastSaved isDirty)
  | _ => None
  end.

Definition asArray {A} (f : value -> option A) (v : value) : option (list A) :=
  match v with
  | Array l => mapM f l
  | _ => None
  end.

(** A value that is [null] or read by [f]. *)
Definition asNullable {A} (f : value -> option A) (v : value) : option (option A) :=
  match v with
  | Null => Some None
  | _ => Some <$> f v
  end.

(** The blob of [persistToLocalStorage] read as a
    [Partial<RootStateServiceLog>]. *)
Definition asPayload (v : value) : option Payload :=
  match v with
  | Object m =>
      logs ← getOpt m "serviceLogs" (asArray asServiceLog);
      drafts ← getOpt m "drafts" (asArray asDraft);
      current ← getOpt m "currentDraft" (asNullable asDraft);
      Some (mkPayload logs drafts current None None None None None None)
  | _ => None
  end.
End JSON.

(** A string kept in [localStorage]: the JSON text of a value (standing for
    [JSON.stringify v], which [JSON.parse] reads back as [v]), or a string
    that is not a JSON text (the empty string among them). *)
Inductive StoredText : Type :=
| JSONText (v : JSON.value)
| OtherText (s : string).

Definition LOCAL_STORAGE_KEY : string := "serviceLogManager_v1".

(** The object [toSave] of [persistToLocalStorage], as [JSON.stringify]
    writes it. *)
Definition toSave (state : RootStateServiceLog) : JSON.value :=
  JSON.Object
    (<["serviceLogs" := JSON.Array (JSON.ofServiceLog <$> serviceLogs state)]>
    (<["drafts" := JSON.Array (JSON.ofDraft <$> (Draft.with_isDirty false <$> drafts state))]>
    (<["currentDraft" := JSON.ofOption JSON.ofDraft
                           (Draft.with_isDirty false <$> currentDraft state)]> ∅))).

(** [localStorage]: the items it holds and the writes the browser accepts.
    A write is refused when it would exceed the quota or when storage is
    disabled; what is refused may depend on the items held, on the key and
    on the new value. *)
Record Storage : Type := mkStorage {
  items : gmap string StoredText;
  accepts : gmap string StoredText -> string -> StoredText -> bool }.

(** How [localStorage.setItem] completes: the store with the item set, or a
    thrown QuotaExceededError. *)
Inductive SetItemCompletion : Type :=
| Stored (ls : Storage)
| ThrowQuotaExceededError.

(** [localStorage.setItem(k, v)] *)
Definition setItem (ls : Storage) (k : string) (v : StoredText) : SetItemCompletion :=
  if accepts ls (items ls) k v
  then Stored (mkStorage (<[k := v]> (items ls)) (accepts ls))
  else ThrowQuotaExceededError.

(** [try { ... localStorage.setItem(KEY, JSON.stringify(toSave)) } catch { }]:
    the store after the call; a thrown error is ignored. *)
Definition persistToLocalStorage (state : RootStateServiceLog) (ls : Storage) : Storage :=
  match setItem ls LOCAL_STORAGE_KEY (JSONText (toSave state)) with
  | Stored ls' => ls'
  | ThrowQuotaExceededError => ls
  end.

(** [loadFromLocalStorage]: the parsed value, or [null] when the item is
    absent, empty or not a JSON text. *)
Definition loadFromLocalStorage (ls : Storage) : JSON.value :=
  match items ls !! LOCAL_STORAGE_KEY with
  | None => JSON.Null
  | Some (OtherText _) => JSON.Null
  | Some (JSONText v) => v
  end.

(** ** The filtered view of [ServiceLogManager.tsx] *)

Section View.
Context {host : JS.Host}.

(** A property value of a log object. *)
Inductive PropertyValue : Type :=
| VString (s : string)
| VNumber (n : JS.number)
| VBoolean (b : bool).

(** [value.toString()] *)
Definition toString (v : PropertyValue) : string :=
  match v with
  | VString s => s
  | VNumber n => JS.numberToString n
  | VBoolean b => if b then "true" else "false"
  end.

(** [Object.values(log)]: the values of all own properties of the object,
    those inherited from a promoted draft included. *)
Definition Object_values (log : ServiceLog.t) : list PropertyValue :=
  let f := ServiceLog.fields log in
  [ VString (ServiceLog.id log);
    VString (Fields.providerId f);
    VString (Fields.serviceOrder f);
    VString (Fields.carId f);
    VNumber (Fields.odometer f);
    VNumber (Fields.engineHours f);
    VString (Fields.startDate f);
    VString (Fields.endDate f);
    VString (JSON.typeString (Fields.type f));
    VString (Fields.serviceDescription f);
    VString (ServiceLog.createdAt log) ]
  ++ option_list (VString <$> ServiceLog.lastSaved log)
  ++ option_list (VBoolean <$> ServiceLog.isDirty log).

Definition matchesSearch (state : RootStateServiceLog) (log : ServiceLog.t) : bool :=
  bool_decide (searchTerm state = "") ||
  existsb (fun value =>
             JS.includes (JS.toLowerCase (toString value))
                         (JS.toLowerCase (searchTerm state)))
          (Object_values log).

Definition matchesDateRange (state : RootStateServiceLog) (log : ServiceLog.t) : bool :=
  let startDate := Fields.startDate (ServiceLog.fields log) in
  (JS.falsy (Filters.startDateFrom (filters state))
   || JS.str_ge startDate (Filters.startDateFrom (filters state)))
  && (JS.falsy (Filters.startDateTo (filters state))
      || JS.str_le startDate (Filters.startDateTo (filters state))).

Definition matchesType (state : RootStateServiceLog) (log : ServiceLog.t) : bool :=
  match Filters.type (filters state) with
  | None => true
  | Some t => bool_decide (Fields.type (ServiceLog.fields log) = t)
  end.

Definition filteredLogs (state : RootStateServiceLog) : list ServiceLog.t :=
  List.filter (fun log => matchesSearch state log
                          && matchesDateRange state log
                          && matchesType state log)
              (serviceLogs state).
End View.

(** ** The vocabulary of the specification

    The definitions below follow the words of the specification; the
    theorems compare them with the embedding above. *)

Module Spec.

(** *** Validation rules (section 4.1), in their fixed order *)

Inductive Rule : Type :=
| ProviderIdRule
| ServiceOrderRule
| CarIdRule
| OdometerRule
| EngineHoursRule
| StartDateRule
| EndDateRule
| ServiceDescriptionRule
| DateOrderRule.

Definition ruleOrder : list Rule :=
  [ ProviderIdRule; ServiceOrderRule; CarIdRule; OdometerRule; EngineHoursRule;
    StartDateRule; EndDateRule; ServiceDescriptionRule; DateOrderRule ].

Definition message (r : Rule) : string :=
  match r with
  | ProviderIdRule => "Provider ID is required"
  | ServiceOrderRule => "Service Order is required"
  | CarIdRule => "Car ID is required"
  | OdometerRule => "Valid odometer reading is required"
  | EngineHoursRule => "Valid engine hours is required"
  | StartDateRule => "Start date is required"
  | EndDateRule => "End date is required"
  | ServiceDescriptionRule => "Service description is required"
  | DateOrderRule => "End date must be after start date"
  end.

(** "non-empty after trimming": the text is there and has a character
    that is not white space. *)
Definition nonEmptyAfterTrim (o : option string) : Prop :=
  exists s c, o = Some s /\ c ∈ String.list_ascii_of_string s /\ JS.isWhiteSpace c = false.

(** "present": there and not the empty string. *)
Definition present (o : option string) : Prop :=
  exists s, o = Some s /\ s <> EmptyString.

(** "defined and [P]" for a measurement. *)
Definition definedAnd (P : JS.number -> Prop) (o : option JS.number) : Prop :=
  exists n, o = Some n /\ P n.

(** [n >= 0], as the specification words rules 4 and 5. *)
Definition atLeastZero (n : JS.number) : Prop := JS.ge0 n = true.

(** not [n < 0], the test the code makes. *)
Definition notBelowZero (n : JS.number) : Prop := JS.lt0 n = false.

(** "if both dates are present, not [endDate < startDate]" (calendar
    comparison): when both are there, not empty, and denote points in
    time, the end is not before the start. *)
Definition datesInOrder {host : JS.Host} (startDate endDate : option string) : Prop :=
  forall s e ts te,
    startDate = Some s -> endDate = Some e ->
    s <> EmptyString -> e <> EmptyString ->
    JS.Date_parse s = Some ts -> JS.Date_parse e = Some te ->
    ~ te < ts.

(** A candidate satisfies a rule; [measure] is the reading of "[>= 0]". *)
Definition satisfies {host : JS.Host} (measure : JS.number -> Prop)
           (r : Rule) (c : Partial.t) : Prop :=
  match r with
  | ProviderIdRule => nonEmptyAfterTrim (Partial.providerId c)
  | ServiceOrderRule => nonEmptyAfterTrim (Partial.serviceOrder c)
  | CarIdRule => nonEmptyAfterTrim (Partial.carId c)
  | OdometerRule => definedAnd measure (Partial.odometer c)
  | EngineHoursRule => definedAnd measure (Partial.engineHours c)
  | StartDateRule => present (Partial.startDate c)
  | EndDateRule => present (Partial.endDate c)
  | ServiceDescriptionRule => nonEmptyAfterTrim (Partial.serviceDescription c)
  | DateOrderRule => datesInOrder (Partial.startDate c) (Partial.endDate c)
  end.

(** *** Calendar days (sections 4.2 and 4.4) *)

(** The calendar day after day [d] of month [m] (1 to 12) of year [y]. *)
Definition nextDay (y m d : Z) : Z * Z * Z :=
  if d <? JS.DaysInMonth y m then (y, m, d + 1)
  else if m <? 12 then (y, m + 1, 1)
  else (y + 1, 1, 1).

(** The date-only ISO string of a calendar day. *)
Definition dateString (ymd : Z * Z * Z) : string :=
  let '(y, m, d) := ymd in
  JS.yearString y +:+ "-" +:+ JS.pad 2 m +:+ "-" +:+ JS.pad 2 d.

(** The end date "as given" by an update: the value written when the key
    is [endDate], the previous end date for any other key. *)
Definition endDateAsGiven (u : Fields.update) (previous : string) : string :=
  match u with
  | Fields.set_endDate v => v
  | _ => previous
  end.

Definition draftEndDateAsGiven (u : Draft.update) (previous : string) : string :=
  match u with
  | Draft.set_field u => endDateAsGiven u previous
  | _ => previous
  end.

Definition logEndDateAsGiven (u : ServiceLog.update) (previous : string) : string :=
  match u with
  | ServiceLog.set_field u => endDateAsGiven u previous
  | _ => previous
  end.

(** [value] is the date-only ISO string of the calendar day [y]-[m]-[d]. *)
Definition isCalendarDate (value : string) (y m d : Z) : Prop :=
  JS.parseDateOnly value = Some (y, m, d) /\ JS.validDate y m d = true.

(** Between UTC midnight of the day [y]-[m]-[d] and one local day later
    the local offset from UTC does not grow (and does not drop by a day or
    more): no forward change of offset, such as the start of daylight
    saving time, falls in between. *)
Definition offsetDoesNotGrow {host : JS.Host} (y m d : Z) : Prop :=
  let t := JS.MakeDate (JS.MakeDay y (m - 1) d) 0 in
  let before := JS.LocalTZA t true in
  let after := JS.LocalTZA (JS.LocalTime t + JS.msPerDay) false in
  after <= before < after + JS.msPerDay.

(** *** The current-draft pointer (section 3) *)

(** The pointer is null or equal to a draft of the collection. *)
Definition pointerOK (s : RootStateServiceLog) : Prop :=
  match currentDraft s with
  | None => True
  | Some d => d ∈ drafts s
  end.

(** [localStorage] accepts the write of [persistToLocalStorage] for the
    state [s]. *)
Definition writeAccepted (s : RootStateServiceLog) (ls : Storage) : Prop :=
  accepts ls (items ls) LOCAL_STORAGE_KEY (JSONText (toSave s)) = true.

(** [p] is what the presentation restores from the blob persisted from
    the state [s0]: the write was accepted, and [p] is what is loaded
    after it. *)
Definition restoredFrom (s0 : RootStateServiceLog) (p : Payload) : Prop :=
  exists ls,
    writeAccepted s0 ls /\
    JSON.asPayload (loadFromLocalStorage (persistToLocalStorage s0 ls)) = Some p.

(** The actions without a side condition: all but selecting a draft and
    merging a restored blob. *)
Definition ordinary (a : Action.t) : Prop :=
  match a with
  | Action.loadFromStorage _ | Action.setCurrentDraft _ => False
  | _ => True
  end.

(** States reachable from the initial state: by any ordinary action that
    returns normally, by selecting null or a draft of the collection, and
    by merging the blob persisted from a reachable state. *)
Inductive reachable {host : JS.Host} : RootStateServiceLog -> Prop :=
| reach_init : reachable initialState
| reach_step s e a s' :
    reachable s -> ordinary a -> reducer e s a = Normal s' -> reachable s'
| reach_select s d :
    reachable s -> (forall x, d = Some x -> x ∈ drafts s) ->
    reachable (setCurrentDraft s d)
| reach_restore s s0 p :
    reachable s -> reachable s0 -> restoredFrom s0 p ->
    reachable (loadFromStorage s p).

(** *** Persistence (section 4.6) *)

(** Finite measurements: the numbers JSON can write. *)
Definition finiteFields (f : Fields.t) : Prop :=
  (exists q, Fields.odometer f = JS.Finite q) /\
  (exists q, Fields.engineHours f = JS.Finite q).

Definition finiteState (s : RootStateServiceLog) : Prop :=
  (forall l, l ∈ serviceLogs s -> finiteFields (ServiceLog.fields l)) /\
  (forall d, d ∈ drafts s -> finiteFields (Draft.fields d)) /\
  (forall d, currentDraft s = Some d -> finiteFields (Draft.fields d)).

(** *** The filtered view (section 4.5) *)

(** [term] is a case-insensitive substring of [s]: some substring of [s]
    equals [term] up to the case of letters. *)
Definition caseInsensitiveSubstring (term s : string) : Prop :=
  exists pre mid post,
    s = pre +:+ mid +:+ post /\ JS.toLowerCase mid = JS.toLowerCase term.

(** The string rendering of each field of a Record (section 2): the id,
    the nine shared fields and [createdAt]. A string renders as itself, a
    number as [Number.prototype.toString] prints it, the type as its
    name. *)
Definition recordFieldStrings {host : JS.Host} (log : ServiceLog.t) : list string :=
  let f := ServiceLog.fields log in
  [ ServiceLog.id log;
    Fields.providerId f;
    Fields.serviceOrder f;
    Fields.carId f;
    JS.numberToString (Fields.odometer f);
    JS.numberToString (Fields.engineHours f);
    Fields.startDate f;
    Fields.endDate f;
    match Fields.type f with
    | planned => "planned"
    | unplanned => "unplanned"
    | emergency => "emergency"
    end;
    Fields.serviceDescription f;
    ServiceLog.createdAt log ].

(** The renderings of what a record object carries besides the fields of
    a Record: [lastSaved], and [isDirty] as "true" or "false", when it has
    them. *)
Definition carriedStrings (log : ServiceLog.t) : list string :=
  match ServiceLog.lastSaved log with
  | Some stamp => [stamp]
  | None => []
  end
  ++ match ServiceLog.isDirty log with
     | Some true => ["true"]
     | Some false => ["false"]
     | None => []
     end.

(** The record object has the fields of a Record and no other. *)
Definition plainRecord (log : ServiceLog.t) : Prop :=
  ServiceLog.lastSaved log = None /\ ServiceLog.isDirty log = None.

(** The four conditions of the view, with the search ranging over the
    renderings [values]. *)
Definition passesOver (values : list string) (state : RootStateServiceLog)
           (log : ServiceLog.t) : Prop :=
  let startDate := Fields.startDate (ServiceLog.fields log) in
  (searchTerm state = EmptyString \/
   exists r, r ∈ values /\ caseInsensitiveSubstring (searchTerm state) r)
  /\ (Filters.startDateFrom (filters state) = EmptyString \/
      (Filters.startDateFrom (filters state) ≤ startDate)%string)
  /\ (Filters.startDateTo (filters state) = EmptyString \/
      (startDate ≤ Filters.startDateTo (filters state))%string)
  /\ (Filters.type (filters state) = None \/
      Filters.type (filters state) = Some (Fields.type (ServiceLog.fields log))).

(** The conditions as the specification has them: the search ranges over
    the fields of the Record. *)
Definition passes {host : JS.Host} (state : RootStateServiceLog) (log : ServiceLog.t) : Prop :=
  passesOver (recordFieldStrings log) state log.

(** The conditions with the search ranging over everything the record
    object carries. *)
Definition passesOwn {host : JS.Host} (state : RootStateServiceLog) (log : ServiceLog.t)
  : Prop :=
  passesOver (recordFieldStrings log ++ carriedStrings log) state log.

End Spec.

(** ** Hosts and values used in examples *)

Module Examples.

(** A host in the UTC time zone that accepts no date string beyond the
    date-only form. Its [numberToString] is exact on the integers, the
    only finite numbers the examples render. *)
Definition utcHost : JS.Host :=
  {| JS.LocalTZA := fun _ _ => 0;
     JS.parseOther := fun _ => None;
     JS.numberToString := fun n =>
       match n with
       | JS.NaN => "NaN"
       | JS.Infinity negative => if negative then "-Infinity" else "Infinity"
       | JS.Finite q => JS.intToString (Qnum q / Z.pos (Qden q))
       end |}.

(** A host one hour east of UTC that moves to two hours east at
    2024-03-31T01:00Z (a start of daylight saving time). *)
Definition springHost : JS.Host :=
  {| JS.LocalTZA := fun t isUTC =>
       if t <? (if isUTC then 1711846800000 else 1711850400000)
       then 3600000 else 7200000;
     JS.parseOther := fun _ => None;
     JS.numberToString := @JS.numberToString utcHost |}.

Definition env : Env := mkEnv (fun _ => 1730000000123) "k3j9x2a".

Definition fields : Fields.t :=
  Fields.mk "P1" "S1" "C1" (JS.ofZ 100) (JS.ofZ 5)
            "2024-01-01" "2024-01-05" planned "oil change".

Definition draft : Draft.t :=
  Draft.mk "draft_1" fields "2024-01-01T00:00:00.000Z" false.

Definition log : ServiceLog.t :=
  ServiceLog.mk "log_1" fields "2024-01-02T00:00:00.000Z" None None.

(** One draft, selected. *)
Definition oneDraft : RootStateServiceLog :=
  mkState [] [draft] (Some draft) "" (Filters.mk "" "" None) None idle [] false.

(** One record, open in the edit session. *)
Definition editing : RootStateServiceLog :=
  mkState [log] [] None "" (Filters.mk "" "" None) (Some log) saving [] true.

(** The pointer names a draft that is not in the collection. *)
Definition dangling : RootStateServiceLog :=
  mkState [] [] (Some draft) "" (Filters.mk "" "" None) None idle [] false.

(** A candidate whose odometer reading is NaN and which is otherwise
    complete. *)
Definition nanCandidate : Partial.t :=
  Partial.mk (Some "P1") (Some "S1") (Some "C1") (Some JS.NaN) (Some (JS.ofZ 5))
             (Some "2024-01-01") (Some "2024-01-05") (Some "oil change").

(** A draft whose odometer reading is NaN. *)
Definition nanDraft : Draft.t :=
  Draft.mk "draft_1"
           (Fields.assign (Fields.set_odometer JS.NaN) fields)
           "2024-01-01T00:00:00.000Z" true.

Definition nanState : RootStateServiceLog :=
  mkState [] [nanDraft] None "" (Filters.mk "" "" None) None idle [] false.

(** Records of mixed dates and types. *)
Definition logOn (id date : string) (t : ServiceType) : ServiceLog.t :=
  ServiceLog.mk id
    (Fields.mk "P1" "S1" "C1" (JS.ofZ 100) (JS.ofZ 5) date date t "oil change")
    "2024-01-11T00:00:00.000Z" None None.

Definition mixed : RootStateServiceLog :=
  mkState [ logOn "log_1" "2024-01-01" planned;
            logOn "log_4" "2024-01-04" emergency;
            logOn "log_5" "2024-01-05" planned;
            logOn "log_6" "2024-01-06" unplanned;
            logOn "log_9" "2024-01-09" planned;
            logOn "log_10" "2024-01-10" emergency ]
          [] None "" (Filters.mk "2024-01-05" "" (Some planned)) None idle [] false.

(** The id [createDraft] gives a draft under [env]. *)
Definition newDraftId : string := "draft_1730000000123_k3j9x2a".

(** An empty [localStorage] that accepts every write. *)
Definition emptyStorage : Storage := mkStorage ∅ (fun _ _ _ => true).

(** A [localStorage] that holds the blob of [oneDraft] and refuses every
    write: its quota is used up. *)
Definition fullStorage : Storage :=
  mkStorage {[ LOCAL_STORAGE_KEY := JSONText (toSave oneDraft) ]} (fun _ _ _ => false).

End Examples.

(** ** Vocabulary for the properties of the whole slice *)

(** The calendar date of a time value, in UTC: the year, the month from 1
    to 12 and the day of the month, as [toISOString] prints them. *)
Definition civilDate (t : Z) : Z * Z * Z :=
  (JS.YearFromTime t, JS.MonthFromTime t + 1, JS.DateFromTime t).

(** The host's offset from UTC one local day after the time value [t] is
    its offset at [t]: no change of daylight saving time falls in between.
    This is what [setDate(getDate() + 1)] needs to add exactly one day. *)
Definition steadyOffsetAt {host : JS.Host} (t : Z) : Prop :=
  JS.LocalTZA (JS.LocalTime t + JS.msPerDay) false = JS.LocalTZA t true.

(** The largest time value of a Date (ECMAScript, "Time Range"). *)
Definition maxTime : Z := 8640000000000000.

(** A record whose shared fields [validateServiceLog] accepts. *)
Definition validRecord {host : JS.Host} (l : ServiceLog.t) : Prop :=
  validateServiceLog (Partial.of_fields (ServiceLog.fields l)) = [].

Definition recordsValid {host : JS.Host} (s : RootStateServiceLog) : Prop :=
  forall l, l ∈ serviceLogs s -> validRecord l.

(** The actions of an edit session before it is saved. *)
Definition sessionAction (a : Action.t) : Prop :=
  match a with
  | Action.setEditingLog _ | Action.updateEditingLogField _ => True
  | _ => False
  end.

(** * Properties *)

(** ** Facts about the built-ins *)

Module JSFacts.

(** *** Strings *)

Lemma app_cons c a b : String c a +:+ b = String c (a +:+ b).
Proof. reflexivity. Qed.

Lemma app_empty b : EmptyString +:+ b = b.
Proof. reflexivity. Qed.

Lemma falsy_empty s : JS.falsy s = true <-> s = EmptyString.
Proof. by destruct s. Qed.

Lemma falsy_nonempty s : JS.falsy s = false <-> s <> EmptyString.
Proof. by destruct s. Qed.

Lemma prefix_app t s : String.prefix t s = true <-> exists post, s = t +:+ post.
Proof.
  revert t. induction s as [|c' s IH]; intros [|c t]; simpl.
  - split; [by exists EmptyString | done].
  - split; [done | by intros [post ?]].
  - split; [by exists (String c' s) | done].
  - destruct (ascii_dec c c') as [->|Hne].
    + rewrite IH. split; intros [post Hp]; exists post; rewrite ?app_cons in *; congruence.
    + split; [done | intros [post ?]; rewrite ?app_cons in *; congruence].
Qed.

Lemma includes_nil t : JS.includes EmptyString t = String.prefix t EmptyString || false.
Proof. reflexivity. Qed.

Lemma includes_cons c s t :
  JS.includes (String c s) t = String.prefix t (String c s) || JS.includes s t.
Proof. reflexivity. Qed.

(** [s.includes(t)] holds exactly when [t] occurs in [s]. *)
Lemma includes_app s t :
  JS.includes s t = true <-> exists pre post, s = pre +:+ t +:+ post.
Proof.
  induction s as [|c s IH].
  - rewrite includes_nil, orb_false_r, prefix_app. split.
    + intros [post Hp]. by exists EmptyString, post.
    + intros (pre & post & Hp). destruct pre; [by exists post | done].
  - rewrite includes_cons, orb_true_iff, prefix_app, IH. split.
    + intros [[post Hp] | (pre & post & Hp)].
      * by exists EmptyString, post.
      * exists (String c pre), post. by rewrite app_cons, Hp.
    + intros (pre & post & Hp).
      destruct pre as [|c' pre]; rewrite ?app_cons, ?app_empty in Hp.
      * left. by exists post.
      * right. exists pre, post. congruence.
Qed.

Lemma toLowerCase_app a b :
  JS.toLowerCase (a +:+ b) = JS.toLowerCase a +:+ JS.toLowerCase b.
Proof.
  induction a as [|c a IH]; [done | by rewrite !app_cons; simpl; rewrite IH].
Qed.

Lemma toLowerCase_split s a b :
  JS.toLowerCase s = a +:+ b ->
  exists a' b', s = a' +:+ b' /\ JS.toLowerCase a' = a /\ JS.toLowerCase b' = b.
Proof.
  revert s. induction a as [|c a IH]; intros s H.
  - by exists EmptyString, s.
  - destruct s as [|c' s]; [done|].
    rewrite app_cons in H. injection H as Hc Hs.
    destruct (IH _ Hs) as (a' & b' & -> & <- & <-).
    exists (String c' a'), b'. rewrite app_cons. simpl. by rewrite Hc.
Qed.

(** The lower-cased term occurs in the lower-cased text exactly when the
    term is a case-insensitive substring of the text. *)
Lemma includes_lower s term :
  JS.includes (JS.toLowerCase s) (JS.toLowerCase term) = true
  <-> Spec.caseInsensitiveSubstring term s.
Proof.
  rewrite includes_app. unfold Spec.caseInsensitiveSubstring. split.
  - intros (pre & post & H).
    destruct (toLowerCase_split _ _ _ H) as (pre' & rest & -> & _ & Hrest).
    destruct (toLowerCase_split _ _ _ Hrest) as (mid & post' & -> & Hmid & _).
    by exists pre', mid, post'.
  - intros (pre & mid & post & -> & Hmid).
    exists (JS.toLowerCase pre), (JS.toLowerCase post).
    by rewrite !toLowerCase_app, Hmid.
Qed.

Lemma trimEnd_blank s :
  JS.trimEnd s = EmptyString
  <-> forall c, c ∈ String.list_ascii_of_string s -> JS.isWhiteSpace c = true.
Proof.
  induction s as [|c s IH]; simpl.
  - split; [intros _ c Hc; by apply elem_of_nil in Hc | done].
  - destruct (JS.trimEnd s) eqn:Ht.
    + destruct (JS.isWhiteSpace c) eqn:Hc.
      * split; [|done]. intros _ c' [->|Hin]%elem_of_cons; [done|]. by apply IH.
      * split; [done|]. intros H. rewrite (H c) in Hc; [done | left].
    + split; [done|]. intros H. exfalso.
      assert (String a s0 = EmptyString); [|done].
      apply IH. intros c' Hc'. apply H. by right.
Qed.

(** Trimming leaves nothing exactly when every character is white space. *)
Lemma trim_blank s :
  JS.falsy (JS.trim s) = true
  <-> forall c, c ∈ String.list_ascii_of_string s -> JS.isWhiteSpace c = true.
Proof.
  rewrite falsy_empty. unfold JS.trim. rewrite trimEnd_blank.
  induction s as [|c s IH]; simpl; [done|].
  destruct (JS.isWhiteSpace c) eqn:Hc.
  - rewrite IH. split.
    + intros H c' [->|Hin]%elem_of_cons; [done | by apply H].
    + intros H c' Hin. apply H. by right.
  - split; intros H.
    + exfalso. rewrite (H c) in Hc; [done | simpl; left].
    + exfalso. rewrite (H c) in Hc; [done | left].
Qed.

(** *** The calendar *)

Lemma DayFromYear_succ y :
  JS.DayFromYear (y + 1) = JS.DayFromYear y + JS.DaysInYear y.
Proof.
  unfold JS.DayFromYear, JS.DaysInYear.
  repeat match goal with
         | |- context [?a =? ?b] => destruct (Z.eqb_spec a b); simpl
         end;
    Z.div_mod_to_equations; lia.
Qed.

Lemma DayFromYear_mono y y' : y <= y' -> JS.DayFromYear y <= JS.DayFromYear y'.
Proof. unfold JS.DayFromYear. intros. Z.div_mod_to_equations. lia. Qed.

(** [YearFromDay d] is a year whose days include [d]. *)
Lemma YearFromDay_spec d :
  JS.DayFromYear (JS.YearFromDay d) <= d < JS.DayFromYear (JS.YearFromDay d + 1).
Proof.
  unfold JS.YearFromDay.
  set (y := 1970 + 400 * d / 146097).
  assert (Hlo : JS.DayFromYear (y - 1) <= d).
  { subst y. unfold JS.DayFromYear. Z.div_mod_to_equations. lia. }
  assert (Hhi : d < JS.DayFromYear (y + 2)).
  { subst y. unfold JS.DayFromYear. Z.div_mod_to_equations. lia. }
  destruct (Z.leb_spec (JS.DayFromYear (y + 1)) d).
  - replace (y + 1 + 1) with (y + 2) by lia. lia.
  - destruct (Z.ltb_spec d (JS.DayFromYear y)).
    + replace (y - 1 + 1) with y by lia. lia.
    + lia.
Qed.

(** ... and the only one. *)
Lemma YearFromDay_unique y d :
  JS.DayFromYear y <= d < JS.DayFromYear (y + 1) -> JS.YearFromDay d = y.
Proof.
  intros Hy. pose proof (YearFromDay_spec d) as Hs.
  destruct (Z.lt_trichotomy (JS.YearFromDay d) y) as [Hlt | [Heq | Hgt]]; [|done|].
  - pose proof (DayFromYear_mono (JS.YearFromDay d + 1) y). lia.
  - pose proof (DayFromYear_mono (y + 1) (JS.YearFromDay d)). lia.
Qed.

Lemma leapDays_range y : JS.leapDays y = 0 \/ JS.leapDays y = 1.
Proof. unfold JS.leapDays. destruct (_ =? _); auto. Qed.

Lemma DaysInYear_leapDays y : JS.DaysInYear y = 365 + JS.leapDays y.
Proof.
  unfold JS.leapDays, JS.DaysInYear.
  repeat match goal with |- context [negb ?b] => destruct b; simpl end; done.
Qed.

Lemma monthOfDay_range d leap : 0 <= JS.monthOfDay d leap <= 11.
Proof.
  unfold JS.monthOfDay.
  repeat match goal with |- context [?a <? ?b] => destruct (a <? b) end; lia.
Qed.

(** The month found for a day within the year is the one whose days
    include it. *)
Lemma monthOfDay_start m d leap :
  0 <= m <= 11 -> (leap = 0 \/ leap = 1) ->
  JS.monthStart m leap <= d < JS.monthStart (m + 1) leap ->
  JS.monthOfDay d leap = m.
Proof.
  intros Hm Hl Hd.
  assert (Hcases : m = 0 \/ m = 1 \/ m = 2 \/ m = 3 \/ m = 4 \/ m = 5 \/ m = 6
                   \/ m = 7 \/ m = 8 \/ m = 9 \/ m = 10 \/ m = 11) by lia.
  unfold JS.monthOfDay.
  repeat match goal with |- context [?a <? ?b] => destruct (Z.ltb_spec a b) end;
    repeat (destruct Hcases as [-> | Hcases]); try subst m;
    simpl in Hd; destruct Hl; subst leap; lia.
Qed.

Lemma Day_MakeDate n r : 0 <= r < JS.msPerDay -> JS.Day (JS.MakeDate n r) = n.
Proof.
  unfold JS.Day, JS.MakeDate, JS.msPerDay. intros. Z.div_mod_to_equations. lia.
Qed.

Lemma MakeDate_Day t : JS.MakeDate (JS.Day t) (JS.TimeWithinDay t) = t.
Proof.
  unfold JS.Day, JS.MakeDate, JS.TimeWithinDay, JS.msPerDay.
  Z.div_mod_to_equations. lia.
Qed.

(** [setDate(getDate() + 1)] moves the local time by exactly one day. *)
Lemma MakeDay_next t :
  JS.MakeDay (JS.YearFromTime t) (JS.MonthFromTime t) (JS.DateFromTime t + 1)
  = JS.Day t + 1.
Proof.
  unfold JS.MakeDay, JS.DateFromTime, JS.DayWithinYear, JS.InLeapYear.
  pose proof (monthOfDay_range (JS.DayWithinYear t) (JS.InLeapYear t)) as Hm.
  fold (JS.MonthFromTime t) in Hm.
  rewrite Z.div_small, Z.mod_small by lia.
  rewrite Z.add_0_r. lia.
Qed.

(** The calendar day of the day number of a calendar day. *)
Lemma civil_of_MakeDay y m d :
  JS.validDate y m d = true ->
  let t := JS.MakeDate (JS.MakeDay y (m - 1) d) 0 in
  JS.YearFromTime t = y /\ JS.MonthFromTime t = m - 1 /\ JS.DateFromTime t = d.
Proof.
  unfold JS.validDate, JS.DaysInMonth. intros Hv.
  apply andb_true_iff in Hv as [Hv Hd2]. apply andb_true_iff in Hv as [Hv Hd1].
  apply andb_true_iff in Hv as [Hm1 Hm2].
  apply Z.leb_le in Hm1, Hm2, Hd1, Hd2.
  assert (Hday : JS.Day (JS.MakeDate (JS.MakeDay y (m - 1) d) 0) = JS.MakeDay y (m - 1) d).
  { apply Day_MakeDate. unfold JS.msPerDay. lia. }
  assert (Hmk : JS.MakeDay y (m - 1) d
                = JS.DayFromYear y + JS.monthStart (m - 1) (JS.leapDays y) + d - 1).
  { unfold JS.MakeDay. rewrite Z.div_small, Z.mod_small by lia.
    by rewrite Z.add_0_r. }
  pose proof (leapDays_range y) as Hl.
  assert (Hin : 0 <= JS.monthStart (m - 1) (JS.leapDays y)
                /\ JS.monthStart m (JS.leapDays y) <= 365 + JS.leapDays y).
  { assert (Hcases : m = 1 \/ m = 2 \/ m = 3 \/ m = 4 \/ m = 5 \/ m = 6 \/ m = 7
                     \/ m = 8 \/ m = 9 \/ m = 10 \/ m = 11 \/ m = 12) by lia.
    repeat (destruct Hcases as [-> | Hcases]); try subst m; simpl; lia. }
  assert (Hy : JS.YearFromTime (JS.MakeDate (JS.MakeDay y (m - 1) d) 0) = y).
  { unfold JS.YearFromTime. rewrite Hday. apply YearFromDay_unique.
    rewrite DayFromYear_succ, DaysInYear_leapDays, Hmk. lia. }
  assert (Hmo : JS.MonthFromTime (JS.MakeDate (JS.MakeDay y (m - 1) d) 0) = m - 1).
  { unfold JS.MonthFromTime, JS.DayWithinYear, JS.InLeapYear. rewrite Hy, Hday, Hmk.
    apply monthOfDay_start; [lia | done |].
    replace (m - 1 + 1) with m by lia. lia. }
  simpl. split; [done | split; [done |]].
  unfold JS.DateFromTime. rewrite Hmo.
  unfold JS.DayWithinYear, JS.InLeapYear. rewrite Hy, Hday, Hmk. lia.
Qed.

End JSFacts.

(** ** Dates: [toISOString().split('T')[0]] and the next calendar day *)

Section DateFacts.
Import JSFacts.
Context {host : JS.Host}.

Lemma chars_app a b :
  String.list_ascii_of_string (a +:+ b)
  = String.list_ascii_of_string a ++ String.list_ascii_of_string b.
Proof. induction a as [|x a IH]; [done|]. rewrite app_cons. simpl. by rewrite IH. Qed.

Lemma chars_cons c s :
  String.list_ascii_of_string (String c s) = c :: String.list_ascii_of_string s.
Proof. reflexivity. Qed.

Lemma split0_app c a b :
  Forall (fun x => x <> c) (String.list_ascii_of_string a) ->
  JS.split0 c (a +:+ String c b) = a.
Proof.
  induction a as [|x a IH]; intros H.
  - rewrite app_empty. simpl. by rewrite Ascii.eqb_refl.
  - rewrite app_cons. simpl. simpl in H. apply Forall_cons in H as [Hx H].
    destruct (Ascii.eqb_spec x c); [done|]. by rewrite IH.
Qed.

Lemma digitChar_plain k : 0 <= k < 10 -> JS.plainChar (JS.digitChar k).
Proof.
  intros Hk.
  assert (Hc : k = 0 \/ k = 1 \/ k = 2 \/ k = 3 \/ k = 4 \/ k = 5 \/ k = 6
               \/ k = 7 \/ k = 8 \/ k = 9) by lia.
  repeat (destruct Hc as [-> | Hc]); try subst k; done.
Qed.

Lemma digits_plain w n acc :
  Forall JS.plainChar (String.list_ascii_of_string acc) ->
  Forall JS.plainChar (String.list_ascii_of_string (JS.digits w n acc)).
Proof.
  revert n acc. induction w as [|w IH]; intros n acc H; simpl; [done|].
  apply IH. simpl. apply Forall_cons. split; [|done].
  apply digitChar_plain. apply Z.mod_pos_bound. lia.
Qed.

Lemma pad_plain w n : Forall JS.plainChar (String.list_ascii_of_string (JS.pad w n)).
Proof. apply digits_plain. simpl. constructor. Qed.

Lemma yearString_plain y : Forall JS.plainChar (String.list_ascii_of_string (JS.yearString y)).
Proof.
  unfold JS.yearString. destruct (_ && _); [apply pad_plain|].
  rewrite chars_cons. apply Forall_cons. split; [by destruct (y <? 0) | apply pad_plain].
Qed.

Lemma isoDateString_plain t :
  Forall JS.plainChar (String.list_ascii_of_string (JS.isoDateString t)).
Proof.
  unfold JS.isoDateString. rewrite !chars_app, !Forall_app.
  repeat split; try apply pad_plain; try apply yearString_plain;
    simpl; by repeat constructor.
Qed.

Lemma toISOString_date t :
  cbind (JS.toISOString (Some t)) (fun iso => Normal (JS.split0 "T" iso))
  = Normal (JS.isoDateString t).
Proof.
  simpl. f_equal. apply split0_app. apply isoDateString_plain.
Qed.

(** The ISO date depends on the day only. *)
Lemma isoDateString_Day t t' : JS.Day t = JS.Day t' -> JS.isoDateString t = JS.isoDateString t'.
Proof.
  intros H.
  unfold JS.isoDateString, JS.DateFromTime, JS.MonthFromTime, JS.DayWithinYear,
    JS.InLeapYear, JS.YearFromTime.
  by rewrite H.
Qed.

Lemma isoDateString_civil y m d :
  JS.validDate y m d = true ->
  JS.isoDateString (JS.MakeDate (JS.MakeDay y (m - 1) d) 0) = Spec.dateString (y, m, d).
Proof.
  intros Hv. destruct (civil_of_MakeDay y m d Hv) as (Hy & Hm & Hd).
  unfold JS.isoDateString, Spec.dateString. rewrite Hy, Hm, Hd.
  by replace (m - 1 + 1) with m by lia.
Qed.

Lemma validDate_inv y m d :
  JS.validDate y m d = true ->
  1 <= m <= 12 /\ 1 <= d <= JS.DaysInMonth y m.
Proof.
  unfold JS.validDate. intros Hv.
  apply andb_true_iff in Hv as [Hv Hd2]. apply andb_true_iff in Hv as [Hv Hd1].
  apply andb_true_iff in Hv as [Hm1 Hm2].
  apply Z.leb_le in Hm1, Hm2, Hd1, Hd2. lia.
Qed.

Lemma MakeDay_inrange y m d :
  0 <= m <= 11 ->
  JS.MakeDay y m d = JS.DayFromYear y + JS.monthStart m (JS.leapDays y) + d - 1.
Proof.
  intros. unfold JS.MakeDay. rewrite Z.div_small, Z.mod_small by lia.
  by rewrite Z.add_0_r.
Qed.

(** The day number after a calendar day is that of the next calendar day. *)
Lemma nextDay_MakeDay y m d :
  JS.validDate y m d = true ->
  let '(y', m', d') := Spec.nextDay y m d in
  JS.validDate y' m' d' = true /\
  JS.MakeDay y' (m' - 1) d' = JS.MakeDay y (m - 1) d + 1.
Proof.
  intros Hv. apply validDate_inv in Hv as [Hm Hd].
  unfold Spec.nextDay. pose proof (leapDays_range y) as Hl.
  pose proof (leapDays_range (y + 1)) as Hl'.
  assert (Hcases : m = 1 \/ m = 2 \/ m = 3 \/ m = 4 \/ m = 5 \/ m = 6 \/ m = 7
                   \/ m = 8 \/ m = 9 \/ m = 10 \/ m = 11 \/ m = 12) by lia.
  destruct (Z.ltb_spec d (JS.DaysInMonth y m)).
  - split.
    + unfold JS.validDate. repeat (apply andb_true_iff; split); apply Z.leb_le; lia.
    + rewrite !MakeDay_inrange by lia. lia.
  - destruct (Z.ltb_spec m 12).
    + split.
      * unfold JS.validDate, JS.DaysInMonth.
        repeat (apply andb_true_iff; split); apply Z.leb_le; try lia.
        repeat (destruct Hcases as [-> | Hcases]); try subst m; simpl;
          destruct Hl as [-> | ->]; lia.
      * rewrite !MakeDay_inrange by lia. unfold JS.DaysInMonth in *.
        replace (m + 1 - 1) with m by lia. lia.
    + assert (m = 12) by lia. subst m. split; [done|].
      rewrite !MakeDay_inrange by lia. unfold JS.DaysInMonth in *.
      rewrite DayFromYear_succ, DaysInYear_leapDays. simpl in *. lia.
Qed.

Lemma digitVal_range c a : JS.digitVal c = Some a -> 0 <= a <= 9.
Proof.
  unfold JS.digitVal. destruct (_ && _) eqn:Hc; [|done].
  intros [= <-]. apply andb_true_iff in Hc as [H1 H2].
  apply N.leb_le in H1, H2. lia.
Qed.

Lemma parseDateOnly_year v y m d :
  JS.parseDateOnly v = Some (y, m, d) -> 0 <= y <= 9999.
Proof.
  unfold JS.parseDateOnly. intros H.
  repeat match type of H with
         | context [match ?x with _ => _ end] => destruct x eqn:?; try discriminate H
         end.
  injection H as <- _ _.
  repeat match goal with
         | Hd : JS.digitVal _ = Some _ |- _ => apply digitVal_range in Hd
         end.
  lia.
Qed.

Lemma MakeDay_bound y m d :
  0 <= y <= 9999 -> JS.validDate y m d = true ->
  -1000000 <= JS.MakeDay y (m - 1) d <= 3000000.
Proof.
  intros Hy Hv. pose proof (validDate_inv _ _ _ Hv) as [Hm Hd].
  rewrite MakeDay_inrange by lia.
  pose proof (leapDays_range y) as Hl. unfold JS.DaysInMonth in Hd.
  assert (Hcases : m = 1 \/ m = 2 \/ m = 3 \/ m = 4 \/ m = 5 \/ m = 6 \/ m = 7
                   \/ m = 8 \/ m = 9 \/ m = 10 \/ m = 11 \/ m = 12) by lia.
  assert (0 <= JS.monthStart (m - 1) (JS.leapDays y) + d - 1 <= 366).
  { repeat (destruct Hcases as [-> | Hcases]); try subst m; simpl in *; lia. }
  assert (-800000 <= JS.DayFromYear y <= 2950000).
  { unfold JS.DayFromYear. Z.div_mod_to_equations. lia. }
  lia.
Qed.

(** The string computed for the end date is the ISO date of the next
    calendar day. *)
Lemma nextDayString_calendar value y m d :
  Spec.isCalendarDate value y m d -> Spec.offsetDoesNotGrow y m d ->
  nextDayString value = Normal (Spec.dateString (Spec.nextDay y m d)).
Proof.
  intros [Hp Hv] Hoff. unfold nextDayString, JS.Date_parse. rewrite Hp, Hv.
  set (t0 := JS.MakeDate (JS.MakeDay y (m - 1) d) 0).
  unfold JS.getDate, JS.plus1, JS.setDate.
  rewrite MakeDay_next.
  assert (Hlt : JS.MakeDate (JS.Day (JS.LocalTime t0) + 1) (JS.TimeWithinDay (JS.LocalTime t0))
                = JS.LocalTime t0 + JS.msPerDay).
  { pose proof (MakeDate_Day (JS.LocalTime t0)) as Hmd. unfold JS.MakeDate in *. lia. }
  rewrite Hlt. unfold Spec.offsetDoesNotGrow in Hoff. fold t0 in Hoff. simpl in Hoff.
  set (u := JS.UTC (JS.LocalTime t0 + JS.msPerDay)).
  pose proof (MakeDay_bound y m d (parseDateOnly_year _ _ _ _ Hp) Hv) as Hb.
  assert (Hu : t0 + JS.msPerDay <= u < t0 + 2 * JS.msPerDay).
  { subst u. unfold JS.UTC, JS.LocalTime in *. lia. }
  assert (Ht0 : t0 = JS.MakeDay y (m - 1) d * JS.msPerDay).
  { subst t0. unfold JS.MakeDate. lia. }
  assert (Hclip : JS.TimeClip u = Some u).
  { unfold JS.TimeClip. destruct (Z.ltb_spec 8640000000000000 (Z.abs u)); [|done].
    unfold JS.msPerDay in *. lia. }
  rewrite Hclip, toISOString_date. f_equal.
  pose proof (nextDay_MakeDay y m d Hv) as Hn.
  destruct (Spec.nextDay y m d) as [[y' m'] d']. destruct Hn as [Hv' Hn].
  rewrite <- (isoDateString_civil _ _ _ Hv').
  apply isoDateString_Day. rewrite Day_MakeDate by (unfold JS.msPerDay; lia).
  rewrite Hn. unfold JS.Day, JS.msPerDay in *. Z.div_mod_to_equations. lia.
Qed.
End DateFacts.

(** ** Validation *)

Section Validation.
Import JSFacts.
Context {host : JS.Host}.

Lemma blank_sat o : JS.blank o = false <-> Spec.nonEmptyAfterTrim o.
Proof.
  unfold Spec.nonEmptyAfterTrim. destruct o as [s|]; simpl.
  - rewrite <- not_true_iff_false, trim_blank. split.
    + intros H. exists s.
      assert (He : Exists (not ∘ (fun c => JS.isWhiteSpace c = true))
                          (String.list_ascii_of_string s)).
      { apply (not_Forall_Exists (fun c => JS.isWhiteSpace c = true)).
        intros HF. apply H. intros c Hc. by apply (proj1 (Forall_forall _ _) HF). }
      apply Exists_exists in He as (c & Hin & Hc). exists c. simpl in Hc.
      by destruct (JS.isWhiteSpace c).
    + intros (s' & c & [= <-] & Hin & Hc) Hall. rewrite (Hall c Hin) in Hc. done.
  - split; [done|]. intros (s & c & ? & _). done.
Qed.

Lemma undefinedOrNegative_sat o :
  undefinedOrNegative o = false <-> Spec.definedAnd Spec.notBelowZero o.
Proof.
  unfold Spec.definedAnd, Spec.notBelowZero. destruct o as [n|]; simpl.
  - split; [by exists n | by intros (n' & [= <-] & Hn)].
  - split; [done|]. intros (n & ? & _). done.
Qed.

Lemma missing_sat o : missing o = false <-> Spec.present o.
Proof.
  unfold Spec.present. destruct o as [s|]; simpl.
  - rewrite falsy_nonempty. split; [by exists s | by intros (s' & [= <-] & Hs)].
  - split; [done|]. intros (s & ? & _). done.
Qed.

Lemma dateBefore_false a b :
  dateBefore a b = false
  <-> forall ta tb, JS.Date_parse a = Some ta -> JS.Date_parse b = Some tb -> ~ ta < tb.
Proof.
  unfold dateBefore.
  destruct (JS.Date_parse a) as [x|]; [destruct (JS.Date_parse b) as [y|]|].
  - rewrite Z.ltb_ge. split.
    + intros Hle ta tb [= <-] [= <-]. lia.
    + intros H. specialize (H x y eq_refl eq_refl). lia.
  - split; [by intros | done].
  - split; [by intros | done].
Qed.

Lemma endBeforeStart_sat s e :
  endBeforeStart s e = false <-> Spec.datesInOrder s e.
Proof.
  unfold Spec.datesInOrder, endBeforeStart.
  destruct s as [s|]; [destruct e as [e|]|].
  - split.
    + intros H s' e' ts te [= <-] [= <-] Hs He Hts Hte.
      apply falsy_nonempty in Hs, He. rewrite Hs, He in H. simpl in H.
      by apply (proj1 (dateBefore_false e s) H).
    + intros H. destruct (JS.falsy s) eqn:Hs; [done|].
      destruct (JS.falsy e) eqn:He; [done|]. simpl.
      apply falsy_nonempty in Hs, He. apply dateBefore_false.
      intros te ts Hte Hts. by apply (H s e ts te).
  - split; [by intros | done].
  - split; [by intros | done].
Qed.

(** The check of each rule fails exactly when the rule is satisfied. *)
Lemma check_sat r data :
  match r with
  | Spec.ProviderIdRule => JS.blank (Partial.providerId data)
  | Spec.ServiceOrderRule => JS.blank (Partial.serviceOrder data)
  | Spec.CarIdRule => JS.blank (Partial.carId data)
  | Spec.OdometerRule => undefinedOrNegative (Partial.odometer data)
  | Spec.EngineHoursRule => undefinedOrNegative (Partial.engineHours data)
  | Spec.StartDateRule => missing (Partial.startDate data)
  | Spec.EndDateRule => missing (Partial.endDate data)
  | Spec.ServiceDescriptionRule => JS.blank (Partial.serviceDescription data)
  | Spec.DateOrderRule => endBeforeStart (Partial.startDate data) (Partial.endDate data)
  end = false
  <-> Spec.satisfies Spec.notBelowZero r data.
Proof.
  destruct r; simpl; auto using blank_sat, undefinedOrNegative_sat, missing_sat,
    endBeforeStart_sat.
Qed.

Lemma pushIf_app b m l : pushIf b m l = l ++ pushIf b m [].
Proof. by destruct b; simpl; rewrite ?app_nil_r. Qed.

Lemma elem_of_pushIf x b m : x ∈ pushIf b m [] <-> b = true /\ x = m.
Proof.
  destruct b; simpl.
  - rewrite list_elem_of_singleton. tauto.
  - rewrite elem_of_nil. split; [done | by intros [? _]].
Qed.

Lemma pushIf_nil b m : pushIf b m [] = [] <-> b = false.
Proof. by destruct b. Qed.

Lemma pushIf_sublist b m : pushIf b m [] `sublist_of` [m].
Proof. destruct b; simpl; [done | apply sublist_nil_l]. Qed.

(** The list of messages, one block per check. *)
Lemma validateServiceLog_blocks data :
  validateServiceLog data =
    pushIf (JS.blank (Partial.providerId data)) "Provider ID is required" []
    ++ pushIf (JS.blank (Partial.serviceOrder data)) "Service Order is required" []
    ++ pushIf (JS.blank (Partial.carId data)) "Car ID is required" []
    ++ pushIf (undefinedOrNegative (Partial.odometer data))
              "Valid odometer reading is required" []
    ++ pushIf (undefinedOrNegative (Partial.engineHours data))
              "Valid engine hours is required" []
    ++ pushIf (missing (Partial.startDate data)) "Start date is required" []
    ++ pushIf (missing (Partial.endDate data)) "End date is required" []
    ++ pushIf (JS.blank (Partial.serviceDescription data))
              "Service description is required" []
    ++ pushIf (endBeforeStart (Partial.startDate data) (Partial.endDate data))
              "End date must be after start date" [].
Proof.
  unfold validateServiceLog.
  repeat (rewrite (pushIf_app _ _ (pushIf _ _ _))).
  by rewrite <- !app_assoc.
Qed.

Lemma message_in_validate r data :
  Spec.message r ∈ validateServiceLog data
  <-> ~ Spec.satisfies Spec.notBelowZero r data.
Proof.
  rewrite <- check_sat, not_false_iff_true.
  rewrite validateServiceLog_blocks, !elem_of_app, !elem_of_pushIf.
  destruct r; simpl;
    (split; [intros H; repeat destruct H as [H | H]; by destruct H | tauto]).
Qed.

Lemma validate_nil data :
  validateServiceLog data = [] <-> forall r, Spec.satisfies Spec.notBelowZero r data.
Proof.
  rewrite validateServiceLog_blocks, !app_nil, !pushIf_nil. split.
  - intros H r. apply check_sat. destruct r; tauto.
  - intros H.
    pose proof (fun r => proj2 (check_sat r data) (H r)) as Hc.
    pose proof (Hc Spec.ProviderIdRule). pose proof (Hc Spec.ServiceOrderRule).
    pose proof (Hc Spec.CarIdRule). pose proof (Hc Spec.OdometerRule).
    pose proof (Hc Spec.EngineHoursRule). pose proof (Hc Spec.StartDateRule).
    pose proof (Hc Spec.EndDateRule). pose proof (Hc Spec.ServiceDescriptionRule).
    pose proof (Hc Spec.DateOrderRule). tauto.
Qed.

Lemma validate_sublist data :
  validateServiceLog data `sublist_of` (Spec.message <$> Spec.ruleOrder).
Proof.
  rewrite validateServiceLog_blocks.
  change (Spec.message <$> Spec.ruleOrder) with
    (["Provider ID is required"] ++ ["Service Order is required"]
     ++ ["Car ID is required"] ++ ["Valid odometer reading is required"]
     ++ ["Valid engine hours is required"] ++ ["Start date is required"]
     ++ ["End date is required"] ++ ["Service description is required"]
     ++ ["End date must be after start date"]).
  repeat (apply sublist_app; [apply pushIf_sublist|]). apply pushIf_sublist.
Qed.

Lemma messages_NoDup : NoDup (Spec.message <$> Spec.ruleOrder).
Proof. compute_done. Qed.
End Validation.


(** C2, as amended. [validateServiceLog] is a function of the candidate (and
    of the host's date parsing), so it is pure and deterministic. It returns
    the empty list exactly when the candidate satisfies the nine rules, where
    rules 4 and 5 read "defined and not below zero"; the message of a rule is
    in the result exactly when the rule is violated; and the result is a
    sublist of the nine distinct messages in rule order, so each message
    occurs at most once and in the fixed order. *)
Theorem validateServiceLog_characterization {host : JS.Host} (data : Partial.t) :
  (validateServiceLog data = [] <->
     forall r, Spec.satisfies Spec.notBelowZero r data)
  /\ (forall r, Spec.message r ∈ validateServiceLog data <->
                ~ Spec.satisfies Spec.notBelowZero r data)
  /\ validateServiceLog data `sublist_of` (Spec.message <$> Spec.ruleOrder)
  /\ NoDup (Spec.message <$> Spec.ruleOrder).
Proof.
  split; [apply validate_nil|].
  split; [intros r; apply message_in_validate|].
  split; [apply validate_sublist | apply messages_NoDup].
Qed.

(** C2, as stated, fails: a candidate whose odometer reading is NaN is
    otherwise complete and gets no message, yet its odometer is not
    "defined and >= 0". *)
Lemma validateServiceLog_accepts_NaN :
  validateServiceLog (host := Examples.utcHost) Examples.nanCandidate = []
  /\ ~ Spec.satisfies (host := Examples.utcHost) Spec.atLeastZero
         Spec.OdometerRule Examples.nanCandidate.
Proof.
  split; [by vm_compute|].
  intros (n & Hn & Hge). injection Hn as <-. discriminate Hge.
Qed.

(** ** Promotion of the current draft *)

(** What [createServiceLog] does with a current draft [d]: it validates
    [d]. If the list of violations is not empty, the result is the state
    with that list as validation errors and nothing else changed (records,
    drafts and the pointer included). If it is empty, the records gain
    exactly one entry at the end, with the shared fields of [d], the
    generated [id] and [createdAt], and with the [lastSaved] and [isDirty]
    of [d], which the spread copies; the drafts with the id of [d] are
    removed, so [d] is no longer in the collection; the pointer is null; the
    validation errors are empty; the other fields are unchanged. *)
Theorem createServiceLog_contract {host : JS.Host} (e : Env)
        (s : RootStateServiceLog) (d : Draft.t) :
  currentDraft s = Some d ->
  (validateServiceLog (Partial.of_fields (Draft.fields d)) <> [] ->
   createServiceLog e s
   = Normal (set_validationErrors
               (validateServiceLog (Partial.of_fields (Draft.fields d))) s))
  /\ (validateServiceLog (Partial.of_fields (Draft.fields d)) = [] ->
      createServiceLog e s
      = Normal (mkState
                  (serviceLogs s ++
                   [ServiceLog.mk
                      ("log_" +:+ JS.intToString (clock e 0) +:+ "_" +:+ random e)
                      (Draft.fields d)
                      (JS.isoDateString (clock e 1) +:+ "T" +:+ JS.isoTimeString (clock e 1))
                      (Some (Draft.lastSaved d)) (Some (Draft.isDirty d))])
                  (filter (fun x => Draft.id x ≠ Draft.id d) (drafts s))
                  None (searchTerm s) (filters s) (editingLog s) (saveStatus s)
                  [] (showFilters s))
      /\ d ∉ filter (fun x => Draft.id x ≠ Draft.id d) (drafts s)).
Proof.
  intros Hcur. unfold createServiceLog. rewrite Hcur. split.
  - intros Herr. destruct (validateServiceLog _) eqn:Hv; [done|]. reflexivity.
  - intros Herr. rewrite Herr. simpl. split; [reflexivity|].
    rewrite list_elem_of_filter. intros [Hne _]. by apply Hne.
Qed.

Lemma createServiceLog_contract_witness :
  currentDraft Examples.oneDraft = Some Examples.draft
  /\ createServiceLog (host := Examples.utcHost) Examples.env Examples.oneDraft
     = Normal (mkState
                 [ServiceLog.mk "log_1730000000123_k3j9x2a" Examples.fields
                                "2024-10-27T03:33:20.123Z"
                                (Some "2024-01-01T00:00:00.000Z") (Some false)]
                 [] None "" (Filters.mk "" "" None) None idle [] false).
Proof.
  split; [reflexivity|].
  destruct (createServiceLog_contract (host := Examples.utcHost) Examples.env
              Examples.oneDraft Examples.draft eq_refl) as [_ Hvalid].
  destruct Hvalid as [Heq _]; [by vm_compute|].
  rewrite Heq. by vm_compute.
Defined.

(** C1. The entry that [createServiceLog] appends is not the shared fields
    of the draft with a generated [id] and [createdAt] only: promoting the
    valid draft of [Examples.oneDraft] appends a record object that also has
    the [lastSaved] and the [isDirty] of the draft, which [interface
    ServiceLog] does not declare and the cast [as ServiceLog] hides. The
    rest of the contract holds there: one entry is appended, the draft
    leaves the collection, the pointer is null and the validation errors are
    empty. *)
Theorem createServiceLog_copies_lastSaved_isDirty :
  validateServiceLog (host := Examples.utcHost)
    (Partial.of_fields (Draft.fields Examples.draft)) = []
  /\ createServiceLog (host := Examples.utcHost) Examples.env Examples.oneDraft
     = Normal (mkState
                 [ServiceLog.mk "log_1730000000123_k3j9x2a" (Draft.fields Examples.draft)
                                "2024-10-27T03:33:20.123Z"
                                (Some (Draft.lastSaved Examples.draft))
                                (Some (Draft.isDirty Examples.draft))]
                 [] None "" (Filters.mk "" "" None) None idle [] false)
  /\ ServiceLog.mk "log_1730000000123_k3j9x2a" (Draft.fields Examples.draft)
                   "2024-10-27T03:33:20.123Z"
                   (Some (Draft.lastSaved Examples.draft))
                   (Some (Draft.isDirty Examples.draft))
     <> ServiceLog.mk "log_1730000000123_k3j9x2a" (Draft.fields Examples.draft)
                      "2024-10-27T03:33:20.123Z" None None
  /\ ~ Spec.plainRecord
        (ServiceLog.mk "log_1730000000123_k3j9x2a" (Draft.fields Examples.draft)
                       "2024-10-27T03:33:20.123Z"
                       (Some (Draft.lastSaved Examples.draft))
                       (Some (Draft.isDirty Examples.draft))).
Proof.
  split; [by vm_compute|]. split; [by vm_compute|].
  split; [discriminate|]. intros [Hstamp _]. discriminate Hstamp.
Qed.

(** C9. With no current draft, [createServiceLog] returns the state whose
    validation errors are the one message "No draft selected" and whose
    other fields are those of the state it was given. *)
Theorem createServiceLog_no_draft {host : JS.Host} (e : Env) (s : RootStateServiceLog) :
  currentDraft s = None ->
  createServiceLog e s
  = Normal (mkState (serviceLogs s) (drafts s) (currentDraft s) (searchTerm s)
                    (filters s) (editingLog s) (saveStatus s)
                    ["No draft selected"] (showFilters s)).
Proof.
  intros Hcur. unfold createServiceLog. rewrite Hcur.
  unfold set_validationErrors. by rewrite Hcur.
Qed.

Lemma createServiceLog_no_draft_witness :
  currentDraft Examples.editing = None
  /\ createServiceLog (host := Examples.utcHost) Examples.env Examples.editing
     = Normal (mkState [Examples.log] [] None "" (Filters.mk "" "" None)
                       (Some Examples.log) saving ["No draft selected"] true).
Proof.
  split; [reflexivity|].
  apply (createServiceLog_no_draft (host := Examples.utcHost) Examples.env
           Examples.editing eq_refl).
Defined.

(** ** The edit session *)

(** C3. With an open edit session on the working copy [l], [saveEditingLog]
    validates [l]. If the list of violations is not empty, the result is the
    state with that list as validation errors and nothing else changed: the
    working copy stays open and the records are as they were. If it is
    empty, every record with the id of [l] is replaced by [l] at its own
    position (the collection keeps its length and order), the session is
    closed, the validation errors are empty and the save status is idle. *)
Theorem saveEditingLog_contract {host : JS.Host} (s : RootStateServiceLog)
        (l : ServiceLog.t) :
  editingLog s = Some l ->
  (validateServiceLog (Partial.of_fields (ServiceLog.fields l)) <> [] ->
   saveEditingLog s
   = set_validationErrors
       (validateServiceLog (Partial.of_fields (ServiceLog.fields l))) s
   /\ editingLog (saveEditingLog s) = Some l
   /\ serviceLogs (saveEditingLog s) = serviceLogs s)
  /\ (validateServiceLog (Partial.of_fields (ServiceLog.fields l)) = [] ->
      length (serviceLogs (saveEditingLog s)) = length (serviceLogs s)
      /\ (forall i x, serviceLogs s !! i = Some x ->
            serviceLogs (saveEditingLog s) !! i
            = Some (if bool_decide (ServiceLog.id x = ServiceLog.id l) then l else x))
      /\ editingLog (saveEditingLog s) = None
      /\ validationErrors (saveEditingLog s) = []
      /\ saveStatus (saveEditingLog s) = idle).
Proof.
  intros Hed. unfold saveEditingLog. rewrite Hed. split.
  - intros Herr. destruct (validateServiceLog _) eqn:Hv; [done|]. by simpl.
  - intros Herr. rewrite Herr. simpl. split; [by rewrite length_map|].
    split; [|done]. intros i x Hi.
    change (map ?f ?l) with (f <$> l). by rewrite list_lookup_fmap, Hi.
Qed.

Lemma saveEditingLog_contract_witness :
  editingLog Examples.editing = Some Examples.log
  /\ editingLog (saveEditingLog (host := Examples.utcHost) Examples.editing) = None
  /\ saveStatus (saveEditingLog (host := Examples.utcHost) Examples.editing) = idle.
Proof.
  split; [reflexivity|].
  destruct (saveEditingLog_contract (host := Examples.utcHost) Examples.editing
              Examples.log eq_refl) as [_ Hvalid].
  destruct Hvalid as (_ & _ & Hclosed & _ & Hidle); [by vm_compute|].
  by split.
Defined.

(** C10. A successful [saveEditingLog] also sets [showFilters] to false; it
    leaves the drafts, the current draft, the search term and the filters
    as they were, and every record whose id is not that of the working copy
    stays at its position unchanged. *)
Theorem saveEditingLog_frame {host : JS.Host} (s : RootStateServiceLog)
        (l : ServiceLog.t) :
  editingLog s = Some l ->
  validateServiceLog (Partial.of_fields (ServiceLog.fields l)) = [] ->
  showFilters (saveEditingLog s) = false
  /\ drafts (saveEditingLog s) = drafts s
  /\ currentDraft (saveEditingLog s) = currentDraft s
  /\ searchTerm (saveEditingLog s) = searchTerm s
  /\ filters (saveEditingLog s) = filters s
  /\ (forall i x, serviceLogs s !! i = Some x ->
        ServiceLog.id x <> ServiceLog.id l ->
        serviceLogs (saveEditingLog s) !! i = Some x).
Proof.
  intros Hed Herr. unfold saveEditingLog. rewrite Hed, Herr. simpl.
  repeat split. intros i x Hi Hne.
  change (map ?f ?l) with (f <$> l). rewrite list_lookup_fmap, Hi. simpl.
  by rewrite bool_decide_eq_false_2.
Qed.

Lemma saveEditingLog_frame_witness :
  editingLog Examples.editing = Some Examples.log
  /\ validateServiceLog (host := Examples.utcHost)
       (Partial.of_fields (ServiceLog.fields Examples.log)) = []
  /\ showFilters Examples.editing = true
  /\ showFilters (saveEditingLog (host := Examples.utcHost) Examples.editing) = false.
Proof.
  split; [reflexivity|]. split; [by vm_compute|]. split; [reflexivity|].
  assert (Hv : validateServiceLog (host := Examples.utcHost)
                 (Partial.of_fields (ServiceLog.fields Examples.log)) = [])
    by (by vm_compute).
  apply (saveEditingLog_frame (host := Examples.utcHost) Examples.editing
           Examples.log eq_refl Hv).
Defined.

(** ** The current-draft pointer and ids that are not there *)

Section Pointer.
Context {host : JS.Host}.

Lemma filter_all {A} (P : A -> Prop) `{forall x, Decision (P x)} (l : list A) :
  (forall x, x ∈ l -> P x) -> filter P l = l.
Proof.
  induction l as [|x l IH]; intros Hall; [done|].
  rewrite filter_cons_True by (apply Hall; left).
  f_equal. apply IH. intros y Hy. apply Hall. by right.
Qed.

Lemma list_find_absent {A} (P : A -> Prop) `{forall x, Decision (P x)} (l : list A) :
  (forall x, x ∈ l -> ~ P x) -> list_find P l = None.
Proof. intros Hall. apply list_find_None, Forall_forall. apply Hall. Qed.

Lemma currentDraftHasId_false s id :
  currentDraftHasId s id = false <-> forall d, currentDraft s = Some d -> Draft.id d <> id.
Proof.
  unfold currentDraftHasId. destruct (currentDraft s) as [d|].
  - rewrite bool_decide_eq_false. split; [by intros ? ? [= <-] | by intros H; apply H].
  - split; [by intros | done].
Qed.

Lemma pointerOK_absent s id :
  Spec.pointerOK s -> (forall d, d ∈ drafts s -> Draft.id d <> id) ->
  currentDraftHasId s id = false.
Proof.
  intros Hok Habs. apply currentDraftHasId_false. intros d Hd.
  unfold Spec.pointerOK in Hok. rewrite Hd in Hok. by apply Habs.
Qed.

Lemma deleteDraft_noop s id :
  (forall d, d ∈ drafts s -> Draft.id d <> id) ->
  currentDraftHasId s id = false -> deleteDraft s id = s.
Proof.
  intros Habs Hcur. unfold deleteDraft.
  rewrite (filter_all _ _ Habs).
  replace (currentDraftHasId (set_drafts (drafts s) s) id) with false.
  by destruct s.
Qed.

Lemma deleteServiceLog_noop s id :
  (forall l, l ∈ serviceLogs s -> ServiceLog.id l <> id) ->
  editingLogHasId s id = false -> deleteServiceLog s id = s.
Proof.
  intros Habs Hed. unfold deleteServiceLog.
  rewrite (filter_all _ _ Habs).
  replace (editingLogHasId (set_serviceLogs (serviceLogs s) s) id) with false.
  by destruct s.
Qed.

(** The pointer condition reads the drafts and the pointer only. *)
Lemma pointerOK_ext s s' :
  drafts s' = drafts s -> currentDraft s' = currentDraft s ->
  Spec.pointerOK s -> Spec.pointerOK s'.
Proof. unfold Spec.pointerOK. by intros -> ->. Qed.

(** Writing [d'] over the first draft with id [id] keeps a pointer that
    names another draft, and serves a pointer moved to [d']. *)
Lemma pointerOK_overwrite s id i d0 d' (moved : bool) :
  Spec.pointerOK s ->
  list_find (fun d => Draft.id d = id) (drafts s) = Some (i, d0) ->
  (moved = false -> currentDraftHasId s id = false) ->
  Spec.pointerOK
    (let s' := set_drafts (<[i := d']> (drafts s)) s in
     if moved then set_currentDraft (Some d') s' else s').
Proof.
  intros Hok Hfind Hmoved. apply list_find_Some in Hfind as (Hi & Hid & _).
  destruct moved; unfold Spec.pointerOK; simpl.
  - apply list_elem_of_lookup. exists i. apply list_lookup_insert_eq.
    by eapply lookup_lt_Some.
  - specialize (Hmoved eq_refl). unfold Spec.pointerOK in Hok.
    destruct (currentDraft s) as [c|] eqn:Hc; [|done].
    apply list_elem_of_lookup in Hok as [j Hj].
    apply list_elem_of_lookup. exists j.
    rewrite list_lookup_insert_ne; [done|]. intros <-.
    rewrite Hi in Hj. injection Hj as <-.
    apply currentDraftHasId_false with (d := d0) in Hmoved; [done|].
    done.
Qed.

Lemma updateDraft_pointerOK s id u s' :
  Spec.pointerOK s -> updateDraft s id u = Normal s' -> Spec.pointerOK s'.
Proof.
  intros Hok. unfold updateDraft.
  destruct (list_find _ _) as [[i d0]|] eqn:Hfind; [|by intros [= <-]].
  match goal with
  | |- cbind ?c _ = _ -> _ => destruct c as [d'|] eqn:Hd'; [|done]
  end.
  simpl. intros [= <-].
  pose proof (pointerOK_overwrite s id i d0 d' (currentDraftHasId s id) Hok Hfind
                (fun H => H)) as Hp.
  simpl in Hp. destruct (currentDraftHasId s id);
    (eapply pointerOK_ext; [| |exact Hp]; done).
Qed.

Lemma markDraftSaved_pointerOK e s id stamp s' :
  Spec.pointerOK s -> markDraftSaved e s id stamp = Normal s' -> Spec.pointerOK s'.
Proof.
  intros Hok. unfold markDraftSaved.
  destruct (list_find _ _) as [[i d0]|] eqn:Hfind; [|by intros [= <-]].
  match goal with
  | |- cbind ?c _ = _ -> _ => destruct c as [v|] eqn:Hv; [|done]
  end.
  simpl. intros [= <-].
  assert (Hid : Draft.id d0 = id) by (by apply list_find_Some in Hfind as (_ & ? & _)).
  set (d' := Draft.with_lastSaved v (Draft.with_isDirty false d0)).
  pose proof (pointerOK_overwrite s id i d0 d' (currentDraftHasId s id) Hok Hfind
                (fun H => H)) as Hp.
  simpl in Hp.
  replace (currentDraftHasId (set_drafts (<[i:=d']> (drafts s)) s) (Draft.id d0))
    with (currentDraftHasId s id) by (by rewrite Hid).
  destruct (currentDraftHasId s id); exact Hp.
Qed.

Lemma deleteDraft_pointerOK s id :
  Spec.pointerOK s -> Spec.pointerOK (deleteDraft s id).
Proof.
  intros Hok. unfold deleteDraft.
  change (currentDraftHasId (set_drafts _ s) id) with (currentDraftHasId s id).
  destruct (currentDraftHasId s id) eqn:Hcur; [done|].
  unfold Spec.pointerOK in *. simpl.
  destruct (currentDraft s) as [c|] eqn:Hc; [|done].
  apply list_elem_of_filter. split; [|done].
  by apply (proj1 (currentDraftHasId_false s id) Hcur).
Qed.

Lemma createDraft_pointerOK e s s' :
  createDraft e s = Normal s' -> Spec.pointerOK s'.
Proof.
  unfold createDraft.
  destruct (createInitialDraft e) as [f|]; [|done]. simpl. intros [= <-].
  unfold Spec.pointerOK. simpl. apply elem_of_app. right. left.
Qed.

Lemma createServiceLog_pointerOK e s s' :
  Spec.pointerOK s -> createServiceLog e s = Normal s' -> Spec.pointerOK s'.
Proof.
  intros Hok. unfold createServiceLog.
  destruct (currentDraft s) as [c|] eqn:Hc; [|by intros [= <-]].
  destruct (negb _); [by intros [= <-]|]. simpl. by intros [= <-].
Qed.

Lemma updateEditingLogField_frame s u s' :
  updateEditingLogField s u = Normal s' ->
  drafts s' = drafts s /\ currentDraft s' = currentDraft s.
Proof.
  unfold updateEditingLogField. destruct (editingLog s); [|by intros [= <-]].
  match goal with
  | |- cbind ?c _ = _ -> _ => destruct c; [|done]
  end.
  simpl. by intros [= <-].
Qed.

Lemma saveEditingLog_drafts s :
  drafts (saveEditingLog s) = drafts s
  /\ currentDraft (saveEditingLog s) = currentDraft s.
Proof.
  unfold saveEditingLog. destruct (editingLog s); [|done]. by destruct (negb _).
Qed.

Lemma deleteServiceLog_drafts s id :
  drafts (deleteServiceLog s id) = drafts s
  /\ currentDraft (deleteServiceLog s id) = currentDraft s.
Proof. unfold deleteServiceLog. by destruct (editingLogHasId _ _). Qed.

(** Every ordinary action that returns normally keeps the pointer
    condition. *)
Lemma ordinary_pointerOK e s a s' :
  Spec.pointerOK s -> Spec.ordinary a -> reducer e s a = Normal s' ->
  Spec.pointerOK s'.
Proof.
  intros Hok Hord. destruct a; simpl in *; try done.
  - apply createDraft_pointerOK.
  - by apply updateDraft_pointerOK.
  - intros [= <-]. by apply deleteDraft_pointerOK.
  - by intros [= <-].
  - by apply createServiceLog_pointerOK.
  - by intros [= <-].
  - intros [Hd Hc]%updateEditingLogField_frame. by eapply pointerOK_ext.
  - intros [= <-]. destruct (saveEditingLog_drafts s). by eapply pointerOK_ext.
  - intros [= <-]. destruct (deleteServiceLog_drafts s payload). by eapply pointerOK_ext.
  - by intros [= <-].
  - by intros [= <-].
  - by intros [= <-].
  - by intros [= <-].
  - by intros [= <-].
  - by intros [= <-].
  - by apply markDraftSaved_pointerOK.
Qed.

Lemma select_pointerOK s d :
  (forall x, d = Some x -> x ∈ drafts s) -> Spec.pointerOK (setCurrentDraft s d).
Proof.
  intros Hd. unfold Spec.pointerOK. simpl. destruct d as [x|]; [by apply Hd | done].
Qed.
End Pointer.


(** ** Persistence *)

Section Persistence.

Lemma asDraft_ofDraft d :
  Spec.finiteFields (Draft.fields d) -> JSON.asDraft (JSON.ofDraft d) = Some d.
Proof.
  destruct d as [id [p so c od eh sd ed t desc] ls dirty].
  intros [[q1 H1] [q2 H2]]. simpl in H1, H2. subst od eh.
  destruct t; by vm_compute.
Qed.

Lemma asDraft_ofDraft_inv d d' :
  JSON.asDraft (JSON.ofDraft d) = Some d' -> d' = d.
Proof.
  destruct d as [id [p so c od eh sd ed t desc] ls dirty].
  destruct od as [| |q1]; try (by destruct t; vm_compute);
    destruct eh as [| |q2]; try (by destruct t; vm_compute).
  destruct t; vm_compute; congruence.
Qed.

Lemma asServiceLog_ofServiceLog l :
  Spec.finiteFields (ServiceLog.fields l) ->
  JSON.asServiceLog (JSON.ofServiceLog l) = Some l.
Proof.
  destruct l as [id [p so c od eh sd ed t desc] ca ls dirty].
  intros [[q1 H1] [q2 H2]]. simpl in H1, H2. subst od eh.
  destruct t, ls, dirty; by vm_compute.
Qed.

Lemma asServiceLog_ofServiceLog_inv l l' :
  JSON.asServiceLog (JSON.ofServiceLog l) = Some l' -> l' = l.
Proof.
  destruct l as [id [p so c od eh sd ed t desc] ca ls dirty].
  destruct od as [| |q1]; try (by destruct t, ls, dirty; vm_compute);
    destruct eh as [| |q2]; try (by destruct t, ls, dirty; vm_compute).
  destruct t, ls, dirty; vm_compute; congruence.
Qed.

Lemma mapM_fmap_Some {A B} (f : B -> option A) (g : A -> B) (l : list A) :
  (forall x, x ∈ l -> f (g x) = Some x) -> mapM f (g <$> l) = Some l.
Proof.
  intros H. apply mapM_Some. apply Forall2_fmap_l, Forall_Forall2_diag.
  by apply Forall_forall.
Qed.

Lemma mapM_fmap_inv {A B} (f : B -> option A) (g : A -> B) (l k : list A) :
  (forall x y, f (g x) = Some y -> y = x) -> mapM f (g <$> l) = Some k -> k = l.
Proof.
  intros H Hm. apply mapM_Some in Hm. apply Forall2_fmap_l in Hm.
  induction Hm as [|x y l k Hxy _ IH]; [done|]. f_equal; [by apply H | done].
Qed.

Lemma blob_lookup (a b c : JSON.value) :
  let m : gmap string JSON.value :=
    <["serviceLogs" := a]> (<["drafts" := b]> (<["currentDraft" := c]> ∅)) in
  m !! "serviceLogs" = Some a /\ m !! "drafts" = Some b /\ m !! "currentDraft" = Some c.
Proof. by vm_compute. Qed.

Lemma persist_accepted s ls :
  Spec.writeAccepted s ls ->
  persistToLocalStorage s ls
  = mkStorage (<[LOCAL_STORAGE_KEY := JSONText (toSave s)]> (items ls)) (accepts ls).
Proof. unfold persistToLocalStorage, setItem, Spec.writeAccepted. by intros ->. Qed.

Lemma persist_refused s ls :
  ~ Spec.writeAccepted s ls -> persistToLocalStorage s ls = ls.
Proof.
  unfold persistToLocalStorage, setItem, Spec.writeAccepted.
  by destruct (accepts ls (items ls) _ _).
Qed.

Lemma load_persist s ls :
  Spec.writeAccepted s ls ->
  loadFromLocalStorage (persistToLocalStorage s ls) = toSave s.
Proof.
  intros Hacc. rewrite (persist_accepted _ _ Hacc).
  unfold loadFromLocalStorage. simpl. by rewrite lookup_insert_eq.
Qed.

Lemma asDraft_ofDraft_finite d d' :
  JSON.asDraft (JSON.ofDraft d) = Some d' -> Spec.finiteFields (Draft.fields d).
Proof.
  destruct d as [id [p so c od eh sd ed t desc] ls dirty].
  destruct od as [| |q1]; try (by destruct t; vm_compute);
    destruct eh as [| |q2]; try (by destruct t; vm_compute).
  intros _. split; eexists; reflexivity.
Qed.

Lemma asServiceLog_ofServiceLog_finite l l' :
  JSON.asServiceLog (JSON.ofServiceLog l) = Some l' ->
  Spec.finiteFields (ServiceLog.fields l).
Proof.
  destruct l as [id [p so c od eh sd ed t desc] ca ls dirty].
  destruct od as [| |q1]; try (by destruct t, ls, dirty; vm_compute);
    destruct eh as [| |q2]; try (by destruct t, ls, dirty; vm_compute).
  intros _. split; eexists; reflexivity.
Qed.

Lemma mapM_fmap_all {A B C} (f : B -> option C) (g : A -> B) (P : A -> Prop)
      (l : list A) (k : list C) :
  (forall x y, f (g x) = Some y -> P x) -> mapM f (g <$> l) = Some k ->
  forall x, x ∈ l -> P x.
Proof.
  intros H Hm. apply mapM_Some in Hm. apply Forall2_fmap_l in Hm.
  induction Hm as [|x y l k Hxy _ IH]; intros z Hz.
  - by apply elem_of_nil in Hz.
  - apply elem_of_cons in Hz as [-> | Hz]; [by eapply H | by apply IH].
Qed.

Lemma asNullable_ofOption_inv o o' :
  JSON.asNullable JSON.asDraft (JSON.ofOption JSON.ofDraft o) = Some o' -> o' = o.
Proof.
  destruct o as [d|]; [|by intros [= <-]].
  change (JSON.asNullable JSON.asDraft (JSON.ofOption JSON.ofDraft (Some d)))
    with (Some <$> JSON.asDraft (JSON.ofDraft d)).
  destruct (JSON.asDraft (JSON.ofDraft d)) as [d'|] eqn:Hd; [|done].
  apply asDraft_ofDraft_inv in Hd as ->. by intros [= <-].
Qed.

Lemma asNullable_ofOption o :
  (forall d, o = Some d -> Spec.finiteFields (Draft.fields d)) ->
  JSON.asNullable JSON.asDraft (JSON.ofOption JSON.ofDraft o) = Some o.
Proof.
  intros H. destruct o as [d|]; [|done].
  change (JSON.asNullable JSON.asDraft (JSON.ofOption JSON.ofDraft (Some d)))
    with (Some <$> JSON.asDraft (JSON.ofDraft d)).
  by rewrite asDraft_ofDraft by (by apply H).
Qed.

(** The typed reading of a persisted blob, when there is one, is the
    records, the drafts marked clean and the current draft marked clean. *)
Lemma asPayload_toSave_inv s p :
  JSON.asPayload (toSave s) = Some p ->
  p = mkPayload (Some (serviceLogs s))
                (Some (Draft.with_isDirty false <$> drafts s))
                (Some (Draft.with_isDirty false <$> currentDraft s))
                None None None None None None.
Proof.
  unfold toSave, JSON.asPayload, JSON.getOpt.
  match goal with
  | |- context [<["serviceLogs" := ?a]> (<["drafts" := ?b]> (<["currentDraft" := ?c]> ∅))] =>
      destruct (blob_lookup a b c) as (-> & -> & ->)
  end.
  unfold JSON.asArray.
  destruct (mapM JSON.asServiceLog _) as [logs|] eqn:Hl; [|done].
  apply mapM_fmap_inv in Hl as ->; [|apply asServiceLog_ofServiceLog_inv].
  destruct (mapM JSON.asDraft _) as [ds|] eqn:Hd; [|done].
  apply mapM_fmap_inv in Hd as ->; [|apply asDraft_ofDraft_inv].
  destruct (JSON.asNullable _ _) as [cur|] eqn:Hc; [|done].
  apply asNullable_ofOption_inv in Hc as ->. by intros [= <-].
Qed.

Lemma with_isDirty_fields b d :
  Draft.fields (Draft.with_isDirty b d) = Draft.fields d.
Proof. reflexivity. Qed.

Lemma asPayload_toSave s :
  Spec.finiteState s ->
  JSON.asPayload (toSave s)
  = Some (mkPayload (Some (serviceLogs s))
                    (Some (Draft.with_isDirty false <$> drafts s))
                    (Some (Draft.with_isDirty false <$> currentDraft s))
                    None None None None None None).
Proof.
  intros (Hlogs & Hdrafts & Hcur).
  unfold toSave, JSON.asPayload, JSON.getOpt.
  match goal with
  | |- context [<["serviceLogs" := ?a]> (<["drafts" := ?b]> (<["currentDraft" := ?c]> ∅))] =>
      destruct (blob_lookup a b c) as (-> & -> & ->)
  end.
  unfold JSON.asArray.
  rewrite (mapM_fmap_Some JSON.asServiceLog JSON.ofServiceLog)
    by (intros; by apply asServiceLog_ofServiceLog, Hlogs).
  rewrite (mapM_fmap_Some JSON.asDraft JSON.ofDraft).
  2:{ intros d [d0 [-> Hd0]]%list_elem_of_fmap. apply asDraft_ofDraft.
      rewrite with_isDirty_fields. by apply Hdrafts. }
  rewrite asNullable_ofOption; [done|].
  intros d Hd. destruct (currentDraft s) as [c|]; [|done].
  injection Hd as <-. rewrite with_isDirty_fields. by apply Hcur.
Qed.

(** A blob that reads back at the types of the slice was written from
    finite measurements only. *)
Lemma asPayload_toSave_finite s p :
  JSON.asPayload (toSave s) = Some p -> Spec.finiteState s.
Proof.
  unfold toSave, JSON.asPayload, JSON.getOpt.
  match goal with
  | |- context [<["serviceLogs" := ?a]> (<["drafts" := ?b]> (<["currentDraft" := ?c]> ∅))] =>
      destruct (blob_lookup a b c) as (-> & -> & ->)
  end.
  unfold JSON.asArray.
  destruct (mapM JSON.asServiceLog _) as [logs|] eqn:Hl; [|done].
  destruct (mapM JSON.asDraft _) as [ds|] eqn:Hd; [|done].
  destruct (JSON.asNullable _ _) as [cur|] eqn:Hc; [|done]. intros _.
  split; [|split].
  - eapply mapM_fmap_all; [|exact Hl]. apply asServiceLog_ofServiceLog_finite.
  - intros d Hin.
    apply (mapM_fmap_all JSON.asDraft JSON.ofDraft
             (fun x => Spec.finiteFields (Draft.fields x)) _ _
             asDraft_ofDraft_finite Hd (Draft.with_isDirty false d)).
    by apply list_elem_of_fmap_2.
  - intros d Hcur. rewrite Hcur in Hc.
    change (JSON.asNullable JSON.asDraft
              (JSON.ofOption JSON.ofDraft (Draft.with_isDirty false <$> Some d)))
      with (Some <$> JSON.asDraft (JSON.ofDraft (Draft.with_isDirty false d))) in Hc.
    destruct (JSON.asDraft (JSON.ofDraft (Draft.with_isDirty false d))) as [d'|] eqn:Hd';
      [|done].
    by apply asDraft_ofDraft_finite in Hd'.
Qed.

Lemma restore_pointerOK s s0 p :
  Spec.pointerOK s0 -> Spec.restoredFrom s0 p -> Spec.pointerOK (loadFromStorage s p).
Proof.
  intros Hok [ls [Hacc Hp]]. rewrite (load_persist _ _ Hacc) in Hp.
  apply asPayload_toSave_inv in Hp as ->.
  unfold Spec.pointerOK in *. simpl.
  destruct (currentDraft s0) as [c|]; [|done]. simpl.
  by apply list_elem_of_fmap_2.
Qed.
End Persistence.


(** C8, as amended. For an id that no draft of the collection has,
    [updateDraft] and [markDraftSaved] return the state unchanged, and so
    does [deleteDraft] when the id is not that of the current-draft pointer
    either, in particular whenever the pointer is null or names a draft of
    the collection. For an id that no record has, [deleteServiceLog] returns
    the state unchanged when no edit session is open on that id. None of
    them throws. *)
Theorem missing_id_noop {host : JS.Host} (e : Env) (s : RootStateServiceLog)
        (id : string) :
  ((forall d, d ∈ drafts s -> Draft.id d <> id) ->
   (forall u, reducer e s (Action.updateDraft id u) = Normal s)
   /\ (forall stamp, reducer e s (Action.markDraftSaved id stamp) = Normal s)
   /\ (currentDraftHasId s id = false ->
       reducer e s (Action.deleteDraft id) = Normal s)
   /\ (Spec.pointerOK s -> reducer e s (Action.deleteDraft id) = Normal s))
  /\ ((forall l, l ∈ serviceLogs s -> ServiceLog.id l <> id) ->
      editingLogHasId s id = false ->
      reducer e s (Action.deleteServiceLog id) = Normal s).
Proof.
  split.
  - intros Habs. simpl.
    assert (Hfind : list_find (fun d => Draft.id d = id) (drafts s) = None).
    { apply list_find_absent. intros d Hd. by apply Habs. }
    split; [intros u; unfold updateDraft; by rewrite Hfind|].
    split; [intros stamp; unfold markDraftSaved; by rewrite Hfind|].
    split.
    + intros Hcur. by rewrite deleteDraft_noop.
    + intros Hok. rewrite deleteDraft_noop; [done | done |].
      by apply pointerOK_absent.
  - intros Habs Hed. simpl. by rewrite deleteServiceLog_noop.
Qed.

Lemma missing_id_noop_witness :
  (forall d, d ∈ drafts Examples.oneDraft -> Draft.id d <> "draft_9")
  /\ Spec.pointerOK Examples.oneDraft
  /\ reducer (host := Examples.utcHost) Examples.env Examples.oneDraft
       (Action.deleteDraft "draft_9") = Normal Examples.oneDraft.
Proof.
  assert (Habs : forall d, d ∈ drafts Examples.oneDraft -> Draft.id d <> "draft_9").
  { intros d Hd. apply list_elem_of_singleton in Hd. by subst d. }
  assert (Hok : Spec.pointerOK Examples.oneDraft) by (simpl; left).
  split; [exact Habs|]. split; [exact Hok|].
  destruct (missing_id_noop (host := Examples.utcHost) Examples.env
              Examples.oneDraft "draft_9") as [Hdrafts _].
  destruct (Hdrafts Habs) as (_ & _ & _ & Hdelete). by apply Hdelete.
Defined.

(** C8, as stated, fails: in a state whose pointer names a draft that is
    not in the collection, [deleteDraft] on that id, which no draft of the
    collection has, sets the pointer to null. *)
Lemma deleteDraft_dangling_pointer :
  (forall d, d ∈ drafts Examples.dangling -> Draft.id d <> "draft_1")
  /\ reducer (host := Examples.utcHost) Examples.env Examples.dangling
       (Action.deleteDraft "draft_1")
     = Normal (set_currentDraft None Examples.dangling)
  /\ set_currentDraft None Examples.dangling <> Examples.dangling.
Proof.
  split; [intros d Hd; by apply elem_of_nil in Hd|].
  split; [reflexivity | discriminate].
Qed.

(** C5. In every state reachable from the initial state (by the actions of
    the slice that return normally, with [setCurrentDraft] given null or a
    draft of the collection and [loadFromStorage] given the blob persisted
    from a reachable state) the current-draft pointer is null or equal to a
    draft of the collection; and from any state where this holds, every
    action other than those two, [updateDraft], [deleteDraft],
    [clearAllDrafts], [createServiceLog] and [markDraftSaved] among them,
    leads to a state where it holds. *)
Theorem pointer_invariant {host : JS.Host} :
  (forall s, Spec.reachable s -> Spec.pointerOK s)
  /\ (forall e s a s',
        Spec.pointerOK s -> Spec.ordinary a -> reducer e s a = Normal s' ->
        Spec.pointerOK s').
Proof.
  split; [|apply ordinary_pointerOK].
  intros s Hs. induction Hs as [|s e a s' _ IH Hord Hstep|s d _ _ Hd|s s0 p _ _ _ IH0 Hp].
  - exact I.
  - by eapply ordinary_pointerOK.
  - by apply select_pointerOK.
  - by eapply restore_pointerOK.
Qed.

Lemma pointer_invariant_witness :
  Spec.pointerOK Examples.oneDraft
  /\ Spec.ordinary (Action.updateDraft "draft_1" (Draft.set_field (Fields.set_carId "C2")))
  /\ Spec.pointerOK
       (mkState []
          [Draft.mk "draft_1" (Fields.assign (Fields.set_carId "C2") Examples.fields)
                    "2024-01-01T00:00:00.000Z" true]
          (Some (Draft.mk "draft_1" (Fields.assign (Fields.set_carId "C2") Examples.fields)
                          "2024-01-01T00:00:00.000Z" true))
          "" (Filters.mk "" "" None) None saving [] false)
  /\ Spec.reachable (host := Examples.utcHost) (deleteDraft initialState "draft_1")
  /\ Spec.pointerOK (deleteDraft initialState "draft_1").
Proof.
  assert (Hok : Spec.pointerOK Examples.oneDraft) by (simpl; left).
  assert (Hreach : Spec.reachable (host := Examples.utcHost)
                     (deleteDraft initialState "draft_1")).
  { apply (Spec.reach_step initialState Examples.env (Action.deleteDraft "draft_1"));
      [apply Spec.reach_init | exact I | reflexivity]. }
  destruct (pointer_invariant (host := Examples.utcHost)) as [Hall Hstep].
  split; [exact Hok|]. split; [exact I|]. split; [|split; [exact Hreach|]].
  - apply (Hstep Examples.env Examples.oneDraft
             (Action.updateDraft "draft_1" (Draft.set_field (Fields.set_carId "C2"))));
      [exact Hok | exact I | by vm_compute].
  - exact (Hall _ Hreach).
Defined.

(** C6, as amended. When [localStorage] accepts the write,
    [loadFromLocalStorage] after [persistToLocalStorage] returns the blob
    written from the state. If the measurements of the state are all finite,
    that blob reads back as the [serviceLogs] of the state, its [drafts]
    with [isDirty] set to false, and its current draft with [isDirty] set to
    false (or null); every restored draft has [isDirty] false. A NaN or an
    infinite measurement is written as [null], and a blob that reads back at
    the types of the slice was written from finite measurements only. A
    write that [localStorage] refuses is swallowed: the store is left as it
    was, so what is loaded afterwards is what it held before. *)
Theorem persist_restore_roundtrip (s : RootStateServiceLog) (ls : Storage) :
  (Spec.writeAccepted s ls ->
   loadFromLocalStorage (persistToLocalStorage s ls) = toSave s
   /\ (Spec.finiteState s ->
       JSON.asPayload (loadFromLocalStorage (persistToLocalStorage s ls))
       = Some (mkPayload (Some (serviceLogs s))
                         (Some (Draft.with_isDirty false <$> drafts s))
                         (Some (Draft.with_isDirty false <$> currentDraft s))
                         None None None None None None)
       /\ (forall d, d ∈ Draft.with_isDirty false <$> drafts s -> Draft.isDirty d = false)
       /\ (forall d, Draft.with_isDirty false <$> currentDraft s = Some d ->
                     Draft.isDirty d = false))
   /\ (forall p, JSON.asPayload (loadFromLocalStorage (persistToLocalStorage s ls)) = Some p ->
                 Spec.finiteState s))
  /\ (forall n, (forall q, n <> JS.Finite q) -> JSON.ofNumber n = JSON.Null)
  /\ (~ Spec.writeAccepted s ls ->
      persistToLocalStorage s ls = ls
      /\ loadFromLocalStorage (persistToLocalStorage s ls) = loadFromLocalStorage ls).
Proof.
  split; [|split].
  - intros Hacc. rewrite (load_persist _ _ Hacc). split; [done|]. split.
    + intros Hfin. split; [by apply asPayload_toSave|]. split.
      * by intros d [d0 [-> _]]%list_elem_of_fmap.
      * intros d Hd. destruct (currentDraft s); [|done]. by injection Hd as <-.
    + intros p. apply asPayload_toSave_finite.
  - intros n Hn. destruct n as [| |q]; [done | done |]. by destruct (Hn q).
  - intros Hno. by rewrite (persist_refused _ _ Hno).
Qed.

Lemma persist_restore_roundtrip_witness :
  Spec.writeAccepted Examples.oneDraft Examples.emptyStorage
  /\ Spec.finiteState Examples.oneDraft
  /\ JSON.asPayload
       (loadFromLocalStorage (persistToLocalStorage Examples.oneDraft Examples.emptyStorage))
     = Some (mkPayload (Some []) (Some [Examples.draft]) (Some (Some Examples.draft))
                       None None None None None None)
  /\ ~ Spec.writeAccepted Examples.editing Examples.fullStorage
  /\ loadFromLocalStorage (persistToLocalStorage Examples.editing Examples.fullStorage)
     = toSave Examples.oneDraft.
Proof.
  assert (Hacc : Spec.writeAccepted Examples.oneDraft Examples.emptyStorage) by reflexivity.
  assert (Hfin : Spec.finiteState Examples.oneDraft).
  { assert (Hf : Spec.finiteFields Examples.fields) by (split; eexists; reflexivity).
    split; [intros l Hl; by apply elem_of_nil in Hl|].
    split; [intros d Hd; apply list_elem_of_singleton in Hd; by subst d|].
    intros d Hd. by injection Hd as <-. }
  assert (Hno : ~ Spec.writeAccepted Examples.editing Examples.fullStorage)
    by (intros H; discriminate H).
  split; [exact Hacc|]. split; [exact Hfin|]. split; [|split; [exact Hno|]].
  - destruct (persist_restore_roundtrip Examples.oneDraft Examples.emptyStorage)
      as [Hwrite _].
    destruct (Hwrite Hacc) as (_ & Hround & _). destruct (Hround Hfin) as [Heq _].
    exact Heq.
  - destruct (persist_restore_roundtrip Examples.editing Examples.fullStorage)
      as (_ & _ & Hrefused).
    destruct (Hrefused Hno) as [_ Heq]. rewrite Heq. reflexivity.
Defined.

(** C6, as stated, fails in two ways. A draft whose odometer reading is NaN
    is written with [null] in that place, and what is restored is not the
    serialized drafts at the types of the slice. And when [localStorage]
    refuses the write, what is loaded is the blob it held before, not that
    of the state persisted. *)
Lemma persist_restore_NaN :
  (Spec.writeAccepted Examples.nanState Examples.emptyStorage
   /\ JSON.ofNumber (Fields.odometer (Draft.fields Examples.nanDraft)) = JSON.Null
   /\ JSON.asPayload
        (loadFromLocalStorage (persistToLocalStorage Examples.nanState Examples.emptyStorage))
      <> Some (mkPayload (Some (serviceLogs Examples.nanState))
                         (Some (Draft.with_isDirty false <$> drafts Examples.nanState))
                         (Some (Draft.with_isDirty false <$> currentDraft Examples.nanState))
                         None None None None None None))
  /\ (Spec.finiteState Examples.editing
      /\ ~ Spec.writeAccepted Examples.editing Examples.fullStorage
      /\ JSON.asPayload
           (loadFromLocalStorage (persistToLocalStorage Examples.editing Examples.fullStorage))
         <> Some (mkPayload (Some (serviceLogs Examples.editing))
                            (Some (Draft.with_isDirty false <$> drafts Examples.editing))
                            (Some (Draft.with_isDirty false <$> currentDraft Examples.editing))
                            None None None None None None)).
Proof.
  split.
  - split; [reflexivity|]. split; [reflexivity|].
    assert (Hnone : JSON.asPayload
                      (loadFromLocalStorage
                         (persistToLocalStorage Examples.nanState Examples.emptyStorage))
                    = None) by (by vm_compute).
    rewrite Hnone. discriminate.
  - split; [|split; [intros H; discriminate H|]].
    + assert (Hf : Spec.finiteFields Examples.fields) by (split; eexists; reflexivity).
      split; [intros l Hl; apply list_elem_of_singleton in Hl; by subst l|].
      split; [intros d Hd; by apply elem_of_nil in Hd | done].
    + assert (Hold : JSON.asPayload
                       (loadFromLocalStorage
                          (persistToLocalStorage Examples.editing Examples.fullStorage))
                     = Some (mkPayload (Some []) (Some [Examples.draft])
                                       (Some (Some Examples.draft))
                                       None None None None None None)) by (by vm_compute).
      rewrite Hold. discriminate.
Qed.

(** ** The filtered view *)

Section ViewFacts.
Import JSFacts.
Context {host : JS.Host}.

Lemma matchesSearch_spec state log :
  matchesSearch state log = true
  <-> (searchTerm state = EmptyString \/
       exists v, v ∈ Object_values log /\
                 Spec.caseInsensitiveSubstring (searchTerm state) (toString v)).
Proof.
  unfold matchesSearch.
  rewrite orb_true_iff, bool_decide_eq_true, existsb_exists.
  split; (intros [Hempty | (v & Hin & Hv)]; [by left | right; exists v]).
  - by rewrite list_elem_of_In, <- includes_lower.
  - by rewrite <- list_elem_of_In, includes_lower.
Qed.

Lemma matchesDateRange_spec state log :
  matchesDateRange state log = true
  <-> (Filters.startDateFrom (filters state) = EmptyString \/
       (Filters.startDateFrom (filters state)
          ≤ Fields.startDate (ServiceLog.fields log))%string)
      /\ (Filters.startDateTo (filters state) = EmptyString \/
          (Fields.startDate (ServiceLog.fields log)
             ≤ Filters.startDateTo (filters state))%string).
Proof.
  unfold matchesDateRange, JS.str_ge, JS.str_le, String.le.
  by rewrite andb_true_iff, !orb_true_iff, !falsy_empty, !Is_true_true.
Qed.

Lemma matchesType_spec state log :
  matchesType state log = true
  <-> (Filters.type (filters state) = None \/
       Filters.type (filters state) = Some (Fields.type (ServiceLog.fields log))).
Proof.
  unfold matchesType. destruct (Filters.type (filters state)) as [t|].
  - rewrite bool_decide_eq_true. split.
    + intros ->. by right.
    + by intros [? | [= ->]].
  - split; [by left | done].
Qed.

(** The strings the search of the code looks into are the renderings of
    the fields of the Record followed by those of what else the object
    carries. *)
Lemma searched_strings log (P : string -> Prop) :
  (exists v, v ∈ Object_values log /\ P (toString v))
  <-> (exists r, r ∈ Spec.recordFieldStrings log ++ Spec.carriedStrings log /\ P r).
Proof.
  assert (Heq : toString <$> Object_values log
                = Spec.recordFieldStrings log ++ Spec.carriedStrings log).
  { unfold Object_values, Spec.recordFieldStrings, Spec.carriedStrings.
    by destruct (ServiceLog.lastSaved log), (ServiceLog.isDirty log) as [[|]|],
         (Fields.type (ServiceLog.fields log)). }
  rewrite <- Heq. split.
  - intros (v & Hin & Hv). exists (toString v). split; [by apply list_elem_of_fmap_2 | done].
  - intros (r & Hin & Hr). apply list_elem_of_fmap in Hin as (v & -> & Hin). by exists v.
Qed.

Lemma filter_sublist {A} (f : A -> bool) (l : list A) : List.filter f l `sublist_of` l.
Proof.
  induction l as [|x l IH]; simpl; [done|].
  destruct (f x); [by apply sublist_skip | by apply sublist_cons].
Qed.
End ViewFacts.


(** C7, as amended. A record is in the filtered view exactly when it is
    in the record collection and passes: the search term is empty or is a
    case-insensitive substring of the string rendering of one of the values
    the record object carries (the fields of the Record: the id, the nine
    shared fields and [createdAt]; and [lastSaved] and [isDirty] when the
    object has them); the start date is at or after [startDateFrom] when
    that is not empty, and at or before [startDateTo] when that is not
    empty, in the order of strings; and the type filter is empty or is the
    type of the record. For a record object that has the fields of a Record
    and no other, the search ranges over the fields of the Record, as the
    specification says. The view is a sublist of the collection: the records
    themselves, in their order, and the state is not touched. *)
Theorem filteredLogs_characterization {host : JS.Host} (state : RootStateServiceLog) :
  (forall log, log ∈ filteredLogs state <->
               log ∈ serviceLogs state /\ Spec.passesOwn state log)
  /\ (forall log, Spec.plainRecord log ->
                  (log ∈ filteredLogs state <->
                   log ∈ serviceLogs state /\ Spec.passes state log))
  /\ filteredLogs state `sublist_of` serviceLogs state.
Proof.
  assert (Hown : forall log, log ∈ filteredLogs state <->
                             log ∈ serviceLogs state /\ Spec.passesOwn state log).
  { intros log. unfold filteredLogs, Spec.passesOwn, Spec.passesOver.
    rewrite list_elem_of_In, filter_In, <- list_elem_of_In.
    rewrite !andb_true_iff, matchesSearch_spec, matchesDateRange_spec, matchesType_spec.
    rewrite (searched_strings log). tauto. }
  split; [exact Hown|]. split; [|apply filter_sublist].
  intros log [Hstamp Hdirty]. rewrite Hown.
  unfold Spec.passesOwn, Spec.passes, Spec.carriedStrings.
  by rewrite Hstamp, Hdirty, app_nil_r.
Qed.

Lemma filteredLogs_characterization_witness :
  Spec.plainRecord (Examples.logOn "log_5" "2024-01-05" planned)
  /\ Examples.logOn "log_5" "2024-01-05" planned
     ∈ filteredLogs (host := Examples.utcHost) Examples.mixed
  /\ Spec.passes (host := Examples.utcHost) Examples.mixed
       (Examples.logOn "log_5" "2024-01-05" planned)
  /\ ~ Spec.passes (host := Examples.utcHost) Examples.mixed
         (Examples.logOn "log_4" "2024-01-04" emergency).
Proof.
  assert (Hplain : forall id date t, Spec.plainRecord (Examples.logOn id date t))
    by (by split).
  assert (Hin : Examples.logOn "log_5" "2024-01-05" planned
                ∈ filteredLogs (host := Examples.utcHost) Examples.mixed).
  { assert (Hview : filteredLogs (host := Examples.utcHost) Examples.mixed
                    = [ Examples.logOn "log_5" "2024-01-05" planned;
                        Examples.logOn "log_9" "2024-01-09" planned ]) by (by vm_compute).
    rewrite Hview. apply list_elem_of_here. }
  destruct (filteredLogs_characterization (host := Examples.utcHost) Examples.mixed)
    as (_ & Hrecord & _).
  split; [apply Hplain|]. split; [exact Hin|]. split.
  - exact (proj2 (proj1 (Hrecord _ (Hplain _ _ _)) Hin)).
  - intros Hpass.
    assert (Hlog : Examples.logOn "log_4" "2024-01-04" emergency
                   ∈ serviceLogs Examples.mixed)
      by (apply list_elem_of_further, list_elem_of_here).
    pose proof (proj2 (Hrecord _ (Hplain _ _ _)) (conj Hlog Hpass)) as Hview.
    assert (Hlist : filteredLogs (host := Examples.utcHost) Examples.mixed
                    = [ Examples.logOn "log_5" "2024-01-05" planned;
                        Examples.logOn "log_9" "2024-01-09" planned ]) by (by vm_compute).
    rewrite Hlist in Hview.
    repeat (apply elem_of_cons in Hview as [Heq | Hview]; [discriminate Heq|]).
    by apply elem_of_nil in Hview.
Defined.

(** C7, as stated, fails: a record promoted from a draft carries the
    [isDirty] of the draft, so the search term "FALSE" shows it although the
    rendering of none of the fields of the Record contains it. *)
Lemma filteredLogs_matches_isDirty :
  exists s log,
    createServiceLog (host := Examples.utcHost) Examples.env Examples.oneDraft = Normal s
    /\ log ∈ serviceLogs s
    /\ log ∈ filteredLogs (host := Examples.utcHost) (setSearchTerm s "FALSE")
    /\ ~ Spec.passes (host := Examples.utcHost) (setSearchTerm s "FALSE") log.
Proof.
  eexists _, _. split; [by vm_compute|].
  split; [apply list_elem_of_here|]. split.
  - match goal with
    | |- ?l ∈ filteredLogs ?st =>
        assert (Hview : filteredLogs (host := Examples.utcHost) st = [l])
          by (by vm_compute)
    end.
    rewrite Hview. apply list_elem_of_here.
  - intros [[Hempty | (r & Hin & Hsub)] _]; [discriminate Hempty|].
    apply (proj2 (JSFacts.includes_lower _ _)) in Hsub.
    unfold Spec.recordFieldStrings in Hin. simpl in Hin.
    repeat (apply elem_of_cons in Hin as [-> | Hin]; [by vm_compute in Hsub|]).
    by apply elem_of_nil in Hin.
Qed.

(** ** The start date and the end date *)

Section AutoAdvance.
Context {host : JS.Host}.

Lemma isCalendarDate_truthy value y m d :
  Spec.isCalendarDate value y m d -> JS.falsy value = false.
Proof. intros [Hp _]. by destruct value. Qed.

Lemma updateDraft_startDate s id i d0 value y m d :
  list_find (fun x => Draft.id x = id) (drafts s) = Some (i, d0) ->
  Spec.isCalendarDate value y m d -> Spec.offsetDoesNotGrow y m d ->
  exists s' d',
    updateDraft s id (Draft.set_field (Fields.set_startDate value)) = Normal s'
    /\ drafts s' !! i = Some d'
    /\ Fields.startDate (Draft.fields d') = value
    /\ Fields.endDate (Draft.fields d') = Spec.dateString (Spec.nextDay y m d).
Proof.
  intros Hfind Hdate Hoff. unfold updateDraft. rewrite Hfind.
  unfold Draft.truthyStartDate, Fields.truthyStartDate.
  rewrite (isCalendarDate_truthy _ _ _ _ Hdate).
  rewrite (nextDayString_calendar _ _ _ _ Hdate Hoff). simpl.
  eexists _, _. split; [reflexivity|].
  apply list_find_Some in Hfind as (Hi & _ & _).
  split.
  - destruct (currentDraftHasId s id); simpl;
      (apply list_lookup_insert_eq; by eapply lookup_lt_Some).
  - done.
Qed.

Lemma updateDraft_other s id i d0 u :
  list_find (fun x => Draft.id x = id) (drafts s) = Some (i, d0) ->
  Draft.truthyStartDate u = None ->
  exists s' d',
    updateDraft s id u = Normal s'
    /\ drafts s' !! i = Some d'
    /\ Fields.endDate (Draft.fields d')
       = Spec.draftEndDateAsGiven u (Fields.endDate (Draft.fields d0)).
Proof.
  intros Hfind Hu. unfold updateDraft. rewrite Hfind, Hu. simpl.
  eexists _, _. split; [reflexivity|].
  apply list_find_Some in Hfind as (Hi & _ & _).
  split.
  - destruct (currentDraftHasId s id); simpl;
      (apply list_lookup_insert_eq; by eapply lookup_lt_Some).
  - destruct u as [| | |[]]; done.
Qed.

Lemma updateEditingLogField_startDate s l value y m d :
  editingLog s = Some l ->
  Spec.isCalendarDate value y m d -> Spec.offsetDoesNotGrow y m d ->
  exists s' l',
    updateEditingLogField s (ServiceLog.set_field (Fields.set_startDate value)) = Normal s'
    /\ editingLog s' = Some l'
    /\ Fields.startDate (ServiceLog.fields l') = value
    /\ Fields.endDate (ServiceLog.fields l') = Spec.dateString (Spec.nextDay y m d).
Proof.
  intros Hed Hdate Hoff. unfold updateEditingLogField. rewrite Hed.
  unfold ServiceLog.truthyStartDate, Fields.truthyStartDate.
  rewrite (isCalendarDate_truthy _ _ _ _ Hdate).
  rewrite (nextDayString_calendar _ _ _ _ Hdate Hoff). simpl.
  by eexists _, _.
Qed.

Lemma updateEditingLogField_other s l u :
  editingLog s = Some l ->
  ServiceLog.truthyStartDate u = None ->
  exists s' l',
    updateEditingLogField s u = Normal s'
    /\ editingLog s' = Some l'
    /\ Fields.endDate (ServiceLog.fields l')
       = Spec.logEndDateAsGiven u (Fields.endDate (ServiceLog.fields l)).
Proof.
  intros Hed Hu. unfold updateEditingLogField. rewrite Hed, Hu. simpl.
  eexists _, _. split; [reflexivity|]. split; [reflexivity|].
  destruct u as [| |[]]; done.
Qed.
End AutoAdvance.


(** C4, as amended. For the draft that [updateDraft] addresses (the first
    of the collection with the given id) and for the working copy of the
    open edit session: setting [startDate] to the date-only ISO string of a
    calendar day, on a host whose local offset from UTC does not grow
    between UTC midnight of that day and one local day later, returns
    normally with that start date and with the end date set to the ISO
    string of the next calendar day, whatever the end date was; setting
    [startDate] to the empty string, or setting any other key, returns
    normally with the end date as given: the value written when the key is
    [endDate], the previous end date otherwise. *)
Theorem startDate_auto_advance {host : JS.Host} :
  (forall s id i d0,
      list_find (fun x => Draft.id x = id) (drafts s) = Some (i, d0) ->
      (forall value y m d,
          Spec.isCalendarDate value y m d -> Spec.offsetDoesNotGrow y m d ->
          exists s' d',
            updateDraft s id (Draft.set_field (Fields.set_startDate value)) = Normal s'
            /\ drafts s' !! i = Some d'
            /\ Fields.startDate (Draft.fields d') = value
            /\ Fields.endDate (Draft.fields d') = Spec.dateString (Spec.nextDay y m d))
      /\ (forall u,
             Draft.truthyStartDate u = None ->
             exists s' d',
               updateDraft s id u = Normal s'
               /\ drafts s' !! i = Some d'
               /\ Fields.endDate (Draft.fields d')
                  = Spec.draftEndDateAsGiven u (Fields.endDate (Draft.fields d0))))
  /\ (forall s l,
         editingLog s = Some l ->
         (forall value y m d,
             Spec.isCalendarDate value y m d -> Spec.offsetDoesNotGrow y m d ->
             exists s' l',
               updateEditingLogField s (ServiceLog.set_field (Fields.set_startDate value))
               = Normal s'
               /\ editingLog s' = Some l'
               /\ Fields.startDate (ServiceLog.fields l') = value
               /\ Fields.endDate (ServiceLog.fields l')
                  = Spec.dateString (Spec.nextDay y m d))
         /\ (forall u,
                ServiceLog.truthyStartDate u = None ->
                exists s' l',
                  updateEditingLogField s u = Normal s'
                  /\ editingLog s' = Some l'
                  /\ Fields.endDate (ServiceLog.fields l')
                     = Spec.logEndDateAsGiven u (Fields.endDate (ServiceLog.fields l)))).
Proof.
  split.
  - intros s id i d0 Hfind. split.
    + intros value y m d. by apply (updateDraft_startDate s id i d0).
    + intros u. by apply (updateDraft_other s id i d0).
  - intros s l Hed. split.
    + intros value y m d. by apply (updateEditingLogField_startDate s l).
    + intros u. by apply (updateEditingLogField_other s l).
Qed.

Lemma startDate_auto_advance_witness :
  list_find (fun x => Draft.id x = "draft_1") (drafts Examples.oneDraft)
  = Some (0%nat, Examples.draft)
  /\ Spec.isCalendarDate "2024-02-28" 2024 2 28
  /\ Spec.offsetDoesNotGrow (host := Examples.utcHost) 2024 2 28
  /\ Spec.dateString (Spec.nextDay 2024 2 28) = "2024-02-29"
  /\ exists s' d',
       updateDraft (host := Examples.utcHost) Examples.oneDraft "draft_1"
                   (Draft.set_field (Fields.set_startDate "2024-02-28")) = Normal s'
       /\ drafts s' !! 0%nat = Some d'
       /\ Fields.startDate (Draft.fields d') = "2024-02-28"
       /\ Fields.endDate (Draft.fields d') = Spec.dateString (Spec.nextDay 2024 2 28).
Proof.
  assert (Hfind : list_find (fun x => Draft.id x = "draft_1") (drafts Examples.oneDraft)
                  = Some (0%nat, Examples.draft)) by reflexivity.
  assert (Hdate : Spec.isCalendarDate "2024-02-28" 2024 2 28) by (split; reflexivity).
  assert (Hoff : Spec.offsetDoesNotGrow (host := Examples.utcHost) 2024 2 28)
    by (by vm_compute).
  split; [exact Hfind|]. split; [exact Hdate|]. split; [exact Hoff|].
  split; [reflexivity|].
  destruct (startDate_auto_advance (host := Examples.utcHost)) as [Hdraft _].
  destruct (Hdraft Examples.oneDraft "draft_1" 0%nat Examples.draft Hfind) as [Hset _].
  exact (Hset "2024-02-28" 2024 2 28 Hdate Hoff).
Defined.

(** C4, as stated, fails: setting [startDate] to the empty string (what a
    cleared date input sends) does not recompute the end date; the draft
    keeps the end date it had. *)
Lemma updateDraft_empty_startDate :
  updateDraft (host := Examples.utcHost) Examples.oneDraft "draft_1"
              (Draft.set_field (Fields.set_startDate ""))
  = Normal
      (mkState []
         [Draft.mk "draft_1"
                   (Fields.mk "P1" "S1" "C1" (JS.ofZ 100) (JS.ofZ 5)
                              "" "2024-01-05" planned "oil change")
                   "2024-01-01T00:00:00.000Z" true]
         (Some (Draft.mk "draft_1"
                   (Fields.mk "P1" "S1" "C1" (JS.ofZ 100) (JS.ofZ 5)
                              "" "2024-01-05" planned "oil change")
                   "2024-01-01T00:00:00.000Z" true))
         "" (Filters.mk "" "" None) None saving [] false).
Proof. reflexivity. Qed.

(** What the theorem above leaves out: on a host whose offset grows in
    between (here at the start of daylight saving time) the end date
    computed for 2024-03-31 is 2024-03-31 itself. *)
Example updateDraft_when_offset_grows :
  updateDraft (host := Examples.springHost) Examples.oneDraft "draft_1"
              (Draft.set_field (Fields.set_startDate "2024-03-31"))
  = Normal
      (mkState []
         [Draft.mk "draft_1"
                   (Fields.mk "P1" "S1" "C1" (JS.ofZ 100) (JS.ofZ 5)
                              "2024-03-31" "2024-03-31" planned "oil change")
                   "2024-01-01T00:00:00.000Z" true]
         (Some (Draft.mk "draft_1"
                   (Fields.mk "P1" "S1" "C1" (JS.ofZ 100) (JS.ofZ 5)
                              "2024-03-31" "2024-03-31" planned "oil change")
                   "2024-01-01T00:00:00.000Z" true))
         "" (Filters.mk "" "" None) None saving [] false).
Proof. by vm_compute. Qed.

(** A string that is not a date makes the reducer throw: [toISOString] on
    an invalid date raises a RangeError. *)
Example updateDraft_invalid_startDate :
  updateDraft (host := Examples.utcHost) Examples.oneDraft "draft_1"
              (Draft.set_field (Fields.set_startDate "soon"))
  = ThrowRangeError.
Proof. reflexivity. Qed.

(** ** The scenarios of the specification, run on the embedding *)

(** Create a draft, fill it in, commit: one record, no draft, no pointer. *)
Example scenario_promote :
  exists s,
    dispatchAll (host := Examples.utcHost) Examples.env initialState
      [ Action.createDraft;
        Action.updateDraft Examples.newDraftId (Draft.set_field (Fields.set_providerId "P1"));
        Action.updateDraft Examples.newDraftId (Draft.set_field (Fields.set_serviceOrder "S1"));
        Action.updateDraft Examples.newDraftId (Draft.set_field (Fields.set_carId "C1"));
        Action.updateDraft Examples.newDraftId (Draft.set_field (Fields.set_odometer (JS.ofZ 100)));
        Action.updateDraft Examples.newDraftId (Draft.set_field (Fields.set_engineHours (JS.ofZ 5)));
        Action.updateDraft Examples.newDraftId
                           (Draft.set_field (Fields.set_serviceDescription "oil change"));
        Action.createServiceLog ]
    = Normal s
    /\ length (serviceLogs s) = 1%nat /\ drafts s = [] /\ currentDraft s = None.
Proof. eexists. split; [by vm_compute | done]. Qed.

(** Open an edit session, set the odometer to -5, commit: rejected with the
    odometer message, the records unchanged, the session still open. *)
Example scenario_edit_rejected :
  exists s,
    dispatchAll (host := Examples.utcHost) Examples.env Examples.editing
      [ Action.updateEditingLogField
          (ServiceLog.set_field (Fields.set_odometer (JS.ofZ (-5))));
        Action.saveEditingLog ]
    = Normal s
    /\ validationErrors s = ["Valid odometer reading is required"]
    /\ serviceLogs s = serviceLogs Examples.editing
    /\ is_Some (editingLog s).
Proof. eexists. split; [by vm_compute | done]. Qed.

(** Records of mixed dates and types under the filter
    [{startDateFrom: 2024-01-05, type: planned}]: the planned records
    dated on or after 2024-01-05. *)
Example scenario_filter :
  filteredLogs (host := Examples.utcHost) Examples.mixed
  = [ Examples.logOn "log_5" "2024-01-05" planned;
      Examples.logOn "log_9" "2024-01-09" planned ].
Proof. by vm_compute. Qed.

(** A record promoted from a draft carries the draft's [isDirty]; its
    rendering is among the values the search term is matched against. *)
Example scenario_search_isDirty :
  exists s,
    createServiceLog (host := Examples.utcHost) Examples.env Examples.oneDraft = Normal s
    /\ length (filteredLogs (host := Examples.utcHost) (setSearchTerm s "FALSE")) = 1%nat
    /\ filteredLogs (host := Examples.utcHost) (setSearchTerm s "brake") = [].
Proof. eexists. split; [by vm_compute | done]. Qed.
(** * Further properties of the slice *)

Import JSFacts.

(** ** The calendar date of a time value *)

Lemma DayWithinYear_range t :
  0 <= JS.DayWithinYear t < 365 + JS.InLeapYear t.
Proof.
  unfold JS.DayWithinYear, JS.InLeapYear, JS.YearFromTime.
  pose proof (YearFromDay_spec (JS.Day t)) as H.
  rewrite DayFromYear_succ, DaysInYear_leapDays in H. lia.
Qed.

Lemma monthOfDay_bounds d leap :
  0 <= d < 365 + leap -> (leap = 0 \/ leap = 1) ->
  JS.monthStart (JS.monthOfDay d leap) leap <= d
  < JS.monthStart (JS.monthOfDay d leap + 1) leap.
Proof.
  intros Hd Hl. unfold JS.monthOfDay.
  repeat match goal with |- context [?a <? ?b] => destruct (Z.ltb_spec a b) end;
    simpl; destruct Hl; subst leap; lia.
Qed.

Lemma validDate_of_day dw leap m :
  0 <= m <= 11 ->
  JS.monthStart m leap <= dw < JS.monthStart (m + 1) leap ->
  (1 <=? m + 1) && (m + 1 <=? 12) && (1 <=? dw - JS.monthStart m leap + 1)
  && (dw - JS.monthStart m leap + 1
      <=? JS.monthStart (m + 1) leap - JS.monthStart (m + 1 - 1) leap) = true.
Proof.
  intros Hm Hb.
  replace (m + 1 - 1) with m by lia.
  repeat (apply andb_true_iff; split); apply Z.leb_le; lia.
Qed.

Lemma civilDate_valid t :
  let '(y, m, d) := civilDate t in JS.validDate y m d = true.
Proof.
  pose proof (DayWithinYear_range t) as Hr.
  pose proof (leapDays_range (JS.YearFromTime t)) as Hl.
  exact (validDate_of_day _ _ _
           (monthOfDay_range (JS.DayWithinYear t) (JS.InLeapYear t))
           (monthOfDay_bounds _ _ Hr Hl)).
Qed.

Lemma MakeDay_shift y m d k : JS.MakeDay y m (d + k) = JS.MakeDay y m d + k.
Proof. unfold JS.MakeDay. cbv zeta. lia. Qed.

Lemma MakeDay_civilDate t :
  let '(y, m, d) := civilDate t in JS.MakeDay y (m - 1) d = JS.Day t.
Proof.
  unfold civilDate. pose proof (MakeDay_next t) as H.
  replace (JS.MonthFromTime t + 1 - 1) with (JS.MonthFromTime t) by lia.
  rewrite MakeDay_shift in H. lia.
Qed.

Lemma Day_plus_day t : JS.Day (t + JS.msPerDay) = JS.Day t + 1.
Proof. unfold JS.Day, JS.msPerDay. Z.div_mod_to_equations. lia. Qed.

Lemma isoDateString_next t :
  JS.isoDateString (t + JS.msPerDay)
  = let '(y, m, d) := civilDate t in Spec.dateString (Spec.nextDay y m d).
Proof.
  pose proof (civilDate_valid t) as Hv. pose proof (MakeDay_civilDate t) as Hm.
  destruct (civilDate t) as [[y m] d].
  pose proof (nextDay_MakeDay y m d Hv) as Hn.
  destruct (Spec.nextDay y m d) as [[y' m'] d']. destruct Hn as [Hv' Hn].
  rewrite <- (isoDateString_civil _ _ _ Hv').
  apply isoDateString_Day. rewrite Day_plus_day.
  rewrite Day_MakeDate by (unfold JS.msPerDay; lia). lia.
Qed.

(** ** Date strings: printing, parsing and order *)

Section DateStrings.
Context {host : JS.Host}.

Lemma digitVal_digitChar k : 0 <= k < 10 -> JS.digitVal (JS.digitChar k) = Some k.
Proof.
  intros Hk.
  assert (Hc : k = 0 \/ k = 1 \/ k = 2 \/ k = 3 \/ k = 4 \/ k = 5 \/ k = 6
               \/ k = 7 \/ k = 8 \/ k = 9) by lia.
  repeat (destruct Hc as [-> | Hc]); try subst k; reflexivity.
Qed.

Lemma pad2 n :
  JS.pad 2 n = String (JS.digitChar ((n / 10) mod 10)) (String (JS.digitChar (n mod 10)) "").
Proof. reflexivity. Qed.

Lemma pad4 n :
  JS.pad 4 n
  = String (JS.digitChar ((((n / 10) / 10) / 10) mod 10))
      (String (JS.digitChar (((n / 10) / 10) mod 10))
         (String (JS.digitChar ((n / 10) mod 10)) (String (JS.digitChar (n mod 10)) ""))).
Proof. reflexivity. Qed.

Lemma parseDateOnly_dateString y m d :
  0 <= y <= 9999 -> 0 <= m <= 99 -> 0 <= d <= 99 ->
  JS.parseDateOnly (Spec.dateString (y, m, d)) = Some (y, m, d).
Proof.
  intros Hy Hm Hd. unfold Spec.dateString, JS.yearString.
  replace ((0 <=? y) && (y <=? 9999)) with true
    by (symmetry; apply andb_true_iff; split; apply Z.leb_le; lia).
  rewrite pad4, !pad2.
  assert (Hdig : forall n, 0 <= n mod 10 < 10) by (intros; apply Z.mod_pos_bound; lia).
  pose proof (digitVal_digitChar _ (Hdig (((y / 10) / 10) / 10))) as H1.
  pose proof (digitVal_digitChar _ (Hdig ((y / 10) / 10))) as H2.
  pose proof (digitVal_digitChar _ (Hdig (y / 10))) as H3.
  pose proof (digitVal_digitChar _ (Hdig y)) as H4.
  pose proof (digitVal_digitChar _ (Hdig (m / 10))) as H5.
  pose proof (digitVal_digitChar _ (Hdig m)) as H6.
  pose proof (digitVal_digitChar _ (Hdig (d / 10))) as H7.
  pose proof (digitVal_digitChar _ (Hdig d)) as H8.
  revert H1 H2 H3 H4 H5 H6 H7 H8.
  generalize (JS.digitChar ((((y / 10) / 10) / 10) mod 10)),
    (JS.digitChar (((y / 10) / 10) mod 10)), (JS.digitChar ((y / 10) mod 10)),
    (JS.digitChar (y mod 10)), (JS.digitChar ((m / 10) mod 10)),
    (JS.digitChar (m mod 10)), (JS.digitChar ((d / 10) mod 10)),
    (JS.digitChar (d mod 10)).
  intros c1 c2 c3 c4 c5 c6 c7 c8 H1 H2 H3 H4 H5 H6 H7 H8.
  rewrite !app_cons, !app_empty. unfold JS.parseDateOnly.
  rewrite H1, H2, H3, H4, H5, H6, H7, H8. f_equal. f_equal; [f_equal|].
  all: Z.div_mod_to_equations; lia.
Qed.

Lemma monthStart_mono a b l :
  0 <= a <= b -> b <= 12 -> (l = 0 \/ l = 1) -> JS.monthStart a l <= JS.monthStart b l.
Proof.
  intros Ha Hb Hl.
  assert (Hca : a = 0 \/ a = 1 \/ a = 2 \/ a = 3 \/ a = 4 \/ a = 5 \/ a = 6 \/ a = 7
                \/ a = 8 \/ a = 9 \/ a = 10 \/ a = 11 \/ a = 12) by lia.
  assert (Hcb : b = 0 \/ b = 1 \/ b = 2 \/ b = 3 \/ b = 4 \/ b = 5 \/ b = 6 \/ b = 7
                \/ b = 8 \/ b = 9 \/ b = 10 \/ b = 11 \/ b = 12) by lia.
  repeat (destruct Hca as [-> | Hca]); try subst a;
    repeat (destruct Hcb as [-> | Hcb]); try subst b;
    try lia; destruct Hl; subst l; simpl; lia.
Qed.

Lemma MakeDay_lt y m d y' m' d' :
  JS.validDate y m d = true -> JS.validDate y' m' d' = true ->
  (y < y' \/ (y = y' /\ (m < m' \/ (m = m' /\ d < d')))) ->
  JS.MakeDay y (m - 1) d < JS.MakeDay y' (m' - 1) d'.
Proof.
  intros Hv Hv' Hlex.
  apply validDate_inv in Hv as [Hm Hd]. apply validDate_inv in Hv' as [Hm' Hd'].
  rewrite !MakeDay_inrange by lia. unfold JS.DaysInMonth in *.
  pose proof (leapDays_range y) as Hl. pose proof (leapDays_range y') as Hl'.
  pose proof (monthStart_mono 0 (m - 1) _ ltac:(lia) ltac:(lia) Hl) as H0.
  pose proof (monthStart_mono m 12 _ ltac:(lia) ltac:(lia) Hl) as H12.
  pose proof (monthStart_mono 0 (m' - 1) _ ltac:(lia) ltac:(lia) Hl') as H0'.
  change (JS.monthStart 0 _) with 0 in H0, H0'.
  assert (H365 : forall l, JS.monthStart 12 l = 365 + l) by reflexivity.
  rewrite H365 in H12.
  destruct Hlex as [Hy | [-> Hlex]].
  - pose proof (DayFromYear_mono (y + 1) y' ltac:(lia)) as Hmono.
    rewrite DayFromYear_succ, DaysInYear_leapDays in Hmono. lia.
  - destruct Hlex as [Hmm | [-> Hdd]]; [|lia].
    pose proof (monthStart_mono m (m' - 1) _ ltac:(lia) ltac:(lia) Hl). lia.
Qed.

Lemma MakeDay_le_iff y m d y' m' d' :
  JS.validDate y m d = true -> JS.validDate y' m' d' = true ->
  JS.MakeDay y (m - 1) d <= JS.MakeDay y' (m' - 1) d'
  <-> (y < y' \/ (y = y' /\ (m < m' \/ (m = m' /\ d <= d')))).
Proof.
  intros Hv Hv'. split.
  - intros Hle.
    destruct (Z.lt_trichotomy y y') as [? | [-> | Hy]]; [tauto| |].
    + destruct (Z.lt_trichotomy m m') as [? | [-> | Hm]]; [tauto| |].
      * destruct (Z_le_gt_dec d d'); [tauto|].
        pose proof (MakeDay_lt y' m' d' y' m' d Hv' Hv). lia.
      * pose proof (MakeDay_lt y' m' d' y' m d Hv' Hv). lia.
    + pose proof (MakeDay_lt y' m' d' y m d Hv' Hv). lia.
  - intros Hlex.
    destruct (decide (y = y' /\ m = m' /\ d = d')) as [(-> & -> & ->) | Hne]; [lia|].
    pose proof (MakeDay_lt y m d y' m' d' Hv Hv'). lia.
Qed.

Lemma digit_compare c c' a a' :
  JS.digitVal c = Some a -> JS.digitVal c' = Some a' ->
  Ascii.compare c c' = (a ?= a').
Proof.
  unfold JS.digitVal, Ascii.compare.
  destruct (_ && _); [|done]. destruct (_ && _); [|done].
  intros [= <-] [= <-].
  destruct (N.compare_spec (N_of_ascii c) (N_of_ascii c')),
    (Z.compare_spec (Z.of_N (N_of_ascii c) - 48) (Z.of_N (N_of_ascii c') - 48));
    try reflexivity; lia.
Qed.

Lemma parseDateOnly_inv v y m d :
  JS.parseDateOnly v = Some (y, m, d) ->
  exists c1 c2 c3 c4 c5 c6 c7 c8 a1 a2 a3 a4 a5 a6 a7 a8,
    v = String c1 (String c2 (String c3 (String c4 (String "-"
          (String c5 (String c6 (String "-" (String c7 (String c8 "")))))))))
    /\ JS.digitVal c1 = Some a1 /\ JS.digitVal c2 = Some a2
    /\ JS.digitVal c3 = Some a3 /\ JS.digitVal c4 = Some a4
    /\ JS.digitVal c5 = Some a5 /\ JS.digitVal c6 = Some a6
    /\ JS.digitVal c7 = Some a7 /\ JS.digitVal c8 = Some a8
    /\ y = 1000 * a1 + 100 * a2 + 10 * a3 + a4
    /\ m = 10 * a5 + a6 /\ d = 10 * a7 + a8.
Proof.
  unfold JS.parseDateOnly. intros H.
  repeat match type of H with
         | context [match ?x with _ => _ end] => destruct x eqn:?; try discriminate H
         end.
  injection H as <- <- <-. subst.
  repeat eexists; eassumption.
Qed.

Lemma compare_cons c c' s s' :
  String.compare (String c s) (String c' s')
  = match Ascii.compare c c' with Eq => String.compare s s' | ne => ne end.
Proof. reflexivity. Qed.

Lemma date_strings_ordered a b y m d y' m' d' :
  Spec.isCalendarDate a y m d -> Spec.isCalendarDate b y' m' d' ->
  String.leb a b = true
  <-> JS.MakeDay y (m - 1) d <= JS.MakeDay y' (m' - 1) d'.
Proof.
  intros [Hpa Hva] [Hpb Hvb]. rewrite (MakeDay_le_iff _ _ _ _ _ _ Hva Hvb).
  apply parseDateOnly_inv in Hpa
    as (c1 & c2 & c3 & c4 & c5 & c6 & c7 & c8 & a1 & a2 & a3 & a4 & a5 & a6 & a7 & a8
        & -> & H1 & H2 & H3 & H4 & H5 & H6 & H7 & H8 & -> & -> & ->).
  apply parseDateOnly_inv in Hpb
    as (e1 & e2 & e3 & e4 & e5 & e6 & e7 & e8 & b1 & b2 & b3 & b4 & b5 & b6 & b7 & b8
        & -> & G1 & G2 & G3 & G4 & G5 & G6 & G7 & G8 & -> & -> & ->).
  unfold String.leb. rewrite !compare_cons.
  rewrite (digit_compare _ _ _ _ H1 G1), (digit_compare _ _ _ _ H2 G2),
    (digit_compare _ _ _ _ H3 G3), (digit_compare _ _ _ _ H4 G4),
    (digit_compare _ _ _ _ H5 G5), (digit_compare _ _ _ _ H6 G6),
    (digit_compare _ _ _ _ H7 G7), (digit_compare _ _ _ _ H8 G8).
  change (Ascii.compare "-" "-") with Eq. change (String.compare "" "") with Eq.
  apply digitVal_range in H1, H2, H3, H4, H5, H6, H7, H8, G1, G2, G3, G4, G5, G6, G7, G8.
  destruct (Z.compare_spec a1 b1); [|split; [lia|done]|split; [done|lia]].
  destruct (Z.compare_spec a2 b2); [|split; [lia|done]|split; [done|lia]].
  destruct (Z.compare_spec a3 b3); [|split; [lia|done]|split; [done|lia]].
  destruct (Z.compare_spec a4 b4); [|split; [lia|done]|split; [done|lia]].
  destruct (Z.compare_spec a5 b5); [|split; [lia|done]|split; [done|lia]].
  destruct (Z.compare_spec a6 b6); [|split; [lia|done]|split; [done|lia]].
  destruct (Z.compare_spec a7 b7); [|split; [lia|done]|split; [done|lia]].
  destruct (Z.compare_spec a8 b8); [|split; [lia|done]|split; [done|lia]].
  split; [lia|done].
Qed.

Lemma Date_parse_calendar a y m d :
  Spec.isCalendarDate a y m d ->
  JS.Date_parse a = Some (JS.MakeDate (JS.MakeDay y (m - 1) d) 0).
Proof. intros [Hp Hv]. unfold JS.Date_parse. by rewrite Hp, Hv. Qed.

Lemma nextDay_isCalendarDate y m d :
  0 <= y < 9999 -> JS.validDate y m d = true ->
  let '(y', m', d') := Spec.nextDay y m d in
  Spec.isCalendarDate (Spec.dateString (y', m', d')) y' m' d'
  /\ JS.MakeDay y' (m' - 1) d' = JS.MakeDay y (m - 1) d + 1.
Proof.
  intros Hy Hv. pose proof (nextDay_MakeDay y m d Hv) as Hn.
  assert (Hyr : let '(y', _, _) := Spec.nextDay y m d in 0 <= y' <= 9999).
  { unfold Spec.nextDay. destruct (_ <? _); [lia|]. destruct (_ <? _); lia. }
  destruct (Spec.nextDay y m d) as [[y' m'] d']. destruct Hn as [Hv' Hn].
  split; [|done]. split; [|done].
  pose proof (validDate_inv _ _ _ Hv') as [Hm Hd].
  apply parseDateOnly_dateString; [done | lia |].
  assert (JS.DaysInMonth y' m' <= 31); [|lia].
  unfold JS.DaysInMonth. pose proof (leapDays_range y') as Hl.
  assert (Hc : m' = 1 \/ m' = 2 \/ m' = 3 \/ m' = 4 \/ m' = 5 \/ m' = 6 \/ m' = 7
               \/ m' = 8 \/ m' = 9 \/ m' = 10 \/ m' = 11 \/ m' = 12) by lia.
  repeat (destruct Hc as [-> | Hc]); try subst m'; simpl; lia.
Qed.

End DateStrings.

(** ** New drafts *)

Section CreateDraft.
Context {host : JS.Host}.

Lemma setDate_next_day t :
  steadyOffsetAt t ->
  JS.setDate (Some t) (JS.plus1 (JS.getDate (Some t))) = JS.TimeClip (t + JS.msPerDay).
Proof.
  intros Hst. unfold JS.getDate, JS.plus1, JS.setDate. rewrite MakeDay_next.
  f_equal. pose proof (MakeDate_Day (JS.LocalTime t)) as Hmd.
  unfold steadyOffsetAt in Hst. unfold JS.UTC.
  replace (JS.MakeDate (JS.Day (JS.LocalTime t) + 1) (JS.TimeWithinDay (JS.LocalTime t)))
    with (JS.LocalTime t + JS.msPerDay) by (unfold JS.MakeDate in *; lia).
  rewrite Hst. unfold JS.LocalTime. lia.
Qed.

Lemma TimeClip_in_range t : - maxTime <= t <= maxTime -> JS.TimeClip t = Some t.
Proof.
  unfold maxTime, JS.TimeClip. intros H.
  destruct (Z.ltb_spec 8640000000000000 (Z.abs t)); [lia | done].
Qed.

Lemma createInitialDraft_dates e :
  steadyOffsetAt (clock e 0) ->
  - maxTime <= clock e 0 + JS.msPerDay <= maxTime ->
  createInitialDraft e
  = Normal (Fields.mk "" "" "" (JS.ofZ 0) (JS.ofZ 0)
              (Spec.dateString (civilDate (clock e 0)))
              (let '(y, m, d) := civilDate (clock e 0) in
               Spec.dateString (Spec.nextDay y m d))
              planned "").
Proof.
  intros Hst Hr. unfold createInitialDraft.
  rewrite (setDate_next_day _ Hst), (TimeClip_in_range _ Hr).
  pose proof (toISOString_date (clock e 0)) as H1.
  pose proof (toISOString_date (clock e 0 + JS.msPerDay)) as H2.
  simpl in H1, H2. injection H1 as H1. injection H2 as H2.
  simpl. rewrite H1, H2. by rewrite isoDateString_next.
Qed.

Lemma createInitialDraft_blank e f :
  createInitialDraft e = Normal f ->
  Fields.providerId f = "" /\ Fields.serviceOrder f = "" /\ Fields.carId f = ""
  /\ Fields.serviceDescription f = "" /\ Fields.odometer f = JS.ofZ 0
  /\ Fields.engineHours f = JS.ofZ 0 /\ Fields.type f = planned.
Proof.
  unfold createInitialDraft, cbind. cbv zeta. unfold JS.toISOString.
  destruct (JS.setDate _ _); [|done]. intros [= <-]. by repeat split.
Qed.

End CreateDraft.

(** X1. When the host's offset from UTC does not change over the coming
    local day and tomorrow is a time value a Date can hold, [createDraft]
    returns normally: it appends one draft to the collection and makes it
    the current draft, and changes nothing else. The new draft has the id
    ["draft_<clock>_<random>"], empty text fields, zero measurements, type
    planned, today's UTC calendar date as start date and the next calendar
    day as end date, the current instant as [lastSaved], and is not
    dirty. *)
Theorem createDraft_appends {host : JS.Host} e s :
  steadyOffsetAt (clock e 0) ->
  - maxTime <= clock e 0 + JS.msPerDay <= maxTime ->
  createDraft e s
  = Normal (mkState (serviceLogs s)
              (drafts s ++
               [Draft.mk ("draft_" +:+ JS.intToString (clock e 1) +:+ "_" +:+ random e)
                  (Fields.mk "" "" "" (JS.ofZ 0) (JS.ofZ 0)
                     (Spec.dateString (civilDate (clock e 0)))
                     (let '(y, m, d) := civilDate (clock e 0) in
                      Spec.dateString (Spec.nextDay y m d))
                     planned "")
                  (JS.isoDateString (clock e 2) +:+ "T" +:+ JS.isoTimeString (clock e 2))
                  false])
              (Some (Draft.mk ("draft_" +:+ JS.intToString (clock e 1) +:+ "_" +:+ random e)
                  (Fields.mk "" "" "" (JS.ofZ 0) (JS.ofZ 0)
                     (Spec.dateString (civilDate (clock e 0)))
                     (let '(y, m, d) := civilDate (clock e 0) in
                      Spec.dateString (Spec.nextDay y m d))
                     planned "")
                  (JS.isoDateString (clock e 2) +:+ "T" +:+ JS.isoTimeString (clock e 2))
                  false))
              (searchTerm s) (filters s) (editingLog s) (saveStatus s)
              (validationErrors s) (showFilters s)).
Proof.
  intros Hst Hr. unfold createDraft.
  by rewrite (createInitialDraft_dates e Hst Hr).
Qed.

Lemma createDraft_appends_witness :
  steadyOffsetAt (host := Examples.utcHost) (clock Examples.env 0)
  /\ - maxTime <= clock Examples.env 0 + JS.msPerDay <= maxTime
  /\ createDraft (host := Examples.utcHost) Examples.env initialState
     = Normal (mkState []
                 [Draft.mk Examples.newDraftId
                    (Fields.mk "" "" "" (JS.ofZ 0) (JS.ofZ 0)
                               "2024-10-27" "2024-10-28" planned "")
                    "2024-10-27T03:33:20.123Z" false]
                 (Some (Draft.mk Examples.newDraftId
                    (Fields.mk "" "" "" (JS.ofZ 0) (JS.ofZ 0)
                               "2024-10-27" "2024-10-28" planned "")
                    "2024-10-27T03:33:20.123Z" false))
                 "" (Filters.mk "" "" None) None idle [] false).
Proof.
  assert (Hst : steadyOffsetAt (host := Examples.utcHost) (clock Examples.env 0))
    by reflexivity.
  assert (Hr : - maxTime <= clock Examples.env 0 + JS.msPerDay <= maxTime)
    by (by vm_compute).
  split; [exact Hst|]. split; [exact Hr|].
  rewrite (createDraft_appends (host := Examples.utcHost) Examples.env initialState Hst Hr).
  by vm_compute.
Defined.

(** X2. A draft that [createDraft] has just made cannot be promoted:
    [createServiceLog] on the resulting state only sets the validation
    errors, which contain the "required" messages for the provider id, the
    service order, the car id and the service description, and the records
    are those from before the draft was made. *)
Theorem fresh_draft_not_promotable {host : JS.Host} e e' s s' :
  createDraft e s = Normal s' ->
  exists errors,
    createServiceLog e' s' = Normal (set_validationErrors errors s')
    /\ "Provider ID is required" ∈ errors
    /\ "Service Order is required" ∈ errors
    /\ "Car ID is required" ∈ errors
    /\ "Service description is required" ∈ errors
    /\ serviceLogs s' = serviceLogs s.
Proof.
  unfold createDraft.
  destruct (createInitialDraft e) as [f|] eqn:Hf; [|done].
  apply createInitialDraft_blank in Hf as (Hp & Hso & Hc & Hd & _).
  simpl. intros [= <-]. unfold createServiceLog. simpl.
  set (data := Partial.of_fields f).
  assert (Hin : forall r, ~ Spec.satisfies Spec.notBelowZero r data ->
                          Spec.message r ∈ validateServiceLog data)
    by (intros r; apply message_in_validate).
  assert (Hblank : forall o, o = Some "" -> ~ Spec.nonEmptyAfterTrim o).
  { intros o -> (s0 & c & [= <-] & Hc0 & _). by apply elem_of_nil in Hc0. }
  exists (validateServiceLog data).
  assert (H1 : "Provider ID is required" ∈ validateServiceLog data).
  { apply (Hin Spec.ProviderIdRule). apply Hblank. simpl. by rewrite Hp. }
  split.
  - destruct (validateServiceLog data) eqn:Hv; [by apply elem_of_nil in H1 | done].
  - split; [done|].
    split; [apply (Hin Spec.ServiceOrderRule), Hblank; simpl; by rewrite Hso|].
    split; [apply (Hin Spec.CarIdRule), Hblank; simpl; by rewrite Hc|].
    split; [apply (Hin Spec.ServiceDescriptionRule), Hblank; simpl; by rewrite Hd|].
    done.
Qed.

Lemma fresh_draft_not_promotable_witness :
  exists s',
    createDraft (host := Examples.utcHost) Examples.env initialState = Normal s'
    /\ exists errors,
         createServiceLog (host := Examples.utcHost) Examples.env s'
         = Normal (set_validationErrors errors s')
         /\ "Provider ID is required" ∈ errors
         /\ "Service Order is required" ∈ errors
         /\ "Car ID is required" ∈ errors
         /\ "Service description is required" ∈ errors
         /\ serviceLogs s' = serviceLogs initialState.
Proof.
  eexists. split; [by vm_compute|].
  apply (fresh_draft_not_promotable (host := Examples.utcHost) Examples.env Examples.env
           initialState).
  by vm_compute.
Defined.

(** ** Updating and saving a draft *)

Section DraftUpdates.
Context {host : JS.Host}.

Lemma updateDraft_found s id u i d0 s' :
  list_find (fun x => Draft.id x = id) (drafts s) = Some (i, d0) ->
  updateDraft s id u = Normal s' ->
  exists d',
    Draft.isDirty d' = true
    /\ (forall f, u = Draft.set_field f -> Draft.id d' = id)
    /\ s' = mkState (serviceLogs s) (<[i := d']> (drafts s))
                    (if currentDraftHasId s id then Some d' else currentDraft s)
                    (searchTerm s) (filters s) (editingLog s) saving
                    (validationErrors s) (showFilters s).
Proof.
  intros Hfind.
  assert (Hid : Draft.id d0 = id) by (by apply list_find_Some in Hfind as (_ & ? & _)).
  unfold updateDraft. rewrite Hfind.
  match goal with
  | |- cbind ?c _ = _ -> _ => destruct c as [d'|] eqn:Hd'; [|done]
  end.
  simpl. intros [= <-]. exists d'.
  assert (Hd : Draft.isDirty d' = true
               /\ (forall f, u = Draft.set_field f -> Draft.id d' = id)).
  { destruct (Draft.truthyStartDate u).
    - destruct (nextDayString s0); [|done]. injection Hd' as <-.
      split; [done|]. by intros f ->.
    - injection Hd' as <-. split; [done|]. by intros f ->. }
  destruct Hd as [Hd1 Hd2]. split; [done|]. split; [done|].
  by destruct (currentDraftHasId s id).
Qed.

Lemma nextDayString_invalid value :
  JS.Date_parse value = None -> nextDayString value = ThrowRangeError.
Proof. intros H. unfold nextDayString. by rewrite H. Qed.

Lemma updateDraft_throws s id u :
  updateDraft s id u = ThrowRangeError
  <-> (exists i d0 value,
         list_find (fun x => Draft.id x = id) (drafts s) = Some (i, d0)
         /\ Draft.truthyStartDate u = Some value
         /\ nextDayString value = ThrowRangeError).
Proof.
  unfold updateDraft. split.
  - destruct (list_find _ _) as [[i d0]|]; [|done].
    destruct (Draft.truthyStartDate u) as [value|]; [|done].
    destruct (nextDayString value) eqn:Hn; [done|]. intros _. by exists i, d0, value.
  - intros (i & d0 & value & -> & -> & ->). done.
Qed.

Lemma list_find_insert_same {A} (P : A -> Prop) `{forall x, Decision (P x)}
      (l : list A) i x y :
  list_find P l = Some (i, x) -> P y -> list_find P (<[i := y]> l) = Some (i, y).
Proof.
  intros Hf Hy. apply list_find_Some in Hf as (Hi & Hx & Hbefore).
  apply list_find_Some. split; [|split; [done|]].
  - apply list_lookup_insert_eq. by eapply lookup_lt_Some.
  - intros j z Hj Hlt. rewrite list_lookup_insert_ne in Hj by lia. by eapply Hbefore.
Qed.

Lemma markDraftSaved_found e s id lastSaved i d0 :
  list_find (fun x => Draft.id x = id) (drafts s) = Some (i, d0) ->
  let stamp := default (JS.isoDateString (clock e 0) +:+ "T" +:+ JS.isoTimeString (clock e 0))
                       lastSaved in
  markDraftSaved e s id lastSaved
  = Normal (mkState (serviceLogs s)
              (<[i := Draft.mk (Draft.id d0) (Draft.fields d0) stamp false]> (drafts s))
              (if currentDraftHasId s id
               then Some (Draft.mk (Draft.id d0) (Draft.fields d0) stamp false)
               else currentDraft s)
              (searchTerm s) (filters s) (editingLog s) (saveStatus s)
              (validationErrors s) (showFilters s)).
Proof.
  intros Hfind stamp.
  assert (Hid : Draft.id d0 = id) by (by apply list_find_Some in Hfind as (_ & ? & _)).
  unfold markDraftSaved. rewrite Hfind.
  assert (Hstamp : match lastSaved with
                   | Some v => Normal v
                   | None => JS.toISOString (Some (clock e 0))
                   end = Normal stamp) by (by destruct lastSaved).
  rewrite Hstamp. clearbody stamp. simpl.
  replace (currentDraftHasId (set_drafts _ s) (Draft.id d0))
    with (currentDraftHasId s id) by (by rewrite Hid).
  by destruct (currentDraftHasId s id).
Qed.

Lemma filter_filter_same {A} (P : A -> Prop) `{forall x, Decision (P x)} (l : list A) :
  filter P (filter P l) = filter P l.
Proof. apply filter_all. intros x Hx. by apply list_elem_of_filter in Hx as [? _]. Qed.

Lemma fields_truthyStartDate f value :
  Fields.truthyStartDate f = Some value
  <-> f = Fields.set_startDate value /\ value <> "".
Proof.
  destruct f; simpl; try (split; [done | by intros [? _]]).
  destruct (JS.falsy v) eqn:Hf.
  - split; [done|]. intros [[= ->] Hne]. apply falsy_empty in Hf. done.
  - apply falsy_nonempty in Hf. split; [by intros [= <-] | by intros [[= ->] _]].
Qed.

Lemma draft_truthyStartDate u value :
  Draft.truthyStartDate u = Some value
  <-> u = Draft.set_field (Fields.set_startDate value) /\ value <> "".
Proof.
  destruct u as [| | |f]; simpl; try (split; [done | by intros [? _]]).
  rewrite fields_truthyStartDate. split; [by intros [-> ?] | by intros [[= ->] ?]].
Qed.

Lemma log_truthyStartDate u value :
  ServiceLog.truthyStartDate u = Some value
  <-> u = ServiceLog.set_field (Fields.set_startDate value) /\ value <> "".
Proof.
  destruct u as [| |f]; simpl; try (split; [done | by intros [? _]]).
  rewrite fields_truthyStartDate. split; [by intros [-> ?] | by intros [[= ->] ?]].
Qed.

End DraftUpdates.

(** X3. [updateDraft] on an id that is in the collection, when it returns
    normally, replaces the first draft of that id, in place, by a dirty
    draft: the other positions and the length of the collection are
    unchanged. The current draft becomes that draft when it had the id and
    is unchanged otherwise, the save status becomes "saving", and no other
    field of the state changes. *)
Theorem updateDraft_effect {host : JS.Host} s id u i d0 s' :
  list_find (fun x => Draft.id x = id) (drafts s) = Some (i, d0) ->
  updateDraft s id u = Normal s' ->
  exists d',
    drafts s' = <[i := d']> (drafts s)
    /\ Draft.isDirty d' = true
    /\ (forall j, j <> i -> drafts s' !! j = drafts s !! j)
    /\ length (drafts s') = length (drafts s)
    /\ currentDraft s' = (if currentDraftHasId s id then Some d' else currentDraft s)
    /\ saveStatus s' = saving
    /\ serviceLogs s' = serviceLogs s
    /\ editingLog s' = editingLog s
    /\ validationErrors s' = validationErrors s
    /\ searchTerm s' = searchTerm s /\ filters s' = filters s
    /\ showFilters s' = showFilters s.
Proof.
  intros Hfind Hup.
  destruct (updateDraft_found s id u i d0 s' Hfind Hup) as (d' & Hdirty & _ & ->).
  exists d'. simpl.
  split; [done|]. split; [done|].
  split; [intros j Hj; by apply list_lookup_insert_ne|].
  split; [apply length_insert | done].
Qed.

Lemma updateDraft_effect_witness :
  list_find (fun x => Draft.id x = "draft_1") (drafts Examples.oneDraft)
  = Some (0%nat, Examples.draft)
  /\ exists s',
       updateDraft (host := Examples.utcHost) Examples.oneDraft "draft_1"
                   (Draft.set_field (Fields.set_carId "C2")) = Normal s'
       /\ exists d',
            drafts s' = <[0%nat := d']> (drafts Examples.oneDraft)
            /\ Draft.isDirty d' = true
            /\ currentDraft s' = Some d'
            /\ saveStatus s' = saving.
Proof.
  assert (Hfind : list_find (fun x => Draft.id x = "draft_1") (drafts Examples.oneDraft)
                  = Some (0%nat, Examples.draft)) by (by vm_compute).
  split; [exact Hfind|]. eexists. split; [by vm_compute|].
  match goal with
  | |- exists d', drafts ?s' = _ /\ _ =>
      destruct (updateDraft_effect (host := Examples.utcHost) Examples.oneDraft "draft_1"
                  (Draft.set_field (Fields.set_carId "C2")) 0%nat Examples.draft s' Hfind)
        as (d' & H1 & H2 & _ & _ & H3 & H4 & _); [by vm_compute|]
  end.
  exists d'. split; [exact H1|]. split; [exact H2|]. split; [exact H3 | exact H4].
Defined.

(** X4. A string the host does not parse as a date makes the computation
    of the next day throw. [updateDraft] throws exactly when the collection
    has a draft of the given id, the update sets [startDate] to a string
    that is not empty, and the computation of the next day of that string
    throws; [updateEditingLogField] throws exactly when an edit session is
    open, the update sets [startDate] to a string that is not empty, and
    that computation throws. *)
Theorem startDate_update_throws {host : JS.Host} :
  (forall value, JS.Date_parse value = None -> nextDayString value = ThrowRangeError)
  /\ (forall s id u,
        updateDraft s id u = ThrowRangeError
        <-> exists value,
              u = Draft.set_field (Fields.set_startDate value) /\ value <> ""
              /\ (exists d0, d0 ∈ drafts s /\ Draft.id d0 = id)
              /\ nextDayString value = ThrowRangeError)
  /\ (forall s u,
        updateEditingLogField s u = ThrowRangeError
        <-> exists value,
              u = ServiceLog.set_field (Fields.set_startDate value) /\ value <> ""
              /\ is_Some (editingLog s)
              /\ nextDayString value = ThrowRangeError).
Proof.
  split; [apply nextDayString_invalid|]. split.
  - intros s id u. rewrite updateDraft_throws. split.
    + intros (i & d0 & value & Hf & Hu & Hn). exists value.
      apply draft_truthyStartDate in Hu as [-> Hne].
      apply list_find_Some in Hf as (Hi & Hid & _).
      repeat split; try done. exists d0. split; [|done].
      apply list_elem_of_lookup. by exists i.
    + intros (value & -> & Hne & (d0 & Hin & Hid) & Hn).
      destruct (list_find (fun x => Draft.id x = id) (drafts s)) as [[i d1]|] eqn:Hf.
      * exists i, d1, value. split; [done|]. split; [|done].
        apply draft_truthyStartDate. done.
      * exfalso. apply list_find_None in Hf.
        by apply (proj1 (Forall_forall _ _) Hf d0 Hin).
  - intros s u. unfold updateEditingLogField. split.
    + destruct (editingLog s) as [l|]; [|done].
      destruct (ServiceLog.truthyStartDate u) as [value|] eqn:Hu; [|done].
      destruct (nextDayString value) eqn:Hn; [done|]. intros _.
      apply log_truthyStartDate in Hu as [-> Hne]. exists value. by repeat split.
    + intros (value & -> & Hne & [l ->] & Hn).
      assert (Hu : ServiceLog.truthyStartDate
                     (ServiceLog.set_field (Fields.set_startDate value)) = Some value)
        by (by apply log_truthyStartDate).
      by rewrite Hu, Hn.
Qed.

(** X5. Setting the start date of a draft of the collection to a calendar
    date before the year 9999, on a host whose offset does not grow over
    that day, returns normally and leaves a draft that [validateServiceLog]
    does not fault on its dates: its messages contain neither "End date must
    be after start date" nor the two "required" messages for the dates. *)
Theorem auto_advance_keeps_order {host : JS.Host} s id i d0 value y m d :
  list_find (fun x => Draft.id x = id) (drafts s) = Some (i, d0) ->
  Spec.isCalendarDate value y m d -> Spec.offsetDoesNotGrow y m d -> y < 9999 ->
  exists s' d',
    updateDraft s id (Draft.set_field (Fields.set_startDate value)) = Normal s'
    /\ drafts s' !! i = Some d'
    /\ ("End date must be after start date"
          ∉ validateServiceLog (Partial.of_fields (Draft.fields d')))
    /\ ("Start date is required"
          ∉ validateServiceLog (Partial.of_fields (Draft.fields d')))
    /\ ("End date is required"
          ∉ validateServiceLog (Partial.of_fields (Draft.fields d'))).
Proof.
  intros Hfind Hdate Hoff Hy.
  destruct (updateDraft_startDate s id i d0 value y m d Hfind Hdate Hoff)
    as (s' & d' & Hup & Hi & Hsd & Hed).
  exists s', d'. split; [done|]. split; [done|].
  assert (Hy0 : 0 <= y < 9999).
  { destruct Hdate as [Hp _]. apply parseDateOnly_year in Hp. lia. }
  pose proof (nextDay_isCalendarDate y m d Hy0 (proj2 Hdate)) as Hn.
  destruct (Spec.nextDay y m d) as [[y' m'] d'0]. destruct Hn as [Hnext Hday].
  pose proof (message_in_validate Spec.DateOrderRule
                (Partial.of_fields (Draft.fields d'))) as H9.
  pose proof (message_in_validate Spec.StartDateRule
                (Partial.of_fields (Draft.fields d'))) as H6.
  pose proof (message_in_validate Spec.EndDateRule
                (Partial.of_fields (Draft.fields d'))) as H7.
  simpl in H9, H6, H7. rewrite Hsd, Hed in *.
  split; [|split].
  - rewrite H9. intros Hno. apply Hno. intros a b ta tb [= <-] [= <-] _ _ Hta Htb.
    rewrite (Date_parse_calendar _ _ _ _ Hdate) in Hta.
    rewrite (Date_parse_calendar _ _ _ _ Hnext) in Htb.
    injection Hta as <-. injection Htb as <-. rewrite Hday.
    unfold JS.MakeDate, JS.msPerDay. lia.
  - rewrite H6. intros Hno. apply Hno. exists value. split; [done|].
    apply falsy_nonempty. by eapply isCalendarDate_truthy.
  - rewrite H7. intros Hno. apply Hno. eexists. split; [done|].
    apply falsy_nonempty. by eapply isCalendarDate_truthy.
Qed.

Lemma auto_advance_keeps_order_witness :
  list_find (fun x => Draft.id x = "draft_1") (drafts Examples.oneDraft)
  = Some (0%nat, Examples.draft)
  /\ Spec.isCalendarDate "2024-02-29" 2024 2 29
  /\ Spec.offsetDoesNotGrow (host := Examples.utcHost) 2024 2 29
  /\ 2024 < 9999
  /\ exists s' d',
       updateDraft (host := Examples.utcHost) Examples.oneDraft "draft_1"
                   (Draft.set_field (Fields.set_startDate "2024-02-29")) = Normal s'
       /\ drafts s' !! 0%nat = Some d'
       /\ ("End date must be after start date"
             ∉ validateServiceLog (host := Examples.utcHost)
                 (Partial.of_fields (Draft.fields d')))
       /\ ("Start date is required"
             ∉ validateServiceLog (host := Examples.utcHost)
                 (Partial.of_fields (Draft.fields d')))
       /\ ("End date is required"
             ∉ validateServiceLog (host := Examples.utcHost)
                 (Partial.of_fields (Draft.fields d'))).
Proof.
  assert (Hfind : list_find (fun x => Draft.id x = "draft_1") (drafts Examples.oneDraft)
                  = Some (0%nat, Examples.draft)) by (by vm_compute).
  assert (Hdate : Spec.isCalendarDate "2024-02-29" 2024 2 29) by (by vm_compute).
  assert (Hoff : Spec.offsetDoesNotGrow (host := Examples.utcHost) 2024 2 29)
    by (by vm_compute).
  assert (Hy : 2024 < 9999) by lia.
  split; [exact Hfind|]. split; [exact Hdate|]. split; [exact Hoff|]. split; [exact Hy|].
  exact (auto_advance_keeps_order (host := Examples.utcHost) Examples.oneDraft "draft_1"
           0%nat Examples.draft "2024-02-29" 2024 2 29 Hfind Hdate Hoff Hy).
Defined.

(** X6. [markDraftSaved] on an id that is in the collection returns
    normally. The first draft of that id gets as [lastSaved] the stamp of
    the payload, or the current instant when the payload has none, and is no
    longer dirty; it keeps its id and shared fields. The current draft
    becomes that draft when it had the id, and nothing else changes. Marking
    the draft saved again with that stamp changes nothing. *)
Theorem markDraftSaved_effect e s id lastSaved i d0 :
  list_find (fun x => Draft.id x = id) (drafts s) = Some (i, d0) ->
  let stamp := default (JS.isoDateString (clock e 0) +:+ "T" +:+ JS.isoTimeString (clock e 0))
                       lastSaved in
  let d' := Draft.mk (Draft.id d0) (Draft.fields d0) stamp false in
  let s' := mkState (serviceLogs s) (<[i := d']> (drafts s))
                    (if currentDraftHasId s id then Some d' else currentDraft s)
                    (searchTerm s) (filters s) (editingLog s) (saveStatus s)
                    (validationErrors s) (showFilters s) in
  markDraftSaved e s id lastSaved = Normal s'
  /\ markDraftSaved e s' id (Some stamp) = Normal s'.
Proof.
  intros Hfind stamp d' s'.
  assert (Hid : Draft.id d0 = id) by (by apply list_find_Some in Hfind as (_ & ? & _)).
  split; [exact (markDraftSaved_found e s id lastSaved i d0 Hfind)|].
  clearbody stamp.
  assert (Hfind' : list_find (fun x => Draft.id x = id) (drafts s') = Some (i, d')).
  { subst s'. simpl. by eapply list_find_insert_same. }
  unfold markDraftSaved. rewrite Hfind'. simpl.
  replace (<[i := Draft.with_lastSaved stamp (Draft.with_isDirty false d')]>
             (<[i := d']> (drafts s))) with (<[i := d']> (drafts s))
    by (by rewrite list_insert_insert_eq).
  change (Draft.id (Draft.with_lastSaved stamp (Draft.with_isDirty false d')))
    with (Draft.id d0).
  change (Draft.with_lastSaved stamp (Draft.with_isDirty false d')) with d'.
  rewrite Hid. unfold currentDraftHasId at 1. simpl.
  destruct (currentDraftHasId s id) eqn:Hc; simpl.
  - rewrite bool_decide_eq_true_2 by done. done.
  - fold (currentDraftHasId s id). by rewrite Hc.
Qed.

Lemma markDraftSaved_effect_witness :
  list_find (fun x => Draft.id x = "draft_1") (drafts Examples.oneDraft)
  = Some (0%nat, Examples.draft)
  /\ markDraftSaved Examples.env Examples.oneDraft "draft_1" None
     = Normal (mkState []
                 [Draft.mk "draft_1" Examples.fields "2024-10-27T03:33:20.123Z" false]
                 (Some (Draft.mk "draft_1" Examples.fields "2024-10-27T03:33:20.123Z" false))
                 "" (Filters.mk "" "" None) None idle [] false).
Proof.
  assert (Hfind : list_find (fun x => Draft.id x = "draft_1") (drafts Examples.oneDraft)
                  = Some (0%nat, Examples.draft)) by (by vm_compute).
  split; [exact Hfind|].
  destruct (markDraftSaved_effect Examples.env Examples.oneDraft
              "draft_1" None 0%nat Examples.draft Hfind) as [H1 _].
  rewrite H1. by vm_compute.
Defined.

(** X7. An edit of a draft followed by the autosave: after [updateDraft]
    has changed a shared field of a draft of the collection (returning
    normally), the draft at that position is dirty; [markDraftSaved] for the
    same id then returns normally and leaves at that position the draft with
    the edited fields, with the stamp of the payload (the current instant
    when it has none) as [lastSaved] and with [isDirty] false, which is also
    the current draft when the current draft had the id. *)
Theorem autosave_after_edit {host : JS.Host} e s id f i d0 s1 lastSaved :
  list_find (fun x => Draft.id x = id) (drafts s) = Some (i, d0) ->
  updateDraft s id (Draft.set_field f) = Normal s1 ->
  let stamp := default (JS.isoDateString (clock e 0) +:+ "T" +:+ JS.isoTimeString (clock e 0))
                       lastSaved in
  exists d1 s2,
    drafts s1 !! i = Some d1 /\ Draft.isDirty d1 = true
    /\ markDraftSaved e s1 id lastSaved = Normal s2
    /\ drafts s2 !! i = Some (Draft.mk id (Draft.fields d1) stamp false)
    /\ (currentDraftHasId s id = true ->
        currentDraft s2 = Some (Draft.mk id (Draft.fields d1) stamp false)).
Proof.
  intros Hfind Hup stamp.
  assert (Hlt : (i < length (drafts s))%nat).
  { apply list_find_Some in Hfind as (Hi & _). by eapply lookup_lt_Some. }
  destruct (updateDraft_found s id _ i d0 s1 Hfind Hup) as (d1 & Hdirty & Hid1 & ->).
  specialize (Hid1 f eq_refl).
  assert (Hfind1 : list_find (fun x => Draft.id x = id) (<[i := d1]> (drafts s))
                   = Some (i, d1)) by (by eapply list_find_insert_same).
  match type of Hup with
  | _ = Normal ?st =>
      pose proof (markDraftSaved_found e st id lastSaved i d1 Hfind1) as Hm
  end.
  cbv zeta in Hm. fold stamp in Hm. clearbody stamp. simpl in Hm.
  exists d1. eexists.
  split; [by apply list_lookup_insert_eq|]. split; [done|].
  split; [exact Hm|]. simpl. rewrite Hid1.
  split.
  - apply list_lookup_insert_eq. by rewrite length_insert.
  - intros Hc. rewrite Hc. unfold currentDraftHasId. simpl.
    by rewrite bool_decide_eq_true_2.
Qed.

Lemma autosave_after_edit_witness :
  list_find (fun x => Draft.id x = "draft_1") (drafts Examples.oneDraft)
  = Some (0%nat, Examples.draft)
  /\ exists s1,
       updateDraft (host := Examples.utcHost) Examples.oneDraft "draft_1"
                   (Draft.set_field (Fields.set_carId "C2")) = Normal s1
       /\ exists d1 s2,
            drafts s1 !! 0%nat = Some d1 /\ Draft.isDirty d1 = true
            /\ markDraftSaved Examples.env s1 "draft_1" None = Normal s2
            /\ drafts s2 !! 0%nat
               = Some (Draft.mk "draft_1" (Draft.fields d1) "2024-10-27T03:33:20.123Z" false)
            /\ (currentDraftHasId Examples.oneDraft "draft_1" = true ->
                currentDraft s2
                = Some (Draft.mk "draft_1" (Draft.fields d1)
                                 "2024-10-27T03:33:20.123Z" false)).
Proof.
  assert (Hfind : list_find (fun x => Draft.id x = "draft_1") (drafts Examples.oneDraft)
                  = Some (0%nat, Examples.draft)) by (by vm_compute).
  split; [exact Hfind|]. eexists. split; [by vm_compute|].
  apply (autosave_after_edit (host := Examples.utcHost) Examples.env Examples.oneDraft
           "draft_1" (Fields.set_carId "C2") 0%nat Examples.draft _ None Hfind).
  by vm_compute.
Defined.

(** ** Deleting drafts and records *)

(** X8. [deleteDraft] keeps exactly the drafts whose id differs from the
    given one, in their order. The current draft becomes null when it had
    that id and is unchanged otherwise. Deleting the same id again changes
    nothing, and the records, the edit session, the save status and the
    validation errors are never touched. *)
Theorem deleteDraft_effect s id :
  (forall d, d ∈ drafts (deleteDraft s id) <-> d ∈ drafts s /\ Draft.id d <> id)
  /\ drafts (deleteDraft s id) `sublist_of` drafts s
  /\ currentDraft (deleteDraft s id)
     = (if currentDraftHasId s id then None else currentDraft s)
  /\ deleteDraft (deleteDraft s id) id = deleteDraft s id
  /\ serviceLogs (deleteDraft s id) = serviceLogs s
  /\ editingLog (deleteDraft s id) = editingLog s
  /\ saveStatus (deleteDraft s id) = saveStatus s
  /\ validationErrors (deleteDraft s id) = validationErrors s.
Proof.
  unfold deleteDraft.
  change (currentDraftHasId (set_drafts _ s) id) with (currentDraftHasId s id).
  split.
  { intros d. destruct (currentDraftHasId s id); simpl;
      rewrite list_elem_of_filter; tauto. }
  split; [destruct (currentDraftHasId s id); apply sublist_filter|].
  split; [by destruct (currentDraftHasId s id)|].
  split; [|by destruct (currentDraftHasId s id)].
  destruct s as [logs ds cur st fl ed ss ve sf].
  unfold currentDraftHasId, set_drafts, set_currentDraft. simpl.
  destruct cur as [c|]; simpl; [|by rewrite filter_filter_same].
  destruct (bool_decide (Draft.id c = id)) eqn:Hc; simpl;
    rewrite ?Hc; by rewrite filter_filter_same.
Qed.

(** X9. [deleteServiceLog] keeps exactly the records whose id differs from
    the given one, in their order. The edit session is closed when its
    working copy had that id and is unchanged otherwise. Deleting the same
    id again changes nothing, and the drafts, the current draft and the
    validation errors are never touched. *)
Theorem deleteServiceLog_effect s id :
  (forall l, l ∈ serviceLogs (deleteServiceLog s id)
             <-> l ∈ serviceLogs s /\ ServiceLog.id l <> id)
  /\ serviceLogs (deleteServiceLog s id) `sublist_of` serviceLogs s
  /\ editingLog (deleteServiceLog s id)
     = (if editingLogHasId s id then None else editingLog s)
  /\ deleteServiceLog (deleteServiceLog s id) id = deleteServiceLog s id
  /\ drafts (deleteServiceLog s id) = drafts s
  /\ currentDraft (deleteServiceLog s id) = currentDraft s
  /\ validationErrors (deleteServiceLog s id) = validationErrors s.
Proof.
  unfold deleteServiceLog.
  change (editingLogHasId (set_serviceLogs _ s) id) with (editingLogHasId s id).
  split.
  { intros l. destruct (editingLogHasId s id); simpl;
      rewrite list_elem_of_filter; tauto. }
  split; [destruct (editingLogHasId s id); apply sublist_filter|].
  split; [by destruct (editingLogHasId s id)|].
  split; [|by destruct (editingLogHasId s id)].
  destruct s as [logs ds cur st fl ed ss ve sf].
  unfold editingLogHasId, set_serviceLogs, set_editingLog. simpl.
  destruct ed as [c|]; simpl; [|by rewrite filter_filter_same].
  destruct (bool_decide (ServiceLog.id c = id)) eqn:Hc; simpl;
    rewrite ?Hc; by rewrite filter_filter_same.
Qed.

(** ** Runs of actions *)

Section Runs.
Context {host : JS.Host}.

Lemma createServiceLog_recordsValid e s s' :
  recordsValid s -> createServiceLog e s = Normal s' -> recordsValid s'.
Proof.
  intros Hv. unfold createServiceLog.
  destruct (currentDraft s) as [c|]; [|by intros [= <-]].
  destruct (validateServiceLog _) as [|m errs] eqn:Herr; simpl; [|by intros [= <-]].
  intros [= <-]. intros l. simpl. rewrite elem_of_app, list_elem_of_singleton.
  intros [Hl | ->]; [by apply Hv | exact Herr].
Qed.

Lemma saveEditingLog_recordsValid s :
  recordsValid s -> recordsValid (saveEditingLog s).
Proof.
  intros Hv. unfold saveEditingLog.
  destruct (editingLog s) as [ed|]; [|done].
  destruct (validateServiceLog _) as [|m errs] eqn:Herr; simpl; [|done].
  intros l. simpl. change (map ?f ?l) with (f <$> l).
  intros (x & -> & Hx)%list_elem_of_fmap.
  destruct (bool_decide _); [exact Herr | by apply Hv].
Qed.

Lemma recordsValid_ext s s' :
  serviceLogs s' = serviceLogs s -> recordsValid s -> recordsValid s'.
Proof. unfold recordsValid. by intros ->. Qed.

Lemma updateDraft_serviceLogs s id u s' :
  updateDraft s id u = Normal s' -> serviceLogs s' = serviceLogs s.
Proof.
  unfold updateDraft. destruct (list_find _ _) as [[i d0]|]; [|by intros [= <-]].
  match goal with
  | |- cbind ?c _ = _ -> _ => destruct c; [|done]
  end.
  simpl. intros [= <-]. by destruct (currentDraftHasId s id).
Qed.

Lemma markDraftSaved_serviceLogs e s id stamp s' :
  markDraftSaved e s id stamp = Normal s' -> serviceLogs s' = serviceLogs s.
Proof.
  unfold markDraftSaved. destruct (list_find _ _) as [[i d0]|]; [|by intros [= <-]].
  match goal with
  | |- cbind ?c _ = _ -> _ => destruct c; [|done]
  end.
  simpl. intros [= <-]. by destruct (currentDraftHasId _ _).
Qed.

Lemma createDraft_serviceLogs e s s' :
  createDraft e s = Normal s' -> serviceLogs s' = serviceLogs s.
Proof.
  unfold createDraft. destruct (createInitialDraft e); [|done]. simpl. by intros [= <-].
Qed.

Lemma updateEditingLogField_serviceLogs s u s' :
  updateEditingLogField s u = Normal s' -> serviceLogs s' = serviceLogs s.
Proof.
  unfold updateEditingLogField. destruct (editingLog s); [|by intros [= <-]].
  match goal with
  | |- cbind ?c _ = _ -> _ => destruct c; [|done]
  end.
  simpl. by intros [= <-].
Qed.

Lemma ordinary_recordsValid e s a s' :
  recordsValid s -> Spec.ordinary a -> reducer e s a = Normal s' -> recordsValid s'.
Proof.
  intros Hv Hord. destruct a; simpl in *; try done.
  - intros H%createDraft_serviceLogs. by eapply recordsValid_ext.
  - intros H%updateDraft_serviceLogs. by eapply recordsValid_ext.
  - intros [= <-]. eapply recordsValid_ext; [|done]. unfold deleteDraft.
    by destruct (currentDraftHasId _ _).
  - by intros [= <-].
  - by apply createServiceLog_recordsValid.
  - by intros [= <-].
  - intros H%updateEditingLogField_serviceLogs. by eapply recordsValid_ext.
  - intros [= <-]. by apply saveEditingLog_recordsValid.
  - intros [= <-]. intros l Hl. apply Hv. unfold deleteServiceLog in Hl.
    destruct (editingLogHasId _ _); simpl in Hl;
      by apply list_elem_of_filter in Hl as [_ Hl].
  - by intros [= <-].
  - by intros [= <-].
  - by intros [= <-].
  - by intros [= <-].
  - by intros [= <-].
  - by intros [= <-].
  - intros H%markDraftSaved_serviceLogs. by eapply recordsValid_ext.
Qed.

Lemma dispatchAll_snoc e s l a :
  dispatchAll e s (l ++ [a]) = cbind (dispatchAll e s l) (fun s => reducer e s a).
Proof. unfold dispatchAll. by rewrite foldl_snoc. Qed.

(** A run of ordinary actions from a reachable state ends in one. *)
Lemma dispatchAll_reachable e l : forall s s',
  Spec.reachable s -> Forall Spec.ordinary l -> dispatchAll e s l = Normal s' ->
  Spec.reachable s'.
Proof.
  induction l as [|a l IH] using rev_ind; intros s s' Hs Hl.
  - by intros [= <-].
  - rewrite dispatchAll_snoc. apply Forall_app in Hl as [Hl Ha].
    rewrite Forall_singleton in Ha.
    destruct (dispatchAll e s l) as [s1|] eqn:Hd; [|done]. unfold cbind. intros Hstep.
    apply (Spec.reach_step s1 e a s'); [by apply (IH s s1) | done | done].
Qed.

Lemma session_step_frame e s a s' :
  sessionAction a -> reducer e s a = Normal s' ->
  serviceLogs s' = serviceLogs s /\ drafts s' = drafts s
  /\ currentDraft s' = currentDraft s /\ searchTerm s' = searchTerm s
  /\ filters s' = filters s /\ saveStatus s' = saveStatus s
  /\ showFilters s' = showFilters s.
Proof.
  destruct a; try done; simpl; intros _.
  - by intros [= <-].
  - unfold updateEditingLogField. destruct (editingLog s); [|by intros [= <-]].
    match goal with
    | |- cbind ?c _ = _ -> _ => destruct c; [|done]
    end.
    simpl. by intros [= <-].
Qed.

End Runs.

(** X10. Every record of a reachable state passes [validateServiceLog]:
    the records only grow by [createServiceLog], which appends the current
    draft after it was validated, and only change by [saveEditingLog],
    which writes the working copy after it was validated; a restored blob
    brings back the records of a reachable state. *)
Theorem reachable_records_valid {host : JS.Host} s :
  Spec.reachable s -> forall l, l ∈ serviceLogs s -> validRecord l.
Proof.
  intros Hs. change (recordsValid s).
  induction Hs as [|s e a s' _ IH Hord Hstep|s d _ IH _|s s0 p _ _ _ IH0 Hp].
  - intros l Hl. by apply elem_of_nil in Hl.
  - by eapply ordinary_recordsValid.
  - exact IH.
  - destruct Hp as [ls [Hacc Hp]]. rewrite (load_persist _ _ Hacc) in Hp.
    apply asPayload_toSave_inv in Hp as ->. exact IH0.
Qed.

Lemma reachable_records_valid_witness :
  exists s l,
    dispatchAll (host := Examples.utcHost) Examples.env initialState
      [ Action.createDraft;
        Action.updateDraft Examples.newDraftId (Draft.set_field (Fields.set_providerId "P1"));
        Action.updateDraft Examples.newDraftId (Draft.set_field (Fields.set_serviceOrder "S1"));
        Action.updateDraft Examples.newDraftId (Draft.set_field (Fields.set_carId "C1"));
        Action.updateDraft Examples.newDraftId
          (Draft.set_field (Fields.set_serviceDescription "oil change"));
        Action.createServiceLog ] = Normal s
    /\ serviceLogs s = [l]
    /\ ServiceLog.fields l
       = Fields.mk "P1" "S1" "C1" (JS.ofZ 0) (JS.ofZ 0) "2024-10-27" "2024-10-28"
                   planned "oil change"
    /\ validRecord (host := Examples.utcHost) l.
Proof.
  eexists _, _.
  match goal with
  | |- dispatchAll _ _ ?run = _ /\ _ =>
      split; [by vm_compute|];
      match goal with
      | |- serviceLogs ?s = _ /\ _ =>
          assert (Hreach : Spec.reachable (host := Examples.utcHost) s)
            by (apply (dispatchAll_reachable (host := Examples.utcHost)
                         Examples.env run initialState);
                [apply Spec.reach_init | repeat constructor | by vm_compute])
      end
  end.
  split; [reflexivity|]. split; [reflexivity|].
  apply (reachable_records_valid (host := Examples.utcHost) _ Hreach).
  apply list_elem_of_here.
Defined.

(** X11. An edit session does not reach the saved data: any run of
    [setEditingLog] and [updateEditingLogField] actions that returns
    normally leaves the records, the drafts, the current draft, the search
    term, the filters, the save status and the filter panel flag as they
    were. Only the working copy and the validation errors can change before
    [saveEditingLog]. *)
Theorem edit_session_is_isolated {host : JS.Host} e l : forall s s',
  Forall sessionAction l -> dispatchAll e s l = Normal s' ->
  serviceLogs s' = serviceLogs s /\ drafts s' = drafts s
  /\ currentDraft s' = currentDraft s /\ searchTerm s' = searchTerm s
  /\ filters s' = filters s /\ saveStatus s' = saveStatus s
  /\ showFilters s' = showFilters s.
Proof.
  induction l as [|a l IH] using rev_ind; intros s s' Hl.
  - by intros [= <-].
  - rewrite dispatchAll_snoc. apply Forall_app in Hl as [Hl Ha].
    rewrite Forall_singleton in Ha.
    destruct (dispatchAll e s l) as [s1|] eqn:Hd; [|done]. unfold cbind. intros Hstep.
    destruct (IH s s1 Hl Hd) as (H1 & H2 & H3 & H4 & H5 & H6 & H7).
    destruct (session_step_frame e s1 a s' Ha Hstep) as (G1 & G2 & G3 & G4 & G5 & G6 & G7).
    repeat split; congruence.
Qed.

Lemma edit_session_is_isolated_witness :
  Forall sessionAction
    [ Action.setEditingLog (Some Examples.log);
      Action.updateEditingLogField (ServiceLog.set_field (Fields.set_carId "C2")) ]
  /\ exists s',
       dispatchAll (host := Examples.utcHost) Examples.env Examples.editing
         [ Action.setEditingLog (Some Examples.log);
           Action.updateEditingLogField (ServiceLog.set_field (Fields.set_carId "C2")) ]
       = Normal s'
       /\ editingLog s' <> editingLog Examples.editing
       /\ serviceLogs s' = serviceLogs Examples.editing
       /\ drafts s' = drafts Examples.editing
       /\ currentDraft s' = currentDraft Examples.editing
       /\ searchTerm s' = searchTerm Examples.editing
       /\ filters s' = filters Examples.editing
       /\ saveStatus s' = saveStatus Examples.editing
       /\ showFilters s' = showFilters Examples.editing.
Proof.
  assert (Hall : Forall sessionAction
            [ Action.setEditingLog (Some Examples.log);
              Action.updateEditingLogField (ServiceLog.set_field (Fields.set_carId "C2")) ])
    by (repeat constructor).
  split; [exact Hall|]. eexists. split; [by vm_compute|]. split; [discriminate|].
  apply (edit_session_is_isolated (host := Examples.utcHost) Examples.env _
           Examples.editing _ Hall).
  by vm_compute.
Defined.

(** ** The number and the compatibility of the validation messages *)

Section ValidationBounds.
Context {host : JS.Host}.

Lemma pushIf_false m : pushIf false m [] = [].
Proof. reflexivity. Qed.

Lemma pushIf_length b m : (length (pushIf b m []) <= 1)%nat.
Proof. destruct b; simpl; lia. Qed.

Lemma endBeforeStart_truthy sd ed :
  endBeforeStart sd ed = true ->
  exists a b, sd = Some a /\ ed = Some b /\ JS.falsy a = false /\ JS.falsy b = false.
Proof.
  unfold endBeforeStart. destruct sd as [a|]; [|done]. destruct ed as [b|]; [|done].
  intros Hb. apply andb_true_iff in Hb as [Hb _]. apply andb_true_iff in Hb as [Hs He].
  apply negb_true_iff in Hs, He. by exists a, b.
Qed.

Lemma validate_length data :
  (length (validateServiceLog data)
   <= (if endBeforeStart (Partial.startDate data) (Partial.endDate data)
       then 7 else 8))%nat.
Proof.
  rewrite validateServiceLog_blocks, !length_app.
  destruct (endBeforeStart _ _) eqn:Hb.
  - apply endBeforeStart_truthy in Hb as (a & b & -> & -> & Ha & Hb).
    simpl. rewrite Ha, Hb, !pushIf_false. simpl length.
    repeat match goal with
           | |- context [length (pushIf ?b ?m [])] =>
               let n := fresh "n" in
               pose proof (pushIf_length b m);
               set (n := length (pushIf b m [])) in *; clearbody n
           end.
    lia.
  - rewrite !pushIf_false. simpl length.
    repeat match goal with
           | |- context [length (pushIf ?b ?m [])] =>
               let n := fresh "n" in
               pose proof (pushIf_length b m);
               set (n := length (pushIf b m [])) in *; clearbody n
           end.
    lia.
Qed.
End ValidationBounds.

(** X13. The date-order message never comes with a "required" message
    for a date: when the messages of [validateServiceLog] contain "End date
    must be after start date", they contain neither "Start date is required"
    nor "End date is required", and there are at most seven of them. *)
Theorem date_order_message_excludes_missing {host : JS.Host} data :
  "End date must be after start date" ∈ validateServiceLog data ->
  ("Start date is required" ∉ validateServiceLog data)
  /\ ("End date is required" ∉ validateServiceLog data)
  /\ (length (validateServiceLog data) <= 7)%nat.
Proof.
  intros H.
  assert (Hb : endBeforeStart (Partial.startDate data) (Partial.endDate data) = true).
  { revert H. rewrite validateServiceLog_blocks, !elem_of_app, !elem_of_pushIf.
    intros H. repeat destruct H as [H | H]; by destruct H. }
  pose proof (validate_length data) as Hlen. rewrite Hb in Hlen.
  split; [|split; [|exact Hlen]];
    rewrite validateServiceLog_blocks, !elem_of_app, !elem_of_pushIf;
    apply endBeforeStart_truthy in Hb as (a & b & -> & -> & Ha & Hb);
    simpl; rewrite Ha, Hb;
    intros Hin; repeat destruct Hin as [Hin | Hin]; by destruct Hin.
Qed.

Lemma date_order_message_excludes_missing_witness :
  ("End date must be after start date"
     ∈ validateServiceLog (host := Examples.utcHost)
         (Partial.mk (Some "") (Some "S1") None (Some (JS.ofZ 100)) (Some (JS.ofZ 5))
                     (Some "2024-01-05") (Some "2024-01-01") (Some "oil change")))
  /\ ("Start date is required"
        ∉ validateServiceLog (host := Examples.utcHost)
            (Partial.mk (Some "") (Some "S1") None (Some (JS.ofZ 100)) (Some (JS.ofZ 5))
                        (Some "2024-01-05") (Some "2024-01-01") (Some "oil change")))
  /\ ("End date is required"
        ∉ validateServiceLog (host := Examples.utcHost)
            (Partial.mk (Some "") (Some "S1") None (Some (JS.ofZ 100)) (Some (JS.ofZ 5))
                        (Some "2024-01-05") (Some "2024-01-01") (Some "oil change")))
  /\ (length (validateServiceLog (host := Examples.utcHost)
                (Partial.mk (Some "") (Some "S1") None (Some (JS.ofZ 100)) (Some (JS.ofZ 5))
                            (Some "2024-01-05") (Some "2024-01-01") (Some "oil change")))
      <= 7)%nat.
Proof.
  assert (Hin : "End date must be after start date"
                  ∈ validateServiceLog (host := Examples.utcHost)
                      (Partial.mk (Some "") (Some "S1") None (Some (JS.ofZ 100))
                                  (Some (JS.ofZ 5)) (Some "2024-01-05") (Some "2024-01-01")
                                  (Some "oil change"))).
  { change ("End date must be after start date"
              ∈ ["Provider ID is required"; "Car ID is required";
                 "End date must be after start date"]).
    do 2 apply list_elem_of_further. apply list_elem_of_here. }
  split; [exact Hin|].
  exact (date_order_message_excludes_missing (host := Examples.utcHost) _ Hin).
Defined.

(** X14. [validateServiceLog] never returns more than eight messages,
    although it has nine: the date-order message needs both dates, and each
    missing date takes the place of it. *)
Theorem validate_at_most_eight {host : JS.Host} data :
  (length (validateServiceLog data) <= 8)%nat.
Proof.
  pose proof (validate_length data) as H. destruct (endBeforeStart _ _); lia.
Qed.

(** X15. On calendar dates in the form YYYY-MM-DD the string comparisons
    [<=] and [>=] of the filtered view decide the order of the days, and the
    Date comparison of [validateServiceLog] agrees with them: the end date
    is before the start date exactly when it is not [>=] it as a string. *)
Theorem date_checks_agree {host : JS.Host} a b y m d y' m' d' :
  Spec.isCalendarDate a y m d -> Spec.isCalendarDate b y' m' d' ->
  (JS.str_le a b = true <-> JS.MakeDay y (m - 1) d <= JS.MakeDay y' (m' - 1) d')
  /\ (JS.str_ge a b = true <-> JS.MakeDay y' (m' - 1) d' <= JS.MakeDay y (m - 1) d)
  /\ dateBefore a b = negb (JS.str_ge a b).
Proof.
  intros Ha Hb. unfold JS.str_le, JS.str_ge.
  pose proof (date_strings_ordered a b _ _ _ _ _ _ Ha Hb) as Hab.
  pose proof (date_strings_ordered b a _ _ _ _ _ _ Hb Ha) as Hba.
  split; [done|]. split; [done|].
  unfold dateBefore.
  rewrite (Date_parse_calendar _ _ _ _ Ha), (Date_parse_calendar _ _ _ _ Hb).
  unfold JS.MakeDate, JS.msPerDay.
  destruct (String.leb b a) eqn:Hl; simpl.
  - apply Z.ltb_ge. assert (JS.MakeDay y' (m' - 1) d' <= JS.MakeDay y (m - 1) d)
      by (by apply Hba). lia.
  - apply Z.ltb_lt.
    destruct (Z_lt_le_dec (JS.MakeDay y (m - 1) d) (JS.MakeDay y' (m' - 1) d')) as [|Hle];
      [lia|]. apply Hba in Hle. discriminate Hle.
Qed.

Lemma date_checks_agree_witness :
  Spec.isCalendarDate "2024-02-29" 2024 2 29
  /\ Spec.isCalendarDate "2024-03-01" 2024 3 1
  /\ (JS.str_le "2024-02-29" "2024-03-01" = true
      <-> JS.MakeDay 2024 (2 - 1) 29 <= JS.MakeDay 2024 (3 - 1) 1)
  /\ (JS.str_ge "2024-02-29" "2024-03-01" = true
      <-> JS.MakeDay 2024 (3 - 1) 1 <= JS.MakeDay 2024 (2 - 1) 29)
  /\ dateBefore (host := Examples.utcHost) "2024-02-29" "2024-03-01"
     = negb (JS.str_ge "2024-02-29" "2024-03-01").
Proof.
  assert (Ha : Spec.isCalendarDate "2024-02-29" 2024 2 29) by (by vm_compute).
  assert (Hb : Spec.isCalendarDate "2024-03-01" 2024 3 1) by (by vm_compute).
  split; [exact Ha|]. split; [exact Hb|].
  exact (date_checks_agree (host := Examples.utcHost) _ _ _ _ _ _ _ _ Ha Hb).
Defined.

(** ** The filtered view, after the actions that change it *)

Section ViewRuns.
Context {host : JS.Host}.

Lemma List_filter_true {A} (f : A -> bool) (l : list A) :
  (forall x, In x l -> f x = true) -> List.filter f l = l.
Proof.
  induction l as [|x l IH]; intros H; simpl; [done|].
  rewrite (H x) by (by left). f_equal. apply IH. intros y Hy. apply H. by right.
Qed.

Lemma toLowerCase_empty t : JS.toLowerCase t = "" <-> t = "".
Proof.
  destruct t as [|c t]; simpl; (split; intros H; [|]); try reflexivity; try discriminate H.
Qed.

Lemma matchesSearch_lower s t1 t2 log :
  JS.toLowerCase t1 = JS.toLowerCase t2 ->
  matchesSearch (setSearchTerm s t1) log = matchesSearch (setSearchTerm s t2) log.
Proof.
  intros Hl.
  assert (Hb : bool_decide (t1 = "") = bool_decide (t2 = "")).
  { apply bool_decide_ext. rewrite <- (toLowerCase_empty t1), <- (toLowerCase_empty t2).
    split; congruence. }
  unfold matchesSearch.
  change (searchTerm (setSearchTerm s t1)) with t1.
  change (searchTerm (setSearchTerm s t2)) with t2.
  rewrite Hb. f_equal. revert Hl.
  generalize (JS.toLowerCase t1), (JS.toLowerCase t2). intros a b ->. reflexivity.
Qed.

Lemma List_filter_filter {A} (f g : A -> bool) (l : list A) :
  List.filter f (List.filter g l) = List.filter (fun x => g x && f x) l.
Proof.
  induction l as [|x l IH]; simpl; [done|].
  destruct (g x); simpl; [destruct (f x)|]; by rewrite ?IH.
Qed.

End ViewRuns.

(** X16. When both bounds of the date filter and the start date of a
    record are calendar dates in the form YYYY-MM-DD, the record passes the
    date filter exactly when its day is not before the day of the lower
    bound and not after the day of the upper bound. *)
Theorem date_range_filter_is_calendar state log yf mf df yt mt dt y m d :
  Spec.isCalendarDate (Filters.startDateFrom (filters state)) yf mf df ->
  Spec.isCalendarDate (Filters.startDateTo (filters state)) yt mt dt ->
  Spec.isCalendarDate (Fields.startDate (ServiceLog.fields log)) y m d ->
  matchesDateRange state log = true
  <-> JS.MakeDay yf (mf - 1) df <= JS.MakeDay y (m - 1) d <= JS.MakeDay yt (mt - 1) dt.
Proof.
  intros Hf Ht Hl. unfold matchesDateRange.
  rewrite (isCalendarDate_truthy _ _ _ _ Hf), (isCalendarDate_truthy _ _ _ _ Ht).
  simpl. rewrite andb_true_iff. unfold JS.str_ge, JS.str_le.
  rewrite (date_strings_ordered _ _ _ _ _ _ _ _ Hf Hl).
  rewrite (date_strings_ordered _ _ _ _ _ _ _ _ Hl Ht). done.
Qed.

Lemma date_range_filter_is_calendar_witness :
  Spec.isCalendarDate "2024-01-05" 2024 1 5
  /\ Spec.isCalendarDate "2024-01-09" 2024 1 9
  /\ Spec.isCalendarDate "2024-01-06" 2024 1 6
  /\ matchesDateRange
       (setFilters Examples.mixed (Filters.mkPartial None (Some "2024-01-09") None))
       (Examples.logOn "log_6" "2024-01-06" unplanned) = true.
Proof.
  assert (Hf : Spec.isCalendarDate "2024-01-05" 2024 1 5) by (by vm_compute).
  assert (Ht : Spec.isCalendarDate "2024-01-09" 2024 1 9) by (by vm_compute).
  assert (Hl : Spec.isCalendarDate "2024-01-06" 2024 1 6) by (by vm_compute).
  split; [exact Hf|]. split; [exact Ht|]. split; [exact Hl|].
  apply (date_range_filter_is_calendar
           (setFilters Examples.mixed (Filters.mkPartial None (Some "2024-01-09") None))
           (Examples.logOn "log_6" "2024-01-06" unplanned)
           2024 1 5 2024 1 9 2024 1 6 Hf Ht Hl).
  by vm_compute.
Defined.

(** X17. After [clearFilters] the filtered view shows every record, in
    order; the records themselves and the filter panel flag are
    unchanged. *)
Theorem clearFilters_shows_all {host : JS.Host} s :
  filteredLogs (clearFilters s) = serviceLogs s
  /\ serviceLogs (clearFilters s) = serviceLogs s
  /\ showFilters (clearFilters s) = showFilters s.
Proof.
  split; [|split; reflexivity]. unfold filteredLogs.
  change (serviceLogs (clearFilters s)) with (serviceLogs s).
  apply List_filter_true. intros log _.
  rewrite !andb_true_iff, matchesSearch_spec, matchesDateRange_spec, matchesType_spec.
  repeat split; left; reflexivity.
Qed.

(** X18. The search ignores the case of the search term: two terms with
    the same lower-case form give the same filtered view. *)
Theorem search_ignores_case {host : JS.Host} s t1 t2 :
  JS.toLowerCase t1 = JS.toLowerCase t2 ->
  filteredLogs (setSearchTerm s t1) = filteredLogs (setSearchTerm s t2).
Proof.
  intros Hl. unfold filteredLogs.
  change (serviceLogs (setSearchTerm s t1)) with (serviceLogs s).
  change (serviceLogs (setSearchTerm s t2)) with (serviceLogs s).
  apply filter_ext. intros log.
  rewrite (matchesSearch_lower s t1 t2 log Hl). reflexivity.
Qed.

Lemma search_ignores_case_witness :
  JS.toLowerCase "LOG_9" = JS.toLowerCase "log_9"
  /\ filteredLogs (host := Examples.utcHost) (setSearchTerm Examples.mixed "LOG_9")
     = filteredLogs (host := Examples.utcHost) (setSearchTerm Examples.mixed "log_9")
  /\ filteredLogs (host := Examples.utcHost) (setSearchTerm Examples.mixed "log_9")
     = [Examples.logOn "log_9" "2024-01-09" planned].
Proof.
  assert (Hl : JS.toLowerCase "LOG_9" = JS.toLowerCase "log_9") by reflexivity.
  split; [exact Hl|].
  split; [exact (search_ignores_case (host := Examples.utcHost) Examples.mixed _ _ Hl)|].
  by vm_compute.
Defined.

(** X19. With no type filter set, [setFilters] with a type narrows the
    view: the new filtered view is the old one restricted to the records of
    that type, in the same order. *)
Theorem setFilters_type_narrows {host : JS.Host} s t :
  Filters.type (filters s) = None ->
  filteredLogs (setFilters s (Filters.mkPartial None None (Some (Some t))))
  = List.filter (fun log => bool_decide (Fields.type (ServiceLog.fields log) = t))
                (filteredLogs s).
Proof.
  intros Hnone. unfold filteredLogs. rewrite List_filter_filter.
  change (serviceLogs (setFilters s _)) with (serviceLogs s).
  apply filter_ext. intros log.
  unfold matchesType, matchesDateRange, matchesSearch, setFilters, Filters.merge.
  rewrite Hnone. cbn [filters set_filters searchTerm Filters.type Filters.startDateFrom
                        Filters.startDateTo default].
  by rewrite andb_true_r.
Qed.

Lemma setFilters_type_narrows_witness :
  Filters.type (filters (clearFilters Examples.mixed)) = None
  /\ filteredLogs (host := Examples.utcHost)
       (setFilters (clearFilters Examples.mixed)
                   (Filters.mkPartial None None (Some (Some emergency))))
     = [ Examples.logOn "log_4" "2024-01-04" emergency;
         Examples.logOn "log_10" "2024-01-10" emergency ].
Proof.
  split; [reflexivity|].
  rewrite (setFilters_type_narrows (host := Examples.utcHost)
             (clearFilters Examples.mixed) emergency eq_refl).
  by vm_compute.
Defined.

(** ** Persisting again *)

Section PersistAgain.
Context {host : JS.Host}.

Lemma with_isDirty_twice b (l : list Draft.t) :
  Draft.with_isDirty b <$> (Draft.with_isDirty b <$> l) = Draft.with_isDirty b <$> l.
Proof. rewrite <- list_fmap_compose. by apply list_fmap_ext. Qed.

End PersistAgain.

(** X20. [persistToLocalStorage] overwrites, when it can. No other key
    of the store is ever touched. When [localStorage] accepts the write of a
    second state, the items are those of the store before the first call
    with the blob of the second state under the key, as if only that state
    had been persisted, and [loadFromLocalStorage] returns that blob. When
    it refuses the second write, the error is swallowed and the store stays
    as the first call left it. *)
Theorem persist_last_write_wins (s1 s2 : RootStateServiceLog) (ls : Storage) :
  (forall k, k <> LOCAL_STORAGE_KEY ->
             items (persistToLocalStorage s1 ls) !! k = items ls !! k)
  /\ (Spec.writeAccepted s2 (persistToLocalStorage s1 ls) ->
      items (persistToLocalStorage s2 (persistToLocalStorage s1 ls))
      = <[LOCAL_STORAGE_KEY := JSONText (toSave s2)]> (items ls)
      /\ loadFromLocalStorage (persistToLocalStorage s2 (persistToLocalStorage s1 ls))
         = toSave s2)
  /\ (~ Spec.writeAccepted s2 (persistToLocalStorage s1 ls) ->
      persistToLocalStorage s2 (persistToLocalStorage s1 ls)
      = persistToLocalStorage s1 ls).
Proof.
  assert (Hfirst : items (persistToLocalStorage s1 ls) = items ls
                   \/ items (persistToLocalStorage s1 ls)
                      = <[LOCAL_STORAGE_KEY := JSONText (toSave s1)]> (items ls)).
  { unfold persistToLocalStorage, setItem.
    destruct (accepts ls (items ls) _ _); [by right | by left]. }
  split; [|split].
  - intros k Hk. destruct Hfirst as [-> | ->]; [done | by rewrite lookup_insert_ne].
  - intros Hacc. split; [|by apply load_persist].
    rewrite (persist_accepted _ _ Hacc). simpl.
    destruct Hfirst as [-> | ->]; [done | by rewrite insert_insert_eq].
  - apply persist_refused.
Qed.

Lemma persist_last_write_wins_witness :
  Spec.writeAccepted Examples.editing
    (persistToLocalStorage Examples.oneDraft Examples.emptyStorage)
  /\ loadFromLocalStorage
       (persistToLocalStorage Examples.editing
          (persistToLocalStorage Examples.oneDraft Examples.emptyStorage))
     = toSave Examples.editing
  /\ ~ Spec.writeAccepted Examples.editing
        (persistToLocalStorage Examples.oneDraft Examples.fullStorage)
  /\ persistToLocalStorage Examples.editing
       (persistToLocalStorage Examples.oneDraft Examples.fullStorage)
     = Examples.fullStorage.
Proof.
  assert (Hacc : Spec.writeAccepted Examples.editing
                   (persistToLocalStorage Examples.oneDraft Examples.emptyStorage))
    by reflexivity.
  assert (Hno : ~ Spec.writeAccepted Examples.editing
                    (persistToLocalStorage Examples.oneDraft Examples.fullStorage))
    by (intros H; discriminate H).
  split; [exact Hacc|]. split; [|split; [exact Hno|]].
  - destruct (persist_last_write_wins Examples.oneDraft Examples.editing
                Examples.emptyStorage) as (_ & Haccepted & _).
    exact (proj2 (Haccepted Hacc)).
  - destruct (persist_last_write_wins Examples.oneDraft Examples.editing
                Examples.fullStorage) as (_ & _ & Hrefused).
    rewrite (Hrefused Hno). reflexivity.
Defined.

(** X21. Restoring is stable: when [loadFromStorage] merges the blob
    persisted from a state [s0] into any state, the result has the records
    of [s0], its drafts and current draft with [isDirty] false, and every
    other field from the state merged into; persisting that result writes
    the same blob as persisting [s0]. *)
Theorem persist_restore_persist s s0 p (ls : Storage) :
  Spec.restoredFrom s0 p ->
  serviceLogs (loadFromStorage s p) = serviceLogs s0
  /\ drafts (loadFromStorage s p) = Draft.with_isDirty false <$> drafts s0
  /\ currentDraft (loadFromStorage s p) = Draft.with_isDirty false <$> currentDraft s0
  /\ searchTerm (loadFromStorage s p) = searchTerm s
  /\ filters (loadFromStorage s p) = filters s
  /\ editingLog (loadFromStorage s p) = editingLog s
  /\ saveStatus (loadFromStorage s p) = saveStatus s
  /\ validationErrors (loadFromStorage s p) = validationErrors s
  /\ showFilters (loadFromStorage s p) = showFilters s
  /\ persistToLocalStorage (loadFromStorage s p) ls = persistToLocalStorage s0 ls.
Proof.
  intros [ls0 [Hacc Hp]]. rewrite (load_persist _ _ Hacc) in Hp.
  apply asPayload_toSave_inv in Hp as ->.
  repeat (split; [reflexivity|]).
  unfold persistToLocalStorage, setItem, toSave. simpl.
  rewrite with_isDirty_twice. by destruct (currentDraft s0).
Qed.

Lemma persist_restore_persist_witness :
  exists p,
    Spec.restoredFrom Examples.oneDraft p
    /\ loadFromStorage Examples.editing p
       = mkState [] [Examples.draft] (Some Examples.draft) ""
                 (Filters.mk "" "" None) (Some Examples.log) saving [] true
    /\ persistToLocalStorage (loadFromStorage Examples.editing p) Examples.emptyStorage
       = persistToLocalStorage Examples.oneDraft Examples.emptyStorage.
Proof.
  eexists. 
  assert (Hp : Spec.restoredFrom Examples.oneDraft
                 (mkPayload (Some []) (Some [Examples.draft]) (Some (Some Examples.draft))
                            None None None None None None)).
  { exists Examples.emptyStorage. split; [reflexivity | by vm_compute]. }
  split; [exact Hp|]. split; [reflexivity|].
  apply (persist_restore_persist Examples.editing
           Examples.oneDraft _ Examples.emptyStorage Hp).
Defined.
